(** * Result normalizer of the document-review application

    A shallow embedding of the field/region normalization layer of
    [idp_app/app_main.py] and of the helpers around it (page metadata,
    usage summary, cost estimate, display of values), together with the
    Python built-ins they rely on; the properties of that layer stated in
    the design document, and further properties read off the code.

    Conventions of the embedding:
    - a Python [str] is a list of code points below 256 ([list ascii]);
    - a Python [float] is a kernel binary64 float ([PrimFloat.float]);
    - a Python [int] is a [Z];
    - a [dict] is an association list with distinct keys, in insertion order;
    - a function that can raise returns a [result]; [try/except Exception]
      becomes [try_except];
    - object identity is represented where the de-duplication of regions
      depends on it: the NaN of a decoded result is one object, which a
      set of tuples finds again ([same_object]); the identity shortcut of
      list comparison inside [min] and [max] (which differs from [==]
      only on NaN) is not modelled, nor is the interpreter's recursion
      limit. *)

From Stdlib Require Import String.
From Stdlib Require Import ZArith List Ascii Bool Lia DecimalString.
From Stdlib Require Import Floats.PrimFloat Floats.SpecFloat Floats.FloatOps.
From Stdlib Require Import Floats.FloatAxioms.
Import ListNotations.
Local Open Scope Z_scope.
Local Open Scope list_scope.

(* ================================================================== *)
(** * Python built-ins *)
(* ================================================================== *)

(** ** Exceptions and the error monad *)

Inductive exn : Set :=
| AttributeError | IndexError | KeyError | OverflowError
| TypeError | ValueError | ZeroDivisionError.

Inductive result (A : Type) : Type :=
| Ok (a : A)
| Raise (e : exn).

Arguments Ok {A} a.
Arguments Raise {A} e.

Definition bind {A B : Type} (c : result A) (k : A -> result B) : result B :=
  match c with
  | Ok a => k a
  | Raise e => Raise e
  end.

Notation "x <- c ;; k" := (bind c (fun x => k))
  (at level 61, c at next level, right associativity).
Notation "' p <- c ;; k" := (bind c (fun x => let p := x in k))
  (at level 61, p pattern, c at next level, right associativity).

(** [try: body except Exception: handler] *)
Definition try_except {A : Type} (body : result A) (handler : result A) : result A :=
  match body with
  | Ok a => Ok a
  | Raise _ => handler
  end.

(** [for x in xs: acc.extend(f x)], the first exception escaping. *)
Fixpoint extend_each {A B : Type} (f : A -> result (list B)) (xs : list A)
  : result (list B) :=
  match xs with
  | [] => Ok []
  | x :: xs' => ys <- f x ;; zs <- extend_each f xs' ;; Ok (ys ++ zs)
  end.

Definition raises {A : Type} (c : result A) : Prop :=
  exists e, c = Raise e.

Definition returns {A : Type} (c : result A) : Prop :=
  exists a, c = Ok a.

(** ** Strings *)

Definition str : Set := list ascii.

Definition py (s : String.string) : str := String.list_ascii_of_string s.

Arguments py : simpl never.

Fixpoint str_eqb (a b : str) : bool :=
  match a, b with
  | [], [] => true
  | x :: a', y :: b' => Ascii.eqb x y && str_eqb a' b'
  | _, _ => false
  end.

(** [c.isspace()] on the code points below 256. *)
Definition is_space (c : ascii) : bool :=
  let n := Z.of_N (N_of_ascii c) in
  ((9 <=? n) && (n <=? 13)) || ((28 <=? n) && (n <=? 32))
  || (n =? 133) || (n =? 160).

Fixpoint lstrip (s : str) : str :=
  match s with
  | [] => []
  | c :: s' => if is_space c then lstrip s' else s
  end.

Definition rstrip (s : str) : str := rev (lstrip (rev s)).

(** [s.strip()] *)
Definition strip (s : str) : str := rstrip (lstrip s).

(** [c in s] for a one-character [c]. *)
Definition contains (c : ascii) (s : str) : bool :=
  existsb (Ascii.eqb c) s.

(** [s.find(c)] for a one-character [c]: the first index, or -1. *)
Fixpoint find (c : ascii) (s : str) : Z :=
  match s with
  | [] => -1
  | x :: s' =>
      if Ascii.eqb x c then 0
      else let i := find c s' in if i <? 0 then -1 else i + 1
  end.

(** [s.endswith(c)] for a one-character [c]. *)
Definition endswith (c : ascii) (s : str) : bool :=
  match rev s with
  | x :: _ => Ascii.eqb x c
  | [] => false
  end.

(** [s.split(c)] for a one-character separator: never empty. *)
Fixpoint split (sep : ascii) (s : str) : list str :=
  match s with
  | [] => [[]]
  | c :: s' =>
      if Ascii.eqb c sep then [] :: split sep s'
      else match split sep s' with
           | h :: t => (c :: h) :: t
           | [] => [[c]]
           end
  end.

(** [sep.join(parts)] *)
Fixpoint join (sep : ascii) (parts : list str) : str :=
  match parts with
  | [] => []
  | [p] => p
  | p :: ps => p ++ sep :: join sep ps
  end.

(** ** Sequences: length, indexing and slices *)

Definition len {A : Type} (l : list A) : Z := Z.of_nat (length l).

(** A slice bound as Python normalises it against the length. *)
Definition slice_bound (n i : Z) : Z :=
  if i <? 0 then Z.max (i + n) 0 else Z.min i n.

(** [l[lo:hi]] *)
Definition slice {A : Type} (l : list A) (lo hi : Z) : list A :=
  let n := len l in
  let lo' := slice_bound n lo in
  let hi' := slice_bound n hi in
  firstn (Z.to_nat (hi' - lo')) (skipn (Z.to_nat lo') l).

(** [l[lo:]] *)
Definition slice_from {A : Type} (l : list A) (lo : Z) : list A :=
  slice l lo (len l).

(** [l[:hi]] *)
Definition slice_to {A : Type} (l : list A) (hi : Z) : list A :=
  slice l 0 hi.

(** [l[0::2]]: the elements at even positions. *)
Fixpoint every_other {A : Type} (l : list A) : list A :=
  match l with
  | [] => []
  | x :: l' => x :: match l' with [] => [] | _ :: l'' => every_other l'' end
  end.

(** [l[start::2]] for [start] 0 or 1. *)
Definition slice_step2 {A : Type} (l : list A) (start : nat) : list A :=
  every_other (skipn start l).

(** [l[i]] for a non-negative literal index. *)
Definition index {A : Type} (l : list A) (i : nat) : result A :=
  match nth_error l i with
  | Some x => Ok x
  | None => Raise IndexError
  end.

(** ** Numbers *)

(** The binary64 float nearest to [n / d] (ties to even), for [0 <= n] and
    [0 < d]: the quotient is taken with at least 64 significant bits and a
    sticky bit for the remainder, then rounded once. *)
Definition round_ratio (neg : bool) (n d : Z) : float :=
  if n =? 0 then (if neg then neg_zero else zero)
  else
    let s := Z.max 0 (64 + Z.log2 d - Z.log2 n) in
    let q := (n * 2 ^ s) / d in
    let r := (n * 2 ^ s) mod d in
    let m := 2 * q + (if r =? 0 then 0 else 1) in
    SF2Prim (binary_normalize prec emax (if neg then - m else m) (- s - 1) neg).

(** [float(n)] for an [int]. *)
Definition float_of_int (n : Z) : result float :=
  let f := round_ratio (n <? 0) (Z.abs n) 1 in
  if is_infinity f then Raise OverflowError else Ok f.

(** [a / b] for two [int]s. *)
Definition int_truediv (a b : Z) : result float :=
  if b =? 0 then Raise ZeroDivisionError
  else
    let f := round_ratio (xorb (a <? 0) (b <? 0)) (Z.abs a) (Z.abs b) in
    if is_infinity f then Raise OverflowError else Ok f.

(** [int(f)] for a [float]: truncation toward zero. *)
Definition int_of_float (f : float) : result Z :=
  match Prim2SF f with
  | S754_zero _ => Ok 0
  | S754_finite s m e =>
      let v := if 0 <=? e then Z.pos m * 2 ^ e else Z.pos m / 2 ^ (- e) in
      Ok (if s then - v else v)
  | S754_infinity _ => Raise OverflowError
  | S754_nan => Raise ValueError
  end.

(** The exact comparison of a float with an integer; [None] for NaN. *)
Definition float_cmp_int (f : float) (n : Z) : option comparison :=
  match Prim2SF f with
  | S754_nan => None
  | S754_infinity s => Some (if s then Lt else Gt)
  | S754_zero _ => Some (0 ?= n)
  | S754_finite s m e =>
      let sm := if s then Z.neg m else Z.pos m in
      Some (if 0 <=? e then sm * 2 ^ e ?= n else sm ?= n * 2 ^ (- e))
  end.

Definition is_digit (c : ascii) : bool :=
  let n := Z.of_N (N_of_ascii c) in (48 <=? n) && (n <=? 57).

Definition digit_val (c : ascii) : Z := Z.of_N (N_of_ascii c) - 48.

(** ASCII lower-casing, as the numeric parsers compare keywords. *)
Definition lower (c : ascii) : ascii :=
  let n := N_of_ascii c in
  if ((65 <=? n) && (n <=? 90))%N then ascii_of_N (n + 32) else c.

(** Underscores in a numeric literal sit between two digits. *)
Fixpoint underscores_ok (prev_digit : bool) (s : str) : bool :=
  match s with
  | [] => true
  | c :: s' =>
      if Ascii.eqb c "_"
      then prev_digit
           && match s' with d :: _ => is_digit d | [] => false end
           && underscores_ok false s'
      else underscores_ok (is_digit c) s'
  end.

Definition drop_underscores (s : str) : str :=
  filter (fun c => negb (Ascii.eqb c "_")) s.

(** The longest prefix of digits, as values, and what follows it. *)
Fixpoint span_digits (s : str) : list Z * str :=
  match s with
  | c :: s' =>
      if is_digit c
      then let '(ds, r) := span_digits s' in (digit_val c :: ds, r)
      else ([], s)
  | [] => ([], [])
  end.

Definition digits_to_int (ds : list Z) : Z :=
  fold_left (fun a d => 10 * a + d) ds 0.

(** An optional sign: whether it is a minus, and what follows it. *)
Definition take_sign (s : str) : bool * str :=
  match s with
  | c :: s' =>
      if Ascii.eqb c "-" then (true, s')
      else if Ascii.eqb c "+" then (false, s')
      else (false, s)
  | [] => (false, [])
  end.

(** A decimal literal [digits [. digits] [e [sign] digits]] with a digit in
    its mantissa, as mantissa and power of ten. *)
Definition parse_decimal (s : str) : option (Z * Z) :=
  let '(ip, r1) := span_digits s in
  let '(fp, r2) :=
    match r1 with
    | c :: r => if Ascii.eqb c "." then span_digits r else ([], r1)
    | [] => ([], r1)
    end in
  match ip ++ fp with
  | [] => None
  | ds =>
      let m := digits_to_int ds in
      let k := len fp in
      match r2 with
      | [] => Some (m, - k)
      | c :: r3 =>
          if Ascii.eqb (lower c) "e" then
            let '(eneg, r4) := take_sign r3 in
            match span_digits r4 with
            | ((_ :: _) as ed, []) =>
                let e := digits_to_int ed in
                Some (m, (if eneg then - e else e) - k)
            | _ => None
            end
          else None
      end
  end.

(** The white space [float] and [int] skip around a numeral: the ASCII
    white space of C and, turned into U+0020 beforehand, the spaces above
    U+007F. The separators U+001C to U+001F, which [str.strip] removes,
    are not skipped. *)
Definition is_numeral_space (c : ascii) : bool :=
  let n := Z.of_N (N_of_ascii c) in
  ((9 <=? n) && (n <=? 13)) || (n =? 32) || (n =? 133) || (n =? 160).

Fixpoint skip_numeral_space (s : str) : str :=
  match s with
  | [] => []
  | c :: s' => if is_numeral_space c then skip_numeral_space s' else s
  end.

(** A numeral without the white space around it. *)
Definition numeral_of (s : str) : str :=
  rev (skip_numeral_space (rev (skip_numeral_space s))).

(** [float(s)] for a [str]. *)
Definition float_of_string (s : str) : result float :=
  let t := numeral_of s in
  if negb (underscores_ok false t) then Raise ValueError
  else
    let '(neg, body) := take_sign (drop_underscores t) in
    let word := map lower body in
    if str_eqb word (py "inf") || str_eqb word (py "infinity")
    then Ok (if neg then neg_infinity else infinity)
    else if str_eqb word (py "nan") then Ok nan
    else match parse_decimal body with
         | Some (m, e) =>
             Ok (if 0 <=? e then round_ratio neg (m * 10 ^ e) 1
                 else round_ratio neg m (10 ^ (- e)))
         | None => Raise ValueError
         end.

(** [int(s)] for a [str], in base ten. *)
Definition int_of_string (s : str) : result Z :=
  let t := numeral_of s in
  if negb (underscores_ok false t) then Raise ValueError
  else
    let '(neg, body) := take_sign (drop_underscores t) in
    match span_digits body with
    | ((_ :: _) as ds, []) =>
        let n := digits_to_int ds in Ok (if neg then - n else n)
    | _ => Raise ValueError
    end.

(** ** Values *)

(** What [json] decoding produces, and what the normalizer walks. *)
#[local] Unset Elimination Schemes.
Inductive pyobj : Type :=
| VNone
| VBool (b : bool)
| VInt (n : Z)
| VFloat (f : float)
| VStr (s : str)
| VList (l : list pyobj)
| VDict (d : list (str * pyobj)).
#[local] Set Elimination Schemes.

(** [bool(v)] *)
Definition truthy (v : pyobj) : bool :=
  match v with
  | VNone => false
  | VBool b => b
  | VInt n => negb (n =? 0)
  | VFloat f => negb (PrimFloat.eqb f zero)
  | VStr s => match s with [] => false | _ => true end
  | VList l => match l with [] => false | _ => true end
  | VDict d => match d with [] => false | _ => true end
  end.

(** [a or b] on operands already evaluated. *)
Definition or_else (a b : pyobj) : pyobj :=
  if truthy a then a else b.

Definition is_str (v : pyobj) : bool :=
  match v with VStr _ => true | _ => false end.

Definition is_list (v : pyobj) : bool :=
  match v with VList _ => true | _ => false end.

Definition is_dict (v : pyobj) : bool :=
  match v with VDict _ => true | _ => false end.

(** ** Dictionaries *)

Fixpoint lookup (k : str) (d : list (str * pyobj)) : option pyobj :=
  match d with
  | [] => None
  | (k', v) :: d' => if str_eqb k' k then Some v else lookup k d'
  end.

(** [k in d] *)
Definition has_key (k : str) (d : list (str * pyobj)) : bool :=
  match lookup k d with Some _ => true | None => false end.

(** [d.get(k)] *)
Definition get (k : str) (d : list (str * pyobj)) : pyobj :=
  match lookup k d with Some v => v | None => VNone end.

(** [d[k]] *)
Definition getitem (k : str) (d : list (str * pyobj)) : result pyobj :=
  match lookup k d with Some v => Ok v | None => Raise KeyError end.

(** [d.values()] *)
Definition values (d : list (str * pyobj)) : list pyobj := map snd d.

(** [v.get(k)] on a value not known to be a mapping. *)
Definition attr_get (v : pyobj) (k : str) : result pyobj :=
  match v with
  | VDict d => Ok (get k d)
  | _ => Raise AttributeError
  end.

(** The items a [for] loop over [v] visits. *)
Definition iterate (v : pyobj) : result (list pyobj) :=
  match v with
  | VList l => Ok l
  | VDict d => Ok (map (fun kv => VStr (fst kv)) d)
  | VStr s => Ok (map (fun c => VStr [c]) s)
  | _ => Raise TypeError
  end.

(** ** Comparison and arithmetic of values *)

Inductive num : Set :=
| NInt (n : Z)
| NFloat (f : float).

Definition as_num (v : pyobj) : option num :=
  match v with
  | VBool b => Some (NInt (if b then 1 else 0))
  | VInt n => Some (NInt n)
  | VFloat f => Some (NFloat f)
  | _ => None
  end.

Definition num_eq (a b : num) : bool :=
  match a, b with
  | NInt m, NInt n => m =? n
  | NFloat f, NFloat g => PrimFloat.eqb f g
  | NFloat f, NInt n | NInt n, NFloat f =>
      match float_cmp_int f n with Some Eq => true | _ => false end
  end.

Definition num_lt (a b : num) : bool :=
  match a, b with
  | NInt m, NInt n => m <? n
  | NFloat f, NFloat g => PrimFloat.ltb f g
  | NFloat f, NInt n =>
      match float_cmp_int f n with Some Lt => true | _ => false end
  | NInt n, NFloat f =>
      match float_cmp_int f n with Some Gt => true | _ => false end
  end.

Fixpoint str_ltb (a b : str) : bool :=
  match a, b with
  | _, [] => false
  | [], _ :: _ => true
  | x :: a', y :: b' =>
      if Ascii.eqb x y then str_ltb a' b'
      else (N_of_ascii x <? N_of_ascii y)%N
  end.

(** [a == b] *)
Fixpoint py_eq (a b : pyobj) {struct a} : bool :=
  match a, b with
  | VNone, VNone => true
  | VStr s, VStr t => str_eqb s t
  | VList xs, VList ys =>
      (fix go (xs ys : list pyobj) : bool :=
         match xs, ys with
         | [], [] => true
         | x :: xs', y :: ys' => py_eq x y && go xs' ys'
         | _, _ => false
         end) xs ys
  | VDict d, VDict e =>
      (length d =? length e)%nat
      && (fix go (d : list (str * pyobj)) : bool :=
            match d with
            | [] => true
            | (k, v) :: d' =>
                match lookup k e with
                | Some w => py_eq v w
                | None => false
                end && go d'
            end) d
  | _, _ =>
      match as_num a, as_num b with
      | Some x, Some y => num_eq x y
      | _, _ => false
      end
  end.

(** [a < b] *)
Fixpoint py_lt (a b : pyobj) {struct a} : result bool :=
  match a, b with
  | VStr s, VStr t => Ok (str_ltb s t)
  | VList xs, VList ys =>
      (fix go (xs ys : list pyobj) : result bool :=
         match xs, ys with
         | _, [] => Ok false
         | [], _ :: _ => Ok true
         | x :: xs', y :: ys' =>
             if py_eq x y then go xs' ys' else py_lt x y
         end) xs ys
  | _, _ =>
      match as_num a, as_num b with
      | Some x, Some y => Ok (num_lt x y)
      | _, _ => Raise TypeError
      end
  end.

(** [a > b], which these types answer as [b < a]. *)
Definition py_gt (a b : pyobj) : result bool := py_lt b a.

(** The loop of [min] and [max]: the running choice is replaced by an item
    that compares strictly before it. *)
Fixpoint choose (before : pyobj -> pyobj -> result bool)
    (best : pyobj) (items : list pyobj) : result pyobj :=
  match items with
  | [] => Ok best
  | x :: items' =>
      b <- before x best ;;
      choose before (if b then x else best) items'
  end.

(** [min(l)] *)
Definition py_min (l : list pyobj) : result pyobj :=
  match l with
  | [] => Raise ValueError
  | x :: l' => choose py_lt x l'
  end.

(** [max(l)] *)
Definition py_max (l : list pyobj) : result pyobj :=
  match l with
  | [] => Raise ValueError
  | x :: l' => choose py_gt x l'
  end.

(** [float(v)] *)
Definition py_float (v : pyobj) : result float :=
  match v with
  | VFloat f => Ok f
  | VInt n => float_of_int n
  | VBool b => Ok (if b then one else zero)
  | VStr s => float_of_string s
  | _ => Raise TypeError
  end.

(** [int(v)] *)
Definition py_int (v : pyobj) : result Z :=
  match v with
  | VInt n => Ok n
  | VBool b => Ok (if b then 1 else 0)
  | VFloat f => int_of_float f
  | VStr s => int_of_string s
  | _ => Raise TypeError
  end.

(** [a / b] *)
Definition py_truediv (a b : pyobj) : result float :=
  match as_num a, as_num b with
  | Some (NInt m), Some (NInt n) => int_truediv m n
  | Some x, Some y =>
      f <- match x with NInt m => float_of_int m | NFloat f => Ok f end ;;
      g <- match y with NInt n => float_of_int n | NFloat g => Ok g end ;;
      if PrimFloat.eqb g zero then Raise ZeroDivisionError
      else Ok (PrimFloat.div f g)
  | _, _ => Raise TypeError
  end.

(** [a * s] for a float [s]. *)
Definition py_mul_float (a : pyobj) (s : float) : result float :=
  match as_num a with
  | Some (NInt m) => f <- float_of_int m ;; Ok (PrimFloat.mul f s)
  | Some (NFloat f) => Ok (PrimFloat.mul f s)
  | None => Raise TypeError
  end.

(** Whether [hash(v)] is defined. *)
Definition hashable (v : pyobj) : bool :=
  match v with
  | VList _ | VDict _ => false
  | _ => true
  end.

(** [[f(x) for x in xs]], the first exception escaping. *)
Fixpoint map_each {A B : Type} (f : A -> result B) (xs : list A)
  : result (list B) :=
  match xs with
  | [] => Ok []
  | x :: xs' => y <- f x ;; ys <- map_each f xs' ;; Ok (y :: ys)
  end.

(** Induction over a value and the values nested in it. *)
Fixpoint pyobj_ind (P : pyobj -> Prop)
    (HNone : P VNone)
    (HBool : forall b, P (VBool b))
    (HInt : forall n, P (VInt n))
    (HFloat : forall f, P (VFloat f))
    (HStr : forall s, P (VStr s))
    (HList : forall l, Forall P l -> P (VList l))
    (HDict : forall d, Forall (fun kv => P (snd kv)) d -> P (VDict d))
    (v : pyobj) {struct v} : P v :=
  let rec := pyobj_ind P HNone HBool HInt HFloat HStr HList HDict in
  match v with
  | VNone => HNone
  | VBool b => HBool b
  | VInt n => HInt n
  | VFloat f => HFloat f
  | VStr s => HStr s
  | VList l =>
      HList l ((fix all (l : list pyobj) : Forall P l :=
                  match l with
                  | [] => Forall_nil P
                  | x :: l' => Forall_cons x (rec x) (all l')
                  end) l)
  | VDict d =>
      HDict d ((fix all (d : list (str * pyobj))
                  : Forall (fun kv => P (snd kv)) d :=
                  match d with
                  | [] => Forall_nil _
                  | kv :: d' =>
                      Forall_cons kv
                        (match kv as p return P (snd p) with
                         | (_, x) => rec x
                         end) (all d')
                  end) d)
  end.

(* ================================================================== *)
(** * The normalizer: [idp_app/app_main.py] *)
(* ================================================================== *)

(** A region dictionary: the parser sets ["kind"], the region extractor
    does not; ["polygon"] is a list or [None]; ["bbox"] is a 4-tuple. *)
Record Region : Type := mkRegion {
  kind : option str;
  pageNumber : Z;
  polygon : pyobj;
  bbox : pyobj * pyobj * pyobj * pyobj
}.

(** An extracted field: the dictionary with keys ["name"], ["value"] and
    ["regions"]. *)
Record Field : Type := mkField {
  name : str;
  value : pyobj;
  regions : list Region
}.

Definition _coerce_polygon_to_bbox (polygon : list pyobj)
  : result (pyobj * pyobj * pyobj * pyobj) :=
  let xs := slice_step2 polygon 0 in
  let ys := slice_step2 polygon 1 in
  x0 <- py_min xs ;;
  y0 <- py_min ys ;;
  x1 <- py_max xs ;;
  y1 <- py_max ys ;;
  Ok (x0, y0, x1, y1).

(** The [try] block of [parse_cu_source_string]: [Ok None] is its
    [return None]. *)
Definition parse_numbers (parts : list str) : result (option (Z * list float)) :=
  p0 <- index parts 0 ;;
  f0 <- float_of_string p0 ;;
  page_num <- int_of_float f0 ;;
  coords <- map_each float_of_string (slice_from parts 1) ;;
  if len coords <? 8 then Ok None
  else Ok (Some (page_num, slice_to coords 8)).

(** [parse_cu_source_string] from the point where [kind] and [parts] are
    known. *)
Definition region_of_parts (kind : ascii) (parts : list str) : result (option Region) :=
  if len parts <? 9 then Ok None
  else
    parsed <- try_except (parse_numbers parts) (Ok None) ;;
    match parsed with
    | None => Ok None
    | Some (page_num, coords) =>
        let coords := map VFloat coords in
        bbox <- _coerce_polygon_to_bbox coords ;;
        Ok (Some {| kind := Some [kind];
                    pageNumber := page_num;
                    polygon := VList coords;
                    bbox := bbox |})
    end.

(** [[p.strip() for p in inner.split(",") if p.strip()]] *)
Definition parts_of (inner : str) : list str :=
  map strip (filter (fun p => truthy (VStr (strip p))) (split "," inner)).

Definition parse_cu_source_string (source : pyobj) : result (option Region) :=
  match source with
  | VStr s =>
      if negb (truthy source) then Ok None
      else
        let source := strip s in
        if (len source <? 4) || negb (contains "(" source)
           || negb (endswith ")" source)
        then Ok None
        else
          kind <- index source 0 ;;
          let inner := slice source (find "(" source + 1) (-1) in
          region_of_parts kind (parts_of inner)
  | _ => Ok None
  end.

(** [poly and isinstance(poly, list) and len(poly) >= 8] *)
Definition usable_polygon (poly : pyobj) : option (list pyobj) :=
  match poly with
  | VList l => if truthy poly && (8 <=? len l) then Some l else None
  | _ => None
  end.

(** [bbox and isinstance(bbox, list) and len(bbox) == 4], unpacked. *)
Definition usable_box (bbox : pyobj) : option (pyobj * pyobj * pyobj * pyobj) :=
  match bbox with
  | VList [x0; y0; x1; y1] => Some (x0, y0, x1, y1)
  | _ => None
  end.

(** The body of the loop over a non-empty list of bounding regions.
    [br.get] raises on an element that is not a mapping; on a mapping
    none of the look-ups has an effect, so they are taken together. *)
Definition region_of_bounding_region (page_num br : pyobj) : result (list Region) :=
  p1 <- attr_get br (py "pageNumber") ;;
  p2 <- attr_get br (py "page") ;;
  let p := or_else (or_else p1 p2) page_num in
  q1 <- attr_get br (py "polygon") ;;
  q2 <- attr_get br (py "points") ;;
  let poly := or_else q1 q2 in
  bbox <- attr_get br (py "boundingBox") ;;
  match usable_polygon poly with
  | Some l =>
      box <- _coerce_polygon_to_bbox l ;;
      n <- py_int p ;;
      Ok [ {| kind := None; pageNumber := n; polygon := poly; bbox := box |} ]
  | None =>
      match usable_box bbox with
      | Some box =>
          n <- py_int p ;;
          Ok [ {| kind := None; pageNumber := n; polygon := VNone; bbox := box |} ]
      | None => Ok []
      end
  end.

Definition _normalize_regions_from_source (src : list (str * pyobj))
  : result (list Region) :=
  let page_num :=
    or_else (or_else (get (py "pageNumber") src) (get (py "page") src))
            (get (py "pageIndex") src) in
  let bounding_regions :=
    or_else (or_else (get (py "boundingRegions") src) (get (py "regions") src))
            (VList []) in
  if is_list bounding_regions && truthy bounding_regions then
    brs <- iterate bounding_regions ;;
    extend_each (region_of_bounding_region page_num) brs
  else
    let poly := or_else (get (py "polygon") src) (get (py "points") src) in
    let bbox := get (py "boundingBox") src in
    match (if truthy page_num then usable_polygon poly else None) with
    | Some l =>
        box <- _coerce_polygon_to_bbox l ;;
        n <- py_int page_num ;;
        Ok [ {| kind := None; pageNumber := n; polygon := poly; bbox := box |} ]
    | None =>
        match (if truthy page_num then usable_box bbox else None) with
        | Some box =>
            n <- py_int page_num ;;
            Ok [ {| kind := None; pageNumber := n; polygon := VNone;
                    bbox := box |} ]
        | None => Ok []
        end
    end.

Fixpoint _gather_sources_recursive (node : pyobj) : list pyobj :=
  match node with
  | VDict d =>
      (if has_key (py "source") d then [get (py "source") d] else [])
      ++ (if has_key (py "sources") d then [get (py "sources") d] else [])
      ++ (if has_key (py "evidence") d then [get (py "evidence") d] else [])
      ++ (fix over_values (d : list (str * pyobj)) : list pyobj :=
            match d with
            | [] => []
            | (_, v) :: d' =>
                (if is_dict v || is_list v
                 then _gather_sources_recursive v else [])
                ++ over_values d'
            end) d
  | VList l =>
      (fix over_items (l : list pyobj) : list pyobj :=
         match l with
         | [] => []
         | item :: l' => _gather_sources_recursive item ++ over_items l'
         end) l
  | _ => []
  end.

(** The inner function of [_sources_to_regions]; what it appends to
    [regions] is returned. *)
Fixpoint _consume_source_item (item : pyobj) : result (list Region) :=
  match item with
  | VStr _ =>
      parsed <- parse_cu_source_string item ;;
      match parsed with
      | Some r => Ok [r]
      | None => Ok []
      end
  | VDict d => _normalize_regions_from_source d
  | VList l =>
      (fix over_items (l : list pyobj) : result (list Region) :=
         match l with
         | [] => Ok []
         | it :: l' =>
             rs <- _consume_source_item it ;;
             rs' <- over_items l' ;;
             Ok (rs ++ rs')
         end) l
  | _ => Ok []
  end.

(** Whether the coordinates of a region are objects of the decoded
    result: a region taken from a structured source has no kind and holds
    the coordinates it was given; the coordinates of a region the parser
    built are floats it made itself. *)
Definition decoded (r : Region) : bool :=
  match kind r with
  | None => true
  | Some _ => false
  end.

(** A key of the seen-set: where its coordinates come from, then the page
    number and the bbox. *)
Definition Key : Type := bool * Z * (pyobj * pyobj * pyobj * pyobj).

(** The key [(r.get("pageNumber"), r.get("bbox"))] of the seen-set. *)
Definition region_key (r : Region) : Key :=
  (decoded r, pageNumber r, bbox r).

(** Whether [hash(key)] is defined. *)
Definition key_hashable (k : Key) : bool :=
  let '(_, _, (x0, y0, x1, y1)) := k in
  hashable x0 && hashable y0 && hashable x1 && hashable y1.

(** [a is b] for a coordinate [a] of one key and [b] of the key of another
    region, where it matters: decoding gives every NaN of a result the same
    object, which is not equal to itself as a number; a float the parser
    made is an object of its region alone. Objects that are equal by value
    need no answer here. *)
Definition same_object (da db : bool) (a b : pyobj) : bool :=
  da && db
  && match a, b with
     | VFloat f, VFloat g => is_nan f && is_nan g
     | _, _ => false
     end.

(** Items of two tuples compare as [a is b or a == b]. *)
Definition item_eqb (da db : bool) (a b : pyobj) : bool :=
  same_object da db a b || py_eq a b.

(** Equality of two keys, as [key not in seen] compares tuples. *)
Definition key_eqb (a b : Key) : bool :=
  let '(da, p, (x0, y0, x1, y1)) := a in
  let '(db, q, (u0, v0, u1, v1)) := b in
  (p =? q) && item_eqb da db x0 u0 && item_eqb da db y0 v0
  && item_eqb da db x1 u1 && item_eqb da db y1 v1.

(** The de-duplication loop; [seen] holds the keys added so far. *)
Fixpoint dedupe (seen : list Key) (regions : list Region)
  : result (list Region) :=
  match regions with
  | [] => Ok []
  | r :: regions' =>
      let key := region_key r in
      if negb (key_hashable key) then Raise TypeError
      else if negb (existsb (fun k => key_eqb k key) seen) then
        deduped <- dedupe (key :: seen) regions' ;;
        Ok (r :: deduped)
      else dedupe seen regions'
  end.

Definition _sources_to_regions (raw_sources : list pyobj) : result (list Region) :=
  regions <- extend_each _consume_source_item raw_sources ;;
  dedupe [] regions.

Definition _pick_value_from_field_obj (field_obj : list (str * pyobj)) : result pyobj :=
  if has_key (py "valueString") field_obj then getitem (py "valueString") field_obj
  else if has_key (py "valueNumber") field_obj then getitem (py "valueNumber") field_obj
  else if has_key (py "valueBoolean") field_obj then getitem (py "valueBoolean") field_obj
  else if has_key (py "valueDate") field_obj then getitem (py "valueDate") field_obj
  else if has_key (py "valueArray") field_obj then getitem (py "valueArray") field_obj
  else if has_key (py "valueObject") field_obj then getitem (py "valueObject") field_obj
  else if has_key (py "value") field_obj then getitem (py "value") field_obj
  else Ok VNone.

(** The marker test on the first value of a candidate fields map. *)
Definition looks_like_field (sample : pyobj) : bool :=
  match sample with
  | VDict s =>
      has_key (py "value") s || has_key (py "valueString") s
      || has_key (py "sources") s || has_key (py "source") s
  | _ => false
  end.

(** Returns the mapping found, or [VNone]. *)
Fixpoint _find_fields_map (obj : pyobj) : pyobj :=
  match obj with
  | VDict d =>
      if truthy obj && forallb is_dict (values d)
         && match values d with
            | sample :: _ => looks_like_field sample
            | [] => false
            end
      then obj
      else
        (fix over_values (d : list (str * pyobj)) : pyobj :=
           match d with
           | [] => VNone
           | (_, v) :: d' =>
               let found := _find_fields_map v in
               if truthy found then found else over_values d'
           end) d
  | VList l =>
      (fix over_items (l : list pyobj) : pyobj :=
         match l with
         | [] => VNone
         | it :: l' =>
             let found := _find_fields_map it in
             if truthy found then found else over_items l'
         end) l
  | _ => VNone
  end.

(** [c.get("kind") in ("document", "text", None)] *)
Definition document_like (c : pyobj) : bool :=
  match c with
  | VDict d =>
      let k := get (py "kind") d in
      py_eq k (VStr (py "document")) || py_eq k (VStr (py "text"))
      || py_eq k VNone
  | _ => false
  end.

(** The first loop of [extract_fields_with_locations] and the fall-back to
    [contents[0]]; [items] is what iterating [contents] visits. *)
Definition pick_content (contents : pyobj) (items : list pyobj) : result pyobj :=
  match List.find document_like items with
  | Some c => Ok c
  | None =>
      if truthy contents then
        match contents with
        | VList l => index l 0
        | VStr s => c <- index s 0 ;; Ok (VStr [c])
        | VDict _ => Raise KeyError
        | _ => Raise TypeError
        end
      else Ok VNone
  end.

(** The candidate field maps under the chosen content entry. *)
Definition candidate_fields_of (content : pyobj) : result (list pyobj) :=
  match content with
  | VDict c =>
      let known :=
        filter is_dict
          (map (fun k => get k c)
             (filter (fun k => has_key k c)
                [py "fields"; py "extractedFields"; py "output"; py "data"])) in
      let extraction :=
        or_else (or_else (get (py "extraction") c) (get (py "result") c))
                (VDict []) in
      match extraction with
      | VDict e =>
          if is_dict (get (py "fields") e) then
            f <- getitem (py "fields") e ;; Ok (known ++ [f])
          else Ok known
      | _ => Ok known
      end
  | _ => Ok []
  end.

(** The body of the loop over the entries of the fields map. *)
Definition field_of_entry (field_name : str) (field_obj : pyobj) : result (list Field) :=
  match field_obj with
  | VDict fo =>
      value <- _pick_value_from_field_obj fo ;;
      let sources :=
        or_else (or_else (or_else (get (py "sources") fo) (get (py "source") fo))
                         (get (py "evidence") fo))
                (VList []) in
      let sources := match sources with VList l => l | _ => [sources] end in
      regions <- _sources_to_regions sources ;;
      regions <-
        match regions with
        | [] => _sources_to_regions (_gather_sources_recursive field_obj)
        | _ => Ok regions
        end ;;
      Ok [ {| name := field_name; value := value; regions := regions |} ]
  | _ => Ok []
  end.

Definition extract_fields_with_locations (analysis_result : pyobj) : result (list Field) :=
  r <- attr_get analysis_result (py "result") ;;
  c <- attr_get (or_else r (VDict [])) (py "contents") ;;
  let contents := or_else c (VList []) in
  contents <-
    (if negb (truthy contents) then
       c' <- attr_get analysis_result (py "contents") ;;
       Ok (or_else c' (VList []))
     else Ok contents) ;;
  items <- iterate contents ;;
  content <- pick_content contents items ;;
  candidate_fields <- candidate_fields_of content ;;
  fields_map <-
    match candidate_fields with
    | f :: _ => Ok f
    | [] => Ok (_find_fields_map analysis_result)
    end ;;
  match fields_map with
  | VDict fm =>
      if negb (truthy fields_map) then Ok []
      else extend_each (fun kv => field_of_entry (fst kv) (snd kv)) fm
  | _ => Ok []
  end.

(** [draw.rectangle([x0, y0, x1, y1], outline="red", width=3)] on four
    floats: Pillow refuses, with a [ValueError], a box whose second corner
    lies left of or above its first one. *)
Definition rectangle (box : float * float * float * float) : result unit :=
  let '(x0, y0, x1, y1) := box in
  if PrimFloat.ltb x1 x0 || PrimFloat.ltb y1 y0 then Raise ValueError
  else Ok tt.

(** The rectangles drawn, in order; [size] is the size of the page image in
    pixels. The first rectangle that [draw.rectangle] refuses ends the
    call. *)
Definition draw_regions_on_page (size : Z * Z) (regions : list Region)
    (page_width_doc page_height_doc : pyobj)
  : result (list (float * float * float * float)) :=
  let '(W, H) := size in
  sx <- (if truthy page_width_doc then py_truediv (VInt W) page_width_doc
         else Ok one) ;;
  sy <- (if truthy page_height_doc then py_truediv (VInt H) page_height_doc
         else Ok one) ;;
  map_each
    (fun r =>
       let '(x0, y0, x1, y1) := bbox r in
       x0p <- py_mul_float x0 sx ;;
       y0p <- py_mul_float y0 sy ;;
       x1p <- py_mul_float x1 sx ;;
       y1p <- py_mul_float y1 sy ;;
       _ <- rectangle (x0p, y0p, x1p, y1p) ;;
       Ok (x0p, y0p, x1p, y1p))
    regions.

(** [conf = float(conf) if conf is not None else None], an exception
    turning it into [None]. *)
Definition confidence_of (d : list (str * pyobj)) : option float :=
  let conf :=
    or_else (or_else (get (py "confidence") d) (get (py "score") d))
            (get (py "probability") d) in
  match conf with
  | VNone => None
  | _ => match py_float conf with
         | Ok f => Some f
         | Raise _ => None
         end
  end.

(** The label a mapping carries itself, if any. *)
Definition own_category (d : list (str * pyobj)) : option (str * option float) :=
  match get (py "category") d with
  | VStr s => Some (s, confidence_of d)
  | _ =>
      match get (py "label") d with
      | VStr s => Some (s, confidence_of d)
      | _ => None
      end
  end.

Fixpoint _find_first_category (obj : pyobj) : option (str * option float) :=
  match obj with
  | VDict d =>
      match own_category d with
      | Some found => Some found
      | None =>
          (fix over_values (d : list (str * pyobj)) : option (str * option float) :=
             match d with
             | [] => None
             | (_, v) :: d' =>
                 match _find_first_category v with
                 | Some found => Some found
                 | None => over_values d'
                 end
             end) d
      end
  | VList l =>
      (fix over_items (l : list pyobj) : option (str * option float) :=
         match l with
         | [] => None
         | it :: l' =>
             match _find_first_category it with
             | Some found => Some found
             | None => over_items l'
             end
         end) l
  | _ => None
  end.

Definition parse_classifier_output (result : pyobj) : option str * option float :=
  match _find_first_category result with
  | Some (label, conf) => (Some label, conf)
  | None => (None, None)
  end.

(* ================================================================== *)
(** * Vocabulary of the design document *)
(* ================================================================== *)

(** The typed-value keys in the priority the Field Value Resolver states. *)
Definition value_keys : list str :=
  [py "valueString"; py "valueNumber"; py "valueBoolean"; py "valueDate";
   py "valueArray"; py "valueObject"; py "value"].

(** The key names under which evidence sits. *)
Definition evidence_keys : list str :=
  [py "source"; py "sources"; py "evidence"].

(** [inside w v]: [w] is [v] or is nested in [v] at some depth. *)
Inductive inside (w : pyobj) : pyobj -> Prop :=
| inside_here : inside w w
| inside_item (x : pyobj) (l : list pyobj) :
    In x l -> inside w x -> inside w (VList l)
| inside_entry (k : str) (x : pyobj) (d : list (str * pyobj)) :
    In (k, x) d -> inside w x -> inside w (VDict d).

(** The nodes of a structure in its natural traversal order: a node, then
    what its mapping entries hold in insertion order, or its sequence
    elements in order. *)
Fixpoint preorder (v : pyobj) : list pyobj :=
  v :: match v with
       | VDict d =>
           (fix over_values (d : list (str * pyobj)) : list pyobj :=
              match d with
              | [] => []
              | (_, x) :: d' => preorder x ++ over_values d'
              end) d
       | VList l =>
           (fix over_items (l : list pyobj) : list pyobj :=
              match l with
              | [] => []
              | x :: l' => preorder x ++ over_items l'
              end) l
       | _ => []
       end.

(** A mapping carrying a [category] or [label] key whose value is a string. *)
Definition carries_label (v : pyobj) : bool :=
  match v with
  | VDict d => is_str (get (py "category") d) || is_str (get (py "label") d)
  | _ => false
  end.

(** The evidence values met when the entries of every mapping are visited
    in insertion order and the elements of every sequence in order, each
    entry's value being collected (when its key is an evidence key) and
    then searched. *)
Fixpoint gather_in_traversal_order (node : pyobj) : list pyobj :=
  match node with
  | VDict d =>
      (fix over_entries (d : list (str * pyobj)) : list pyobj :=
         match d with
         | [] => []
         | (k, v) :: d' =>
             (if existsb (str_eqb k) evidence_keys then [v] else [])
             ++ gather_in_traversal_order v ++ over_entries d'
         end) d
  | VList l =>
      (fix over_items (l : list pyobj) : list pyobj :=
         match l with
         | [] => []
         | item :: l' => gather_in_traversal_order item ++ over_items l'
         end) l
  | _ => []
  end.

(** The evidence values a mapping holds itself, in the order the gatherer
    asks for them. *)
Definition own_evidence (d : list (str * pyobj)) : list pyobj :=
  flat_map (fun k => match lookup k d with Some s => [s] | None => [] end)
           evidence_keys.

(** [subseq out l]: [out] is [l] with some elements left out. *)
Inductive subseq {A : Type} : list A -> list A -> Prop :=
| subseq_nil : subseq [] []
| subseq_keep (x : A) (out l : list A) : subseq out l -> subseq (x :: out) (x :: l)
| subseq_drop (x : A) (out l : list A) : subseq out l -> subseq out (x :: l).

(** [min] and [max] of floats, as the loop of the built-ins computes them. *)
Definition float_min (x : float) (l : list float) : float :=
  fold_left (fun best y => if PrimFloat.ltb y best then y else best) l x.

Definition float_max (x : float) (l : list float) : float :=
  fold_left (fun best y => if PrimFloat.ltb best y then y else best) l x.

(** [below m x]: [m] is [x] or comes strictly before it. *)
Definition below (m x : float) : Prop := m = x \/ PrimFloat.ltb m x = true.

(** [above m x]: [m] is [x] or comes strictly after it. *)
Definition above (m x : float) : Prop := m = x \/ PrimFloat.ltb x m = true.

(** The decimal numeral of a natural number, as a string. *)
Definition decimal (n : nat) : str :=
  py (NilEmpty.string_of_uint (Nat.to_uint n)).

(** [int(float(t))], the way the parser reads its page token. *)
Definition page_of (t : str) : result Z :=
  f <- float_of_string t ;; int_of_float f.

(** A token [float] accepts. *)
Definition numeric (t : str) : Prop := returns (float_of_string t).

(** A source string [K tag ( t1 , ... , tn )] between optional white space. *)
Definition source_string (lead : str) (K : ascii) (tag : str)
    (tokens : list str) (trail : str) : str :=
  lead ++ K :: tag ++ "("%char :: join "," tokens ++ ")"%char :: trail.

(** What makes the pieces of [source_string] the pieces the parser sees. *)
Definition source_shape (lead : str) (K : ascii) (tag : str)
    (tokens : list str) (trail : str) : Prop :=
  forallb is_space lead = true /\ forallb is_space trail = true
  /\ is_space K = false /\ contains "(" (K :: tag) = false
  /\ Forall (fun t => contains "," t = false) tokens.

(** A token the parser keeps: not empty once stripped. *)
Definition nonblank (t : str) : bool := truthy (VStr (strip t)).

(** The region the parser builds from a page number and four points
    (x1,y1) ... (x4,y4). *)
Definition region_of_points (K : ascii) (page : Z)
    (x1 y1 x2 y2 x3 y3 x4 y4 : float) : Region :=
  {| kind := Some [K];
     pageNumber := page;
     polygon := VList (map VFloat [x1; y1; x2; y2; x3; y3; x4; y4]);
     bbox := (VFloat (float_min x1 [x2; x3; x4]),
              VFloat (float_min y1 [y2; y3; y4]),
              VFloat (float_max x1 [x2; x3; x4]),
              VFloat (float_max y1 [y2; y3; y4])) |}.

(** The rectangle of a region scaled by the factors [sx] and [sy]. *)
Definition scaled (sx sy : float) (r : Region)
  : result (float * float * float * float) :=
  let '(x0, y0, x1, y1) := bbox r in
  x0p <- py_mul_float x0 sx ;;
  y0p <- py_mul_float y0 sy ;;
  x1p <- py_mul_float x1 sx ;;
  y1p <- py_mul_float y1 sy ;;
  Ok (x0p, y0p, x1p, y1p).

(** The label a node carries itself. *)
Definition label_of (v : pyobj) : option (str * option float) :=
  match v with
  | VDict d => own_category d
  | _ => None
  end.

(** The first result [f] gives along a list. *)
Fixpoint first_some {A B : Type} (f : A -> option B) (l : list A) : option B :=
  match l with
  | [] => None
  | x :: l' => match f x with Some b => Some b | None => first_some f l' end
  end.

(** The float that the literal 0.92 denotes. *)
#[local] Set Warnings "-inexact-float".
Definition confidence_0_92 : float := 0.92.

(** The mapping {"category": "Invoices", "confidence": 0.92}. *)
Definition invoices_0_92 : pyobj :=
  VDict [(py "category", VStr (py "Invoices"));
         (py "confidence", VFloat confidence_0_92)].
#[local] Set Warnings "inexact-float".

(** Evidence naming one rectangle of page 1 twice, as a source string and
    as a structured reference, and one rectangle of page 2 in a nested
    list beside an unparseable string. *)
Definition evidence_example : list pyobj :=
  [ VStr (py "D(1,0,0,10,0,10,5,0,5)");
    VDict [(py "pageNumber", VInt 1);
           (py "boundingBox", VList [VInt 0; VInt 0; VInt 10; VInt 5])];
    VList [VStr (py "D(2,0,0,10,0,10,5,0,5)"); VStr (py "see page 2")] ].

(** The region the source string [D(page,0,0,10,0,10,5,0,5)] denotes. *)
Definition rectangle_10_by_5 (page : Z) : Region :=
  {| kind := Some (py "D");
     pageNumber := page;
     polygon := VList (map VFloat [0; 0; 10; 0; 10; 5; 0; 5]%float);
     bbox := (VFloat 0, VFloat 0, VFloat 10, VFloat 5) |}.













(** The data-model invariant of a region: its bbox is the one computed
    from its polygon, when it has a polygon. *)
Definition bbox_from_polygon (r : Region) : Prop :=
  polygon r = VNone
  \/ exists l, polygon r = VList l /\ _coerce_polygon_to_bbox l = Ok (bbox r).

(** What the Fields-Map Locator looks for: a non-empty mapping whose
    values are all mappings, the first of them carrying a marker key. *)
Definition is_fields_map (v : pyobj) : bool :=
  match v with
  | VDict d =>
      truthy v && forallb is_dict (values d)
      && match values d with
         | sample :: _ => looks_like_field sample
         | [] => false
         end
  | _ => false
  end.

(** Evidence without structured references: strings, scalars and lists of
    these. *)
Fixpoint plain_evidence (v : pyobj) : bool :=
  match v with
  | VDict _ => false
  | VList l =>
      (fix all (l : list pyobj) : bool :=
         match l with
         | [] => true
         | x :: l' => plain_evidence x && all l'
         end) l
  | _ => true
  end.

(* ================================================================== *)
(** * The rest of [idp_app/app_main.py]: page metadata, usage, display *)
(* ================================================================== *)

(** [v[i]] for an integer [i]; a decoded mapping has no integer key. *)
Definition subscript (v : pyobj) (i : Z) : result pyobj :=
  match v with
  | VList l =>
      let j := if i <? 0 then i + len l else i in
      if (j <? 0) || (len l <=? j) then Raise IndexError
      else index l (Z.to_nat j)
  | VStr s =>
      let j := if i <? 0 then i + len s else i in
      if (j <? 0) || (len s <=? j) then Raise IndexError
      else c <- index s (Z.to_nat j) ;; Ok (VStr [c])
  | VDict _ => Raise KeyError
  | _ => Raise TypeError
  end.

(** The [try] block of [try_get_page_dimensions]; [Ok None] is reaching
    its end without a [return]. The parameter [result] of the source is
    [res] here. *)
Definition page_dimensions_try (res : pyobj) (page_num : Z)
  : result (option (pyobj * pyobj)) :=
  r <- attr_get res (py "result") ;;
  c <- attr_get (or_else r (VDict [])) (py "contents") ;;
  let contents := or_else c (VList []) in
  if negb (truthy contents) then Ok (Some (VNone, VNone))
  else
    content0 <- subscript contents 0 ;;
    p <- attr_get content0 (py "pages") ;;
    let pages := or_else p (VList []) in
    match pages with
    | VList l =>
        if (1 <=? page_num) && (page_num <=? len l) then
          page_meta <- subscript pages (page_num - 1) ;;
          w <- attr_get page_meta (py "width") ;;
          h <- attr_get page_meta (py "height") ;;
          Ok (Some (w, h))
        else Ok None
    | _ => Ok None
    end.

Definition try_get_page_dimensions (res : pyobj) (page_num : Z)
  : pyobj * pyobj :=
  match try_except (page_dimensions_try res page_num) (Ok None) with
  | Ok (Some dims) => dims
  | _ => (VNone, VNone)
  end.

(** Returns the mapping found, or [VNone]. *)
Fixpoint _find_usage_block (obj : pyobj) : pyobj :=
  match obj with
  | VDict d =>
      match get (py "usage") d with
      | VDict u => VDict u
      | _ =>
          (fix over_values (d : list (str * pyobj)) : pyobj :=
             match d with
             | [] => VNone
             | (_, v) :: d' =>
                 let found := _find_usage_block v in
                 if truthy found then found else over_values d'
             end) d
      end
  | VList l =>
      (fix over_items (l : list pyobj) : pyobj :=
         match l with
         | [] => VNone
         | it :: l' =>
             let found := _find_usage_block it in
             if truthy found then found else over_items l'
         end) l
  | _ => VNone
  end.

(** [s.startswith(p)] *)
Fixpoint starts_with (p s : str) : bool :=
  match p, s with
  | [], _ => true
  | a :: p', b :: s' => Ascii.eqb a b && starts_with p' s'
  | _ :: _, [] => false
  end.

(** [s.endswith(suffix)] *)
Definition ends_with (suffix s : str) : bool :=
  starts_with (rev suffix) (rev s).

(** [s.replace(old, "")] for a non-empty [old]: every occurrence met from
    the left is dropped; [skip] counts the characters of an occurrence
    still to drop. *)
Fixpoint remove_all (old : str) (skip : nat) (s : str) : str :=
  match s with
  | [] => []
  | c :: s' =>
      match skip with
      | S k => remove_all old k s'
      | O =>
          if starts_with old s then remove_all old (length old - 1) s'
          else c :: remove_all old 0 s'
      end
  end.

(** [isinstance(v, (int, float))]; a [bool] is an [int]. *)
Definition is_number (v : pyobj) : bool :=
  match v with
  | VBool _ | VInt _ | VFloat _ => true
  | _ => false
  end.

(** One turn of the loop over the token counts: the model names so far
    and the two totals. *)
Definition count_tokens (acc : list str * Z * Z) (kv : str * pyobj)
  : result (list str * Z * Z) :=
  let '(model_names, total_input, total_output) := acc in
  let '(k, v) := kv in
  if is_number v then
    if ends_with (py "-input") k then
      n <- py_int v ;;
      Ok (model_names ++ [remove_all (py "-input") 0 k],
          total_input + n, total_output)
    else if ends_with (py "-output") k then
      n <- py_int v ;;
      Ok (model_names ++ [remove_all (py "-output") 0 k],
          total_input, total_output + n)
    else Ok acc
  else Ok acc.

(** [for x in xs: acc = step(acc, x)], the first exception escaping. *)
Fixpoint fold_each {A S : Type} (step : S -> A -> result S) (acc : S)
    (xs : list A) : result S :=
  match xs with
  | [] => Ok acc
  | x :: xs' => acc' <- step acc x ;; fold_each step acc' xs'
  end.

(** Putting a string into an ascending list without repeats. *)
Fixpoint insert_sorted (x : str) (l : list str) : list str :=
  match l with
  | [] => [x]
  | h :: t =>
      if str_ltb x h then x :: l
      else if str_eqb x h then l
      else h :: insert_sorted x t
  end.

(** [sorted(set(l))] for strings. *)
Definition sorted_set (l : list str) : list str :=
  fold_right insert_sorted [] l.

(** The dictionary [_extract_usage_summary] returns. *)
Record UsageSummary : Type := mkUsage {
  models : list str;
  input_tokens : Z;
  output_tokens : Z;
  raw_usage : pyobj
}.

Definition _extract_usage_summary (res : pyobj) : result UsageSummary :=
  let usage := or_else (_find_usage_block res) (VDict []) in
  t <- attr_get usage (py "tokens") ;;
  let tokens := or_else t (VDict []) in
  '(model_names, total_input, total_output) <-
    match tokens with
    | VDict items => fold_each count_tokens ([], 0, 0) items
    | _ => Ok ([], 0, 0)
    end ;;
  let model_names :=
    sorted_set (filter (fun m => truthy (VStr m)) model_names) in
  Ok {| models := model_names;
        input_tokens := total_input;
        output_tokens := total_output;
        raw_usage := usage |}.

(** [_estimate_cost_usd]; [price_in] and [price_out] are what
    [os.getenv(name, "")] gives for the two price variables. *)
Definition _estimate_cost_usd (price_in price_out : str)
    (input_tokens output_tokens : Z) : result (option float) :=
  prices <-
    try_except
      (in_price <- float_of_string (strip price_in) ;;
       out_price <- float_of_string (strip price_out) ;;
       Ok (Some (in_price, out_price)))
      (Ok None) ;;
  match prices with
  | None => Ok None
  | Some (in_price, out_price) =>
      x <- py_truediv (VInt input_tokens) (VFloat 1000) ;;
      y <- py_truediv (VInt output_tokens) (VFloat 1000) ;;
      Ok (Some (PrimFloat.add (PrimFloat.mul x in_price)
                              (PrimFloat.mul y out_price)))
  end.

(** [str(n)] for an [int]. *)
Definition str_of_int (n : Z) : str :=
  if n <? 0 then "-"%char :: decimal (Z.to_nat (- n)) else decimal (Z.to_nat n).

Section Display.

(** [str(f)] for a [float], whose digits this development does not
    compute. *)
Variable float_repr : float -> str.

Definition _pretty_value (value : pyobj) : str :=
  match value with
  | VNone => []
  | VStr s => strip s
  | VInt n => str_of_int n
  | VFloat f => float_repr f
  | VBool b => if b then py "True" else py "False"
  | _ => []
  end.

Definition _summarize_value (value : pyobj) : str :=
  match value with
  | VList l => decimal (length l) ++ py " item(s)"
  | VDict _ => py "Details"
  | _ => let p := _pretty_value value in
         if truthy (VStr p) then p else py "(empty)"
  end.

(** The preview of a field's value in the list of fields: at most 80
    characters. *)
Definition field_preview (value : pyobj) : str :=
  let preview := _summarize_value value in
  if 80 <? len preview then slice_to preview 77 ++ py "..." else preview.

End Display.

(** ** Vocabulary for page metadata, usage and display *)

(** The usage mapping a node holds itself, if it is a mapping whose
    "usage" entry is a mapping. *)
Definition usage_of (v : pyobj) : option pyobj :=
  match v with
  | VDict d =>
      match get (py "usage") d with
      | VDict u => Some (VDict u)
      | _ => None
      end
  | _ => None
  end.

(** A float that is neither an infinity nor a NaN. *)
Definition finite (f : float) : bool :=
  match Prim2SF f with
  | S754_zero _ | S754_finite _ _ _ => true
  | _ => false
  end.

(** No float is an infinity or a NaN. *)
Definition finite_number (v : pyobj) : bool :=
  match v with
  | VFloat f => finite f
  | _ => true
  end.

(** The integer [int(v)] is, and 0 where [int(v)] raises. *)
Definition int_value (v : pyobj) : Z :=
  match py_int v with
  | Ok n => n
  | Raise _ => 0
  end.

(** The entries of a token mapping that count for [suffix]: a number under
    a key ending in [suffix]. *)
Definition counted (suffix : str) (kv : str * pyobj) : bool :=
  is_number (snd kv) && ends_with suffix (fst kv).

(** The sum of the counts under the keys ending in [suffix]. *)
Definition sum_counts (suffix : str) (items : list (str * pyobj)) : Z :=
  fold_right Z.add 0
    (map (fun kv => int_value (snd kv)) (filter (counted suffix) items)).

(** [old in s] *)
Fixpoint occurs (old s : str) : bool :=
  match s with
  | [] => starts_with old []
  | _ :: s' => starts_with old s || occurs old s'
  end.

(** Strictly ascending in the order of [<] on strings: every element is
    below all the later ones. *)
Fixpoint ascending (l : list str) : Prop :=
  match l with
  | [] => True
  | x :: l' => Forall (fun y => str_ltb x y = true) l' /\ ascending l'
  end.

(** The model name an entry of the token mapping contributes. *)
Definition model_of (kv : str * pyobj) : option str :=
  if counted (py "-input") kv
  then Some (remove_all (py "-input") 0 (fst kv))
  else if counted (py "-output") kv
  then Some (remove_all (py "-output") 0 (fst kv))
  else None.

(** The summary of a result without usage data. *)
Definition no_usage : UsageSummary :=
  {| models := []; input_tokens := 0; output_tokens := 0;
     raw_usage := VDict [] |}.

(** A page entry 8 wide and 11 high, a content with the given page
    entries, and a result with the given contents. *)
Definition page_8_by_11 : pyobj :=
  VDict [(py "width", VInt 8); (py "height", VInt 11)].

Definition content_of (pages : list pyobj) : pyobj :=
  VDict [(py "pages", VList pages)].

Definition result_of (contents : list pyobj) : pyobj :=
  VDict [(py "result", VDict [(py "contents", VList contents)])].


(** A count that [int] rejects: an infinity or a NaN under a counted
    key. *)
Definition uncountable (kv : str * pyobj) : bool :=
  match snd kv with
  | VFloat f =>
      (ends_with (py "-input") (fst kv) || ends_with (py "-output") (fst kv))
      && negb (finite f)
  | _ => false
  end.

(** Token counts of two models, with a count stored as a float, one as a
    bool, a key that is only a suffix, a count that is a string and a key
    without suffix. *)
Definition token_counts : list (str * pyobj) :=
  [(py "gpt-4.1-input", VInt 120);
   (py "gpt-4.1-output", VFloat 30.5);
   (py "-input", VInt 5);
   (py "embed-input", VBool true);
   (py "note-output", VStr (py "12"));
   (py "total", VInt 999)].

(** A result whose usage block holds [token_counts]. *)
Definition usage_example : pyobj :=
  VDict [(py "result",
          VDict [(py "usage", VDict [(py "tokens", VDict token_counts)])])].

(** A field agrees with an entry of the fields map: it has the entry's key
    as its name and, as its value, what [_pick_value_from_field_obj]
    picks in the entry's mapping. *)
Definition field_matches (f : Field) (kv : str * pyobj) : Prop :=
  name f = fst kv
  /\ exists fo, snd kv = VDict fo
                /\ _pick_value_from_field_obj fo = Ok (value f).

(** The entries of a fields map that hold a mapping. *)
Definition mapping_entries (fm : list (str * pyobj)) : list (str * pyobj) :=
  filter (fun kv => is_dict (snd kv)) fm.

(** A list of regions as the resolver leaves it: each region keeps
    [bbox_from_polygon], and the de-duplication loop changes nothing. *)
Definition resolved (regions : list Region) : Prop :=
  Forall bbox_from_polygon regions /\ dedupe [] regions = Ok regions.

(** A result with a fields map of three entries: a total located on page
    1, an entry that is not a mapping, and a date without location. *)
Definition review_example : pyobj :=
  result_of
    [VDict [(py "kind", VStr (py "document"));
            (py "fields",
             VDict [(py "Total",
                     VDict [(py "valueNumber", VInt 12);
                            (py "source",
                             VStr (py "D(1,0,0,10,0,10,5,0,5)"))]);
                    (py "Note", VStr (py "n/a"));
                    (py "Date",
                     VDict [(py "valueDate", VStr (py "2024-01-31"))])])]].

(** What the extraction returns on [review_example]. *)
Definition review_fields : list Field :=
  [ {| name := py "Total"; value := VInt 12;
       regions := [rectangle_10_by_5 1] |};
    {| name := py "Date"; value := VStr (py "2024-01-31");
       regions := [] |} ].

(* ================================================================== *)
(** * Properties *)
(* ================================================================== *)

(** ** General facts *)

Lemma bind_ok {A B : Type} (c : result A) (k : A -> result B) (b : B) :
  bind c k = Ok b -> exists a, c = Ok a /\ k a = Ok b.
Proof.
  destruct c as [a | e]; simpl; intros H; [ eauto | discriminate ].
Qed.

Lemma str_eqb_refl (s : str) : str_eqb s s = true.
Proof.
  induction s as [| c s IH]; simpl; [ reflexivity | ].
  now rewrite Ascii.eqb_refl.
Qed.

Lemma str_eqb_eq (s t : str) : str_eqb s t = true <-> s = t.
Proof.
  split.
  - revert t. induction s as [| c s IH]; intros [| d t]; simpl; try discriminate; auto.
    intros H. apply andb_true_iff in H as [Hc Hs].
    apply Ascii.eqb_eq in Hc. now rewrite Hc, (IH t Hs).
  - intros ->. apply str_eqb_refl.
Qed.

Lemma getitem_has_key (k : str) (d : list (str * pyobj)) :
  has_key k d = true -> getitem k d = Ok (get k d).
Proof.
  unfold has_key, getitem, get. now destruct (lookup k d).
Qed.

(** ** Field Value Resolver *)

Lemma pick_value_first_present (field_obj : list (str * pyobj)) :
  _pick_value_from_field_obj field_obj =
  Ok (match List.find (fun k => has_key k field_obj) value_keys with
      | Some k => get k field_obj
      | None => VNone
      end).
Proof.
  unfold _pick_value_from_field_obj, value_keys. cbn [List.find].
  repeat match goal with
         | |- context [if has_key ?k field_obj then _ else _] =>
             let E := fresh "E" in
             destruct (has_key k field_obj) eqn:E;
             [ exact (getitem_has_key _ _ E) | ]
         end.
  reflexivity.
Qed.

(** C6. The value of a field object is the value under the first key
    present among valueString, valueNumber, valueBoolean, valueDate,
    valueArray, valueObject, value, in that order; with both valueString
    and value present it is the valueString value; with none of the seven
    present it is None. Picking never raises. *)
Theorem pick_value_priority (field_obj : list (str * pyobj)) :
  _pick_value_from_field_obj field_obj =
    Ok (match List.find (fun k => has_key k field_obj) value_keys with
        | Some k => get k field_obj
        | None => VNone
        end)
  /\ (forall s v,
        lookup (py "valueString") field_obj = Some s ->
        lookup (py "value") field_obj = Some v ->
        _pick_value_from_field_obj field_obj = Ok s)
  /\ (Forall (fun k => has_key k field_obj = false) value_keys ->
      _pick_value_from_field_obj field_obj = Ok VNone).
Proof.
  split; [ apply pick_value_first_present | split ].
  - intros s v Hs _. unfold _pick_value_from_field_obj, has_key, getitem.
    now rewrite Hs.
  - intros H. rewrite pick_value_first_present.
    replace (List.find (fun k => has_key k field_obj) value_keys) with (@None str);
      [ reflexivity | ].
    symmetry. induction H as [| k ks Hk _ IH]; simpl; [ reflexivity | ].
    now rewrite Hk.
Qed.

(** A field object holding both valueString and value, and an empty one. *)
Lemma pick_value_priority_witness :
  _pick_value_from_field_obj
    [(py "value", VInt 7); (py "valueString", VStr (py "seven"))]
    = Ok (VStr (py "seven"))
  /\ _pick_value_from_field_obj [(py "confidence", VInt 1)] = Ok VNone.
Proof.
  split.
  - apply (proj1 (proj2 (pick_value_priority
              [(py "value", VInt 7); (py "valueString", VStr (py "seven"))]))
             (VStr (py "seven")) (VInt 7)); reflexivity.
  - apply (proj2 (proj2 (pick_value_priority [(py "confidence", VInt 1)]))).
    repeat constructor.
Defined.

(** ** Fields-map location *)

(** C7. On the result whose first content entry holds the fields map
    {"Foo": {"valueString": "bar"}}, the extraction returns exactly the
    one field named Foo with value "bar" and no regions. *)
Theorem extract_fields_foo_bar :
  extract_fields_with_locations
    (VDict [(py "result",
             VDict [(py "contents",
                     VList [VDict [(py "fields",
                                    VDict [(py "Foo",
                                            VDict [(py "valueString",
                                                    VStr (py "bar"))])])]])])])
  = Ok [ {| name := py "Foo"; value := VStr (py "bar"); regions := [] |} ].
Proof. vm_compute. reflexivity. Qed.

(** ** Classifier Output Interpreter *)

Lemma first_some_app {A B : Type} (f : A -> option B) (l1 l2 : list A) :
  first_some f (l1 ++ l2) =
  match first_some f l1 with Some b => Some b | None => first_some f l2 end.
Proof.
  induction l1 as [| x l1 IH]; simpl; [ reflexivity | ].
  now destruct (f x).
Qed.

Lemma first_some_none {A B : Type} (f : A -> option B) (l : list A) :
  Forall (fun x => f x = None) l -> first_some f l = None.
Proof.
  induction 1 as [| x l Hx _ IH]; simpl; [ reflexivity | ].
  now rewrite Hx.
Qed.

Lemma carries_label_iff (v : pyobj) :
  carries_label v = false <-> label_of v = None.
Proof.
  destruct v as [| | | | | | d]; simpl; try (split; reflexivity).
  unfold own_category.
  destruct (get (py "category") d), (get (py "label") d); simpl;
    split; intros H; try reflexivity; discriminate.
Qed.

(** The search returns the label of the first node, in traversal order,
    that carries one. *)
Lemma find_first_category_preorder (v : pyobj) :
  _find_first_category v = first_some label_of (preorder v).
Proof.
  induction v as [| | | | | l IH | d IH] using pyobj_ind; try reflexivity.
  - cbn [_find_first_category preorder first_some label_of].
    induction IH as [| x l Hx _ IHl]; [ reflexivity | ].
    rewrite first_some_app, <- Hx, <- IHl.
    reflexivity.
  - cbn [_find_first_category preorder first_some label_of].
    destruct (own_category d); [ reflexivity | ].
    induction IH as [| [k x] d' Hx _ IHd]; [ reflexivity | ].
    simpl in Hx. rewrite first_some_app, <- Hx, <- IHd.
    reflexivity.
Qed.

(** C9. When the classification result holds, at any depth, the mapping
    {"category": "Invoices", "confidence": 0.92} and no node before it in
    traversal order carries a category or label string key, the
    interpreter returns ("Invoices", 0.92); when no node at all carries
    such a key it returns (None, None). *)
Theorem classifier_first_label (result : pyobj) :
  (forall before after,
      preorder result = before ++ invoices_0_92 :: after ->
      Forall (fun v => carries_label v = false) before ->
      parse_classifier_output result
      = (Some (py "Invoices"), Some confidence_0_92))
  /\ (Forall (fun v => carries_label v = false) (preorder result) ->
      parse_classifier_output result = (None, None)).
Proof.
  unfold parse_classifier_output.
  rewrite find_first_category_preorder.
  split.
  - intros before after E Hb. rewrite E, first_some_app, first_some_none.
    + vm_compute. reflexivity.
    + eapply Forall_impl; [ | exact Hb ].
      intros v. apply carries_label_iff.
  - intros H. rewrite first_some_none; [ reflexivity | ].
    eapply Forall_impl; [ | exact H ]. intros v. apply carries_label_iff.
Qed.

(** The result {"a": {"category": "Invoices", "confidence": 0.92}}, the
    same mapping two levels further down behind a sequence, and a result
    without any label. *)
Lemma classifier_first_label_witness :
  parse_classifier_output (VDict [(py "a", invoices_0_92)])
  = (Some (py "Invoices"), Some confidence_0_92)
  /\ parse_classifier_output
       (VDict [(py "x", VList [VInt 3; VDict [(py "a", invoices_0_92)]])])
     = (Some (py "Invoices"), Some confidence_0_92)
  /\ parse_classifier_output (VDict [(py "a", VList [VInt 1])]) = (None, None).
Proof.
  split; [ | split ].
  - apply (proj1 (classifier_first_label (VDict [(py "a", invoices_0_92)]))
             [VDict [(py "a", invoices_0_92)]]
             [VStr (py "Invoices"); VFloat confidence_0_92]).
    + reflexivity.
    + repeat constructor.
  - apply (proj1 (classifier_first_label
                    (VDict [(py "x", VList [VInt 3; VDict [(py "a", invoices_0_92)]])]))
             [VDict [(py "x", VList [VInt 3; VDict [(py "a", invoices_0_92)]])];
              VList [VInt 3; VDict [(py "a", invoices_0_92)]];
              VInt 3;
              VDict [(py "a", invoices_0_92)]]
             [VStr (py "Invoices"); VFloat confidence_0_92]).
    + reflexivity.
    + repeat constructor.
  - apply (proj2 (classifier_first_label (VDict [(py "a", VList [VInt 1])]))).
    repeat constructor.
Defined.

(** The text 0.92 of a result document decodes to that float. *)
Lemma confidence_0_92_decoded :
  float_of_string (py "0.92") = Ok confidence_0_92.
Proof. vm_compute. reflexivity. Qed.

(** ** Region projection *)

Lemma map_each_ok {A B : Type} (f : A -> result B) (xs : list A) (ys : list B) :
  map_each f xs = Ok ys -> Forall2 (fun x y => f x = Ok y) xs ys.
Proof.
  revert ys. induction xs as [| x xs IH]; simpl; intros ys H.
  - injection H as <-. constructor.
  - apply bind_ok in H as [y [Hy H]].
    apply bind_ok in H as [ys' [Hys H]].
    injection H as <-. constructor; auto.
Qed.

Lemma map_each_of {A B : Type} (f : A -> result B) (xs : list A) (ys : list B) :
  Forall2 (fun x y => f x = Ok y) xs ys -> map_each f xs = Ok ys.
Proof.
  induction 1 as [| x y xs ys Hxy _ IH]; simpl; [ reflexivity | ].
  now rewrite Hxy, IH.
Qed.

Lemma drawn_scaled (sx sy : float) (r : Region)
    (rect : float * float * float * float) :
  (let '(x0, y0, x1, y1) := bbox r in
   x0p <- py_mul_float x0 sx ;;
   y0p <- py_mul_float y0 sy ;;
   x1p <- py_mul_float x1 sx ;;
   y1p <- py_mul_float y1 sy ;;
   _ <- rectangle (x0p, y0p, x1p, y1p) ;;
   Ok (x0p, y0p, x1p, y1p)) = Ok rect
  <-> scaled sx sy r = Ok rect /\ rectangle rect = Ok tt.
Proof.
  unfold scaled. destruct (bbox r) as [[[x0 y0] x1] y1].
  destruct (py_mul_float x0 sx) as [a | e]; cbn [bind];
    [ | split; [ discriminate | intros [H _]; discriminate ] ].
  destruct (py_mul_float y0 sy) as [b | e]; cbn [bind];
    [ | split; [ discriminate | intros [H _]; discriminate ] ].
  destruct (py_mul_float x1 sx) as [c | e]; cbn [bind];
    [ | split; [ discriminate | intros [H _]; discriminate ] ].
  destruct (py_mul_float y1 sy) as [d | e]; cbn [bind];
    [ | split; [ discriminate | intros [H _]; discriminate ] ].
  split.
  - destruct (rectangle (a, b, c, d)) as [[] | e] eqn:E; cbn [bind];
      [ | discriminate ].
    intros H. injection H as <-. now split.
  - intros [H E]. injection H as <-. now rewrite E.
Qed.

(** C10. The call draws exactly when the two factors can be computed and
    [draw.rectangle] takes the scaled bbox of every region; every
    rectangle drawn is then the bbox of its region with the x coordinates
    multiplied by sx and the y coordinates by sy, where sx is the image
    width divided by the document page width and sy the image height
    divided by the document page height, each being 1.0 when the document
    dimension is unavailable; a bbox (0,0,100,100) on a 200 x 200 page
    rendered onto a 400 x 400 image is drawn at (0,0,200,200). *)
Theorem draw_regions_projection (W H : Z) (regions : list Region)
    (page_width_doc page_height_doc : pyobj) :
  (forall rects,
      draw_regions_on_page (W, H) regions page_width_doc page_height_doc
      = Ok rects
      <-> exists sx sy,
            (if truthy page_width_doc
             then py_truediv (VInt W) page_width_doc = Ok sx else sx = one)
            /\ (if truthy page_height_doc
                then py_truediv (VInt H) page_height_doc = Ok sy
                else sy = one)
            /\ Forall2 (fun r rect => scaled sx sy r = Ok rect
                                      /\ rectangle rect = Ok tt)
                       regions rects)
  /\ draw_regions_on_page (400, 400)
       [ {| kind := None; pageNumber := 1; polygon := VNone;
            bbox := (VInt 0, VInt 0, VInt 100, VInt 100) |} ]
       (VInt 200) (VInt 200)
     = Ok [ (0, 0, 200, 200)%float ].
Proof.
  split; [ | vm_compute; reflexivity ].
  intros rects. unfold draw_regions_on_page. split.
  - intros Hd.
    apply bind_ok in Hd as [sx [Hsx Hd]].
    apply bind_ok in Hd as [sy [Hsy Hd]].
    exists sx, sy. split; [ | split ].
    + destruct (truthy page_width_doc); [ exact Hsx | now injection Hsx ].
    + destruct (truthy page_height_doc); [ exact Hsy | now injection Hsy ].
    + apply map_each_ok in Hd.
      eapply Forall2_impl; [ | exact Hd ].
      intros r rect Hr. now apply drawn_scaled.
  - intros (sx & sy & Hsx & Hsy & Hd).
    assert (Ex : (if truthy page_width_doc
                  then py_truediv (VInt W) page_width_doc else Ok one)
                 = Ok sx)
      by (destruct (truthy page_width_doc); [ exact Hsx | now subst ]).
    assert (Ey : (if truthy page_height_doc
                  then py_truediv (VInt H) page_height_doc else Ok one)
                 = Ok sy)
      by (destruct (truthy page_height_doc); [ exact Hsy | now subst ]).
    rewrite Ex, Ey. cbn [bind]. apply map_each_of.
    eapply Forall2_impl; [ | exact Hd ].
    intros r rect Hr. now apply drawn_scaled.
Qed.

(** A page drawn from two regions with float coordinates, the width known
    and the height not. *)
Lemma draw_regions_projection_witness :
  exists sx sy,
    py_truediv (VInt 300) (VFloat 600) = Ok sx /\ sy = one
    /\ Forall2
         (fun r rect => scaled sx sy r = Ok rect /\ rectangle rect = Ok tt)
         [ {| kind := None; pageNumber := 1; polygon := VNone;
              bbox := (VFloat 10, VFloat 20, VFloat 30, VFloat 40) |};
           {| kind := None; pageNumber := 1; polygon := VNone;
              bbox := (VInt 0, VInt 0, VInt 600, VInt 8) |} ]
         [ (5, 20, 15, 40)%float; (0, 0, 300, 8)%float ].
Proof.
  exact (proj1 (proj1 (draw_regions_projection 300 700
                         [ {| kind := None; pageNumber := 1; polygon := VNone;
                              bbox := (VFloat 10, VFloat 20,
                                       VFloat 30, VFloat 40) |};
                           {| kind := None; pageNumber := 1; polygon := VNone;
                              bbox := (VInt 0, VInt 0, VInt 600, VInt 8) |} ]
                         (VFloat 600) VNone)
                  [ (5, 20, 15, 40)%float; (0, 0, 300, 8)%float ])
           eq_refl).
Defined.

(** ** Evidence Gatherer *)

Lemma gather_guard (v : pyobj) :
  (if is_dict v || is_list v then _gather_sources_recursive v else [])
  = _gather_sources_recursive v.
Proof. now destruct v. Qed.

Lemma lookup_evidence (k : str) (d : list (str * pyobj)) :
  (if has_key k d then [get k d] else [])
  = match lookup k d with Some s => [s] | None => [] end.
Proof. unfold has_key, get. now destruct (lookup k d). Qed.

Lemma gather_dict (d : list (str * pyobj)) :
  _gather_sources_recursive (VDict d)
  = own_evidence d ++ flat_map _gather_sources_recursive (values d).
Proof.
  cbn [_gather_sources_recursive]. unfold own_evidence, evidence_keys.
  cbn [flat_map]. rewrite !lookup_evidence, app_nil_r, <- !app_assoc.
  do 3 f_equal.
  induction d as [| [k v] d IH]; [ reflexivity | ].
  cbn [values map snd flat_map]. rewrite gather_guard. f_equal. exact IH.
Qed.

Lemma gather_list (l : list pyobj) :
  _gather_sources_recursive (VList l) = flat_map _gather_sources_recursive l.
Proof.
  cbn [_gather_sources_recursive].
  induction l as [| x l IH]; [ reflexivity | ].
  cbn [flat_map]. now rewrite IH.
Qed.

Lemma in_own_evidence (s : pyobj) (d : list (str * pyobj)) :
  In s (own_evidence d)
  <-> exists k, In k evidence_keys /\ lookup k d = Some s.
Proof.
  unfold own_evidence. rewrite in_flat_map. split.
  - intros [k [Hk Hs]]. exists k. split; [ exact Hk | ].
    destruct (lookup k d) as [s' |]; [ | contradiction ].
    destruct Hs as [-> | []]. reflexivity.
  - intros [k [Hk Hs]]. exists k. split; [ exact Hk | ].
    rewrite Hs. now left.
Qed.

Lemma gather_sound (v s : pyobj) :
  In s (_gather_sources_recursive v) ->
  exists d k, inside (VDict d) v /\ In k evidence_keys /\ lookup k d = Some s.
Proof.
  revert s.
  induction v as [| b | n | f | t | l IH | d IH] using pyobj_ind; intros s Hs;
    try contradiction.
  - rewrite gather_list in Hs. apply in_flat_map in Hs as [x [Hx Hs]].
    rewrite Forall_forall in IH.
    destruct (IH x Hx s Hs) as [d [k [Hin Hk]]].
    exists d, k. split; [ | exact Hk ].
    now apply inside_item with (x := x).
  - rewrite gather_dict in Hs. apply in_app_or in Hs as [Hs | Hs].
    + apply in_own_evidence in Hs as [k Hk].
      exists d, k. split; [ apply inside_here | exact Hk ].
    + apply in_flat_map in Hs as [x [Hx Hs]].
      unfold values in Hx. apply in_map_iff in Hx as [[k' x'] [E Hx]].
      simpl in E. subst x'.
      rewrite Forall_forall in IH.
      destruct (IH (k', x) Hx s Hs) as [d' [k [Hin Hk]]].
      exists d', k. split; [ | exact Hk ].
      now apply inside_entry with (k := k') (x := x).
Qed.

Lemma gather_complete (v s : pyobj) (d : list (str * pyobj)) (k : str) :
  inside (VDict d) v -> In k evidence_keys -> lookup k d = Some s ->
  In s (_gather_sources_recursive v).
Proof.
  intros Hin Hk Hs.
  induction Hin as [| x l Hx _ IH | k' x d' Hx _ IH].
  - rewrite gather_dict. apply in_or_app. left.
    apply in_own_evidence. eauto.
  - rewrite gather_list. apply in_flat_map. eauto.
  - rewrite gather_dict. apply in_or_app. right.
    apply in_flat_map. exists x. split; [ | exact IH ].
    unfold values. apply in_map_iff. exists (k', x). auto.
Qed.

(** What the claim C8 says about order fails: the values of one mapping
    are collected in the order source, sources, evidence, whatever the
    insertion order of these keys; here evidence was inserted first. *)
Lemma gather_order_counterexample :
  _gather_sources_recursive
    (VDict [(py "evidence", VStr (py "E")); (py "source", VStr (py "S"))])
  = [VStr (py "S"); VStr (py "E")]
  /\ gather_in_traversal_order
       (VDict [(py "evidence", VStr (py "E")); (py "source", VStr (py "S"))])
     = [VStr (py "E"); VStr (py "S")].
Proof. split; reflexivity. Qed.

(** C8, amended. The gatherer collects exactly the values that sit under
    a key named source, sources or evidence of a mapping at any depth,
    without stopping at a first match. At a mapping it lists the mapping's
    own source, sources and evidence values in this fixed key order, then
    what it gathers within the mapping's values in insertion order; at a
    sequence, what it gathers within the elements in order. *)
Theorem gather_sources_complete_in_key_order :
  (forall v s,
      In s (_gather_sources_recursive v)
      <-> exists d k,
            inside (VDict d) v /\ In k evidence_keys /\ lookup k d = Some s)
  /\ (forall d,
        _gather_sources_recursive (VDict d)
        = own_evidence d ++ flat_map _gather_sources_recursive (values d))
  /\ (forall l,
        _gather_sources_recursive (VList l)
        = flat_map _gather_sources_recursive l)
  /\ (forall v,
        is_dict v = false -> is_list v = false ->
        _gather_sources_recursive v = []).
Proof.
  split; [ | split; [ exact gather_dict | split; [ exact gather_list | ] ] ].
  - intros v s. split.
    + apply gather_sound.
    + intros [d [k [Hin [Hk Hs]]]]. eapply gather_complete; eauto.
  - intros v Hd Hl. destruct v; try reflexivity; discriminate.
Qed.

(** A field object whose evidence sits at three depths. *)
Lemma gather_sources_complete_in_key_order_witness :
  In (VStr (py "deep"))
     (_gather_sources_recursive
        (VDict [(py "a", VList [VDict [(py "evidence", VStr (py "deep"))]]);
                (py "sources", VList [VDict [(py "source", VInt 1)]])]))
  /\ _gather_sources_recursive
       (VDict [(py "a", VList [VDict [(py "evidence", VStr (py "deep"))]]);
               (py "sources", VList [VDict [(py "source", VInt 1)]])])
     = [VList [VDict [(py "source", VInt 1)]]; VStr (py "deep"); VInt 1].
Proof.
  split.
  - apply (proj2 (proj1 gather_sources_complete_in_key_order _ _)).
    exists [(py "evidence", VStr (py "deep"))], (py "evidence").
    split; [ | split; [ cbv; tauto | reflexivity ] ].
    eapply inside_entry; [ left; reflexivity | ].
    eapply inside_item; [ left; reflexivity | ].
    apply inside_here.
  - reflexivity.
Defined.

(** ** Source-to-Region Resolver *)

Section Dedupe.

(** [fresh seen r]: no key of [seen] equals the key of [r]. *)
Let fresh (seen : list Key) (r : Region) : Prop :=
  Forall (fun k => key_eqb k (region_key r) = false) seen.

Let distinct (a b : Region) : Prop :=
  key_eqb (region_key a) (region_key b) = false.

Lemma not_seen_fresh seen r :
  existsb (fun k => key_eqb k (region_key r)) seen = false <-> fresh seen r.
Proof.
  unfold fresh. induction seen as [| k seen IH]; simpl.
  - split; [ constructor | reflexivity ].
  - rewrite orb_false_iff, IH. split.
    + intros [H1 H2]. now constructor.
    + intros H. inversion H. now split.
Qed.

Lemma dedupe_step seen r regions out :
  dedupe seen (r :: regions) = Ok out ->
  (fresh seen r /\ exists out', dedupe (region_key r :: seen) regions = Ok out'
                                /\ out = r :: out')
  \/ (~ fresh seen r /\ dedupe seen regions = Ok out).
Proof.
  cbn [dedupe]. destruct (key_hashable (region_key r)); [ | discriminate ].
  cbn [negb]. destruct (existsb _ seen) eqn:E; cbn [negb]; intros H.
  - right. split; [ | exact H ].
    intros Hf. apply not_seen_fresh in Hf. congruence.
  - left. split; [ now apply not_seen_fresh | ].
    apply bind_ok in H as [out' [H1 H2]]. injection H2 as <-. eauto.
Qed.

Lemma dedupe_subseq regions : forall seen out,
  dedupe seen regions = Ok out -> subseq out regions.
Proof.
  induction regions as [| r regions IH]; intros seen out H.
  - injection H as <-. constructor.
  - apply dedupe_step in H as [[_ [out' [H ->]]] | [_ H]].
    + constructor. eauto.
    + constructor. eauto.
Qed.

Lemma dedupe_fresh regions : forall seen out,
  dedupe seen regions = Ok out -> Forall (fresh seen) out.
Proof.
  induction regions as [| r regions IH]; intros seen out H.
  - injection H as <-. constructor.
  - apply dedupe_step in H as [[Hf [out' [H ->]]] | [_ H]].
    + constructor; [ exact Hf | ].
      apply IH in H. eapply Forall_impl; [ | exact H ].
      intros a Ha. now inversion Ha.
    + eauto.
Qed.

Lemma dedupe_distinct regions : forall seen out,
  dedupe seen regions = Ok out -> ForallOrdPairs distinct out.
Proof.
  induction regions as [| r regions IH]; intros seen out H.
  - injection H as <-. constructor.
  - apply dedupe_step in H as [[_ [out' [H ->]]] | [_ H]].
    + constructor; [ | eauto ].
      apply dedupe_fresh in H. eapply Forall_impl; [ | exact H ].
      intros a Ha. now inversion Ha.
    + eauto.
Qed.



End Dedupe.










(** ** Region Extractor *)

(** Where no list of bounding regions is present, the extractor guards
    both of its branches with the page number: without one it returns no
    region. *)
Lemma normalize_flat_without_page (src : list (str * pyobj)) :
  truthy (or_else (or_else (get (py "pageNumber") src) (get (py "page") src))
                  (get (py "pageIndex") src)) = false ->
  is_list (or_else (or_else (get (py "boundingRegions") src)
                            (get (py "regions") src)) (VList []))
  && truthy (or_else (or_else (get (py "boundingRegions") src)
                              (get (py "regions") src)) (VList [])) = false ->
  _normalize_regions_from_source src = Ok [].
Proof.
  intros Hp Hb. unfold _normalize_regions_from_source.
  rewrite Hb, Hp. reflexivity.
Qed.

(** C2. The extractor does not keep to the claim: given a list of
    bounding regions none of which resolves a page number, it reaches
    [int(None)] and raises a TypeError instead of returning no region,
    for a box as for a polygon. *)
Theorem normalize_raises_without_page :
  _normalize_regions_from_source
    [(py "boundingRegions",
      VList [VDict [(py "boundingBox",
                     VList [VInt 0; VInt 0; VInt 1; VInt 1])]])]
  = Raise TypeError
  /\ _normalize_regions_from_source
       [(py "regions",
         VList [VDict [(py "polygon",
                        VList [VInt 0; VInt 0; VInt 1; VInt 0;
                               VInt 1; VInt 1; VInt 0; VInt 1])]])]
     = Raise TypeError
  /\ _normalize_regions_from_source
       [(py "boundingBox", VList [VInt 0; VInt 0; VInt 1; VInt 1])]
     = Ok [].
Proof. repeat split; vm_compute; reflexivity. Qed.

(** ** Source-String Parser: strings *)

Lemma lstrip_spaces (ws s : str) :
  forallb is_space ws = true -> lstrip (ws ++ s) = lstrip s.
Proof.
  induction ws as [| c ws IH]; simpl; [ reflexivity | ].
  intros H. apply andb_true_iff in H as [Hc Hws]. rewrite Hc. auto.
Qed.

Lemma lstrip_nonspace (c : ascii) (s : str) :
  is_space c = false -> lstrip (c :: s) = c :: s.
Proof. intros H. simpl. now rewrite H. Qed.

Lemma forallb_rev {A : Type} (f : A -> bool) (l : list A) :
  forallb f l = true -> forallb f (rev l) = true.
Proof.
  rewrite !forallb_forall. intros H x Hx. apply H. now apply in_rev.
Qed.

Lemma strip_framed (lead : str) (c : ascii) (body : str) (d : ascii) (trail : str) :
  forallb is_space lead = true -> forallb is_space trail = true ->
  is_space c = false -> is_space d = false ->
  strip (lead ++ c :: body ++ d :: trail) = c :: body ++ [d].
Proof.
  intros Hl Ht Hc Hd. unfold strip, rstrip.
  rewrite lstrip_spaces, lstrip_nonspace by assumption.
  change (c :: body ++ d :: trail) with ((c :: body) ++ [d] ++ trail).
  rewrite !rev_app_distr, <- app_assoc.
  rewrite lstrip_spaces by now apply forallb_rev.
  cbn [rev app]. rewrite lstrip_nonspace by assumption.
  cbn [rev]. rewrite rev_app_distr, rev_involutive. reflexivity.
Qed.

Lemma find_after (c : ascii) (pre s : str) :
  contains c pre = false -> find c (pre ++ c :: s) = len pre.
Proof.
  unfold contains, len. induction pre as [| x pre IH]; intros H.
  - simpl. now rewrite Ascii.eqb_refl.
  - cbn [existsb] in H. apply orb_false_iff in H as [Hx Hp].
    cbn [app find]. rewrite Ascii.eqb_sym, Hx, (IH Hp).
    destruct (Z.of_nat (length pre) <? 0) eqn:E; [ lia | ].
    cbn [length]. lia.
Qed.

Lemma skipn_length_app {A : Type} (l r : list A) :
  skipn (length l) (l ++ r) = r.
Proof. induction l; simpl; auto. Qed.

Lemma firstn_length_app {A : Type} (l r : list A) :
  firstn (length l) (l ++ r) = l.
Proof. induction l; simpl; [ now destruct r | now f_equal ]. Qed.

Lemma slice_middle {A : Type} (pre mid : list A) (last : A) :
  slice (pre ++ mid ++ [last]) (len pre) (-1) = mid.
Proof.
  unfold slice, slice_bound, len. rewrite !length_app. cbn [length].
  destruct (Z.of_nat (length pre) <? 0) eqn:E; [ apply Z.ltb_lt in E; lia | ].
  change (-1 <? 0) with true. cbv iota.
  replace (Z.to_nat (Z.min _ _)) with (length pre) by lia.
  replace (Z.to_nat _) with (length mid) by lia.
  now rewrite skipn_length_app, firstn_length_app.
Qed.

Lemma split_app (sep : ascii) (t rest : str) :
  contains sep t = false -> split sep (t ++ sep :: rest) = t :: split sep rest.
Proof.
  unfold contains. induction t as [| c t IH]; intros H.
  - simpl. now rewrite Ascii.eqb_refl.
  - cbn [existsb] in H. apply orb_false_iff in H as [Hc Ht].
    cbn [app split]. rewrite Ascii.eqb_sym, Hc, (IH Ht). reflexivity.
Qed.

Lemma split_no_sep (sep : ascii) (t : str) :
  contains sep t = false -> split sep t = [t].
Proof.
  unfold contains. induction t as [| c t IH]; intros H; [ reflexivity | ].
  cbn [existsb] in H. apply orb_false_iff in H as [Hc Ht].
  cbn [split]. rewrite Ascii.eqb_sym, Hc, (IH Ht). reflexivity.
Qed.

Lemma split_join (sep : ascii) (tokens : list str) :
  tokens <> [] ->
  Forall (fun t => contains sep t = false) tokens ->
  split sep (join sep tokens) = tokens.
Proof.
  intros Hne H. induction H as [| t tokens Ht Hts IH]; [ congruence | ].
  destruct tokens as [| t' tokens].
  - simpl. now apply split_no_sep.
  - cbn [join]. rewrite split_app by assumption.
    f_equal. apply IH. discriminate.
Qed.

(** ** Source-String Parser: numbers and the bounding box *)

Lemma slice_from_tail {A : Type} (a : A) (l : list A) :
  slice_from (a :: l) 1 = l.
Proof.
  unfold slice_from, slice, slice_bound, len. cbn [length].
  change (1 <? 0) with false. cbv iota.
  destruct (Z.of_nat (S (length l)) <? 0) eqn:E; [ apply Z.ltb_lt in E; lia | ].
  replace (Z.to_nat (Z.min 1 _)) with 1%nat by lia.
  replace (Z.to_nat _) with (length l) by lia.
  cbn [skipn]. apply firstn_all.
Qed.

Lemma slice_to_firstn {A : Type} (l : list A) (k : nat) :
  (k <= length l)%nat -> slice_to l (Z.of_nat k) = firstn k l.
Proof.
  intros Hk. unfold slice_to, slice, slice_bound, len.
  change (0 <? 0) with false. cbv iota.
  destruct (Z.of_nat k <? 0) eqn:E; [ apply Z.ltb_lt in E; lia | ].
  replace (Z.to_nat (Z.min 0 _)) with 0%nat by lia.
  replace (Z.to_nat _) with k by lia.
  reflexivity.
Qed.

Lemma map_each_app {A B : Type} (f : A -> result B) (xs xs' : list A)
    (ys ys' : list B) :
  map_each f xs = Ok ys -> map_each f xs' = Ok ys' ->
  map_each f (xs ++ xs') = Ok (ys ++ ys').
Proof.
  revert ys. induction xs as [| x xs IH]; simpl; intros ys H H'.
  - injection H as <-. exact H'.
  - apply bind_ok in H as [y [Hy H]]. apply bind_ok in H as [zs [Hzs H]].
    injection H as <-. rewrite Hy. simpl. now rewrite (IH zs Hzs H').
Qed.

Lemma map_each_returns {A B : Type} (f : A -> result B) (xs : list A) :
  Forall (fun x => returns (f x)) xs -> returns (map_each f xs).
Proof.
  induction 1 as [| x xs [y Hy] _ [ys Hys]]; simpl.
  - now exists [].
  - exists (y :: ys). now rewrite Hy, Hys.
Qed.

Lemma map_each_raises {A B : Type} (f : A -> result B) (xs : list A) :
  Exists (fun x => raises (f x)) xs -> raises (map_each f xs).
Proof.
  induction 1 as [x xs [e He] | x xs _ [e He]]; simpl.
  - exists e. now rewrite He.
  - destruct (f x) as [y | e']; simpl; [ | now exists e' ].
    rewrite He. now exists e.
Qed.

Lemma map_each_length {A B : Type} (f : A -> result B) (xs : list A) (ys : list B) :
  map_each f xs = Ok ys -> length ys = length xs.
Proof.
  intros H. apply map_each_ok in H.
  induction H; simpl; congruence.
Qed.

Lemma choose_min_floats (x : float) (l : list float) :
  choose py_lt (VFloat x) (map VFloat l) = Ok (VFloat (float_min x l)).
Proof.
  unfold float_min. revert x. induction l as [| y l IH]; intros x; [ reflexivity | ].
  cbn [map choose py_lt as_num num_lt bind fold_left].
  destruct (PrimFloat.ltb y x); apply IH.
Qed.

Lemma choose_max_floats (x : float) (l : list float) :
  choose py_gt (VFloat x) (map VFloat l) = Ok (VFloat (float_max x l)).
Proof.
  unfold float_max. revert x. induction l as [| y l IH]; intros x; [ reflexivity | ].
  cbn [map choose py_gt py_lt as_num num_lt bind fold_left].
  destruct (PrimFloat.ltb x y); apply IH.
Qed.

(** The bounding box of four points given as floats: the x's and the y's
    are reduced independently. *)
Lemma coerce_four_points (x1 y1 x2 y2 x3 y3 x4 y4 : float) :
  _coerce_polygon_to_bbox (map VFloat [x1; y1; x2; y2; x3; y3; x4; y4])
  = Ok (VFloat (float_min x1 [x2; x3; x4]),
        VFloat (float_min y1 [y2; y3; y4]),
        VFloat (float_max x1 [x2; x3; x4]),
        VFloat (float_max y1 [y2; y3; y4])).
Proof.
  unfold _coerce_polygon_to_bbox, slice_step2.
  cbn [map skipn every_other py_min py_max].
  change [VFloat x2; VFloat x3; VFloat x4] with (map VFloat [x2; x3; x4]).
  change [VFloat y2; VFloat y3; VFloat y4] with (map VFloat [y2; y3; y4]).
  rewrite (choose_min_floats x1 [x2; x3; x4]),
          (choose_min_floats y1 [y2; y3; y4]),
          (choose_max_floats x1 [x2; x3; x4]),
          (choose_max_floats y1 [y2; y3; y4]).
  reflexivity.
Qed.

Lemma parse_numbers_eight (parts : list str) (n : Z) (coords : list float) :
  parse_numbers parts = Ok (Some (n, coords)) -> length coords = 8%nat.
Proof.
  unfold parse_numbers. intros H.
  apply bind_ok in H as [p0 [_ H]]. apply bind_ok in H as [f0 [_ H]].
  apply bind_ok in H as [pn [_ H]]. apply bind_ok in H as [cs [_ H]].
  destruct (len cs <? 8) eqn:E; [ discriminate | ].
  injection H as _ <-. apply Z.ltb_ge in E. unfold len in E.
  change (slice_to cs 8) with (slice_to cs (Z.of_nat 8)).
  rewrite (slice_to_firstn cs 8) by lia.
  apply firstn_length_le. lia.
Qed.

Lemma region_of_parts_returns (K : ascii) (parts : list str) :
  returns (region_of_parts K parts).
Proof.
  unfold region_of_parts, returns.
  destruct (len parts <? 9); [ eauto | ].
  destruct (parse_numbers parts) as [[[n coords] |] | e] eqn:E;
    cbn [try_except bind]; eauto.
  apply parse_numbers_eight in E.
  do 8 (destruct coords as [| ? coords]; [ discriminate | ]).
  destruct coords; [ | discriminate ].
  rewrite coerce_four_points. cbn [bind]. eauto.
Qed.

(** ** Source-String Parser: the shape of a source string *)

Lemma parts_of_join (tokens : list str) :
  Forall (fun t => contains "," t = false) tokens ->
  parts_of (join "," tokens) = map strip (filter nonblank tokens).
Proof.
  intros H. unfold parts_of. destruct tokens as [| t tokens]; [ reflexivity | ].
  rewrite split_join by (assumption || discriminate). reflexivity.
Qed.

Lemma stripped_source (lead : str) (K : ascii) (tag : str) (inner : str)
    (trail : str) :
  forallb is_space lead = true -> forallb is_space trail = true ->
  is_space K = false ->
  strip (lead ++ K :: tag ++ "("%char :: inner ++ ")"%char :: trail)
  = (K :: tag ++ ["("%char]) ++ inner ++ [")"%char].
Proof.
  intros Hl Ht HK.
  replace (K :: tag ++ "("%char :: inner ++ ")"%char :: trail)
    with (K :: (tag ++ "("%char :: inner) ++ ")"%char :: trail)
    by (now rewrite <- app_assoc).
  rewrite strip_framed by (assumption || reflexivity).
  cbn [app]. rewrite <- !app_assoc. reflexivity.
Qed.

(** On a source string of the stated shape the parser reaches its tokens:
    the kind is the first character and the parts are the stripped
    non-blank tokens, unless the whole string is shorter than four
    characters. *)
Lemma parse_source_string (lead : str) (K : ascii) (tag : str)
    (tokens : list str) (trail : str) :
  source_shape lead K tag tokens trail ->
  parse_cu_source_string (VStr (source_string lead K tag tokens trail))
  = if len ((K :: tag ++ ["("%char]) ++ join "," tokens ++ [")"%char]) <? 4
    then Ok None
    else region_of_parts K (map strip (filter nonblank tokens)).
Proof.
  intros (Hl & Ht & HK & Htag & Htok).
  unfold parse_cu_source_string, source_string.
  replace (truthy (VStr (lead ++ K :: tag ++ "("%char :: join "," tokens
                           ++ ")"%char :: trail))) with true
    by (now destruct lead).
  cbn [negb]. rewrite stripped_source by assumption.
  set (inner := join "," tokens).
  set (S := (K :: tag ++ ["("%char]) ++ inner ++ [")"%char]).
  destruct (len S <? 4); [ reflexivity | ].
  assert (Hc : contains "(" S = true).
  { unfold S, contains. cbn [app]. rewrite <- app_assoc.
    change (K :: tag ++ ["("%char] ++ inner ++ [")"%char])
      with ((K :: tag) ++ "("%char :: inner ++ [")"%char]).
    rewrite existsb_app. cbn [existsb]. rewrite Ascii.eqb_refl.
    now rewrite orb_true_r. }
  assert (He : endswith ")" S = true).
  { unfold S, endswith. rewrite app_assoc, rev_app_distr. reflexivity. }
  rewrite Hc, He. cbn [negb orb].
  assert (Hf : find "(" S = len (K :: tag)).
  { unfold S. cbn [app]. rewrite <- app_assoc.
    change (K :: tag ++ ["("%char] ++ inner ++ [")"%char])
      with ((K :: tag) ++ "("%char :: inner ++ [")"%char]).
    now apply find_after. }
  rewrite Hf.
  replace (len (K :: tag) + 1) with (len (K :: tag ++ ["("%char]))
    by (unfold len; cbn [length]; rewrite length_app; cbn [length]; lia).
  unfold S at 2. rewrite slice_middle.
  unfold S. cbn [app index nth_error bind].
  unfold inner. now rewrite parts_of_join.
Qed.

(** ** Source-String Parser: what becomes of the tokens *)

Lemma numeric_nonblank (t : str) (x : float) :
  float_of_string (strip t) = Ok x -> nonblank t = true.
Proof.
  unfold nonblank. intros H. destruct (strip t); [ | reflexivity ].
  vm_compute in H. discriminate.
Qed.

Lemma region_of_parts_short (K : ascii) (parts : list str) :
  (length parts < 9)%nat -> region_of_parts K parts = Ok None.
Proof.
  intros H. unfold region_of_parts, len.
  destruct (Z.of_nat (length parts) <? 9) eqn:E; [ reflexivity | ].
  apply Z.ltb_ge in E. lia.
Qed.

Lemma region_of_parts_raising (K : ascii) (parts : list str) :
  raises (parse_numbers parts) -> region_of_parts K parts = Ok None.
Proof.
  intros [e He]. unfold region_of_parts. rewrite He.
  now destruct (len parts <? 9).
Qed.

Lemma region_of_parts_bad_page (K : ascii) (p : str) (rest : list str) :
  raises (float_of_string p) -> region_of_parts K (p :: rest) = Ok None.
Proof.
  intros [e He]. apply region_of_parts_raising. exists e.
  unfold parse_numbers. cbn [index nth_error bind]. now rewrite He.
Qed.

Lemma region_of_parts_bad_token (K : ascii) (p : str) (rest : list str) :
  Exists (fun t => raises (float_of_string t)) rest ->
  region_of_parts K (p :: rest) = Ok None.
Proof.
  intros H. apply region_of_parts_raising.
  unfold parse_numbers, raises. cbn [index nth_error bind].
  destruct (float_of_string p) as [f0 | e]; cbn [bind]; [ | eauto ].
  destruct (int_of_float f0) as [n | e]; cbn [bind]; [ | eauto ].
  rewrite slice_from_tail.
  destruct (map_each_raises _ _ H) as [e He]. rewrite He. cbn [bind]. eauto.
Qed.

Lemma kept_tokens_numeric (extra : list str) :
  Forall (fun t => nonblank t = false \/ numeric (strip t)) extra ->
  Forall (fun t => returns (float_of_string t))
         (map strip (filter nonblank extra)).
Proof.
  induction 1 as [| t extra Ht _ IH]; cbn [filter map]; [ constructor | ].
  destruct (nonblank t) eqn:E; [ | exact IH ].
  cbn [map]. constructor; [ | exact IH ].
  destruct Ht as [Ht | Ht]; [ discriminate | exact Ht ].
Qed.

Lemma kept_tokens_bad (extra : list str) :
  Exists (fun t => nonblank t = true /\ raises (float_of_string (strip t))) extra ->
  Exists (fun t => raises (float_of_string t))
         (map strip (filter nonblank extra)).
Proof.
  induction 1 as [t extra [Hn Hr] | t extra _ IH]; cbn [filter].
  - rewrite Hn. cbn [map]. now constructor.
  - destruct (nonblank t); cbn [map]; [ now constructor 2 | exact IH ].
Qed.

(** Nine numeric tokens, followed by tokens that are each blank or
    numeric, give the region of the first nine. *)
Lemma region_of_nine_tokens (K : ascii) (p c1 c2 c3 c4 c5 c6 c7 c8 : str)
    (extra : list str) (f0 : float) (n : Z)
    (x1 y1 x2 y2 x3 y3 x4 y4 : float) :
  float_of_string (strip p) = Ok f0 -> int_of_float f0 = Ok n ->
  float_of_string (strip c1) = Ok x1 -> float_of_string (strip c2) = Ok y1 ->
  float_of_string (strip c3) = Ok x2 -> float_of_string (strip c4) = Ok y2 ->
  float_of_string (strip c5) = Ok x3 -> float_of_string (strip c6) = Ok y3 ->
  float_of_string (strip c7) = Ok x4 -> float_of_string (strip c8) = Ok y4 ->
  Forall (fun t => nonblank t = false \/ numeric (strip t)) extra ->
  region_of_parts K
    (map strip (filter nonblank
                  (p :: c1 :: c2 :: c3 :: c4 :: c5 :: c6 :: c7 :: c8 :: extra)))
  = Ok (Some (region_of_points K n x1 y1 x2 y2 x3 y3 x4 y4)).
Proof.
  intros Hp Hn H1 H2 H3 H4 H5 H6 H7 H8 Hx.
  cbn [filter].
  rewrite (numeric_nonblank _ _ Hp), (numeric_nonblank _ _ H1),
    (numeric_nonblank _ _ H2), (numeric_nonblank _ _ H3),
    (numeric_nonblank _ _ H4), (numeric_nonblank _ _ H5),
    (numeric_nonblank _ _ H6), (numeric_nonblank _ _ H7),
    (numeric_nonblank _ _ H8).
  cbn [map].
  destruct (map_each_returns _ _ (kept_tokens_numeric _ Hx)) as [exs Hexs].
  set (rest := map strip (filter nonblank extra)) in *.
  unfold region_of_parts, len. cbn [length].
  destruct (Z.of_nat _ <? 9) eqn:E; [ apply Z.ltb_lt in E; lia | ]. clear E.
  unfold parse_numbers. cbn [index nth_error bind].
  rewrite Hp. cbn [bind]. rewrite Hn. cbn [bind].
  rewrite slice_from_tail. cbn [map_each].
  rewrite H1, H2, H3, H4, H5, H6, H7, H8, Hexs. cbn [bind].
  unfold len. cbn [length].
  destruct (Z.of_nat _ <? 8) eqn:E; [ apply Z.ltb_lt in E; lia | ]. clear E.
  change (slice_to ?l 8) with (slice_to l (Z.of_nat 8)).
  rewrite slice_to_firstn by (cbn [length]; lia).
  cbn [firstn try_except bind].
  rewrite coerce_four_points. reflexivity.
Qed.

(** ** The order of floats, and what [min] and [max] return *)

Lemma SFltb_irrefl (a : spec_float) : SFltb a a = false.
Proof.
  unfold SFltb, SFcompare.
  destruct a as [s | s | | s m e]; try destruct s; try reflexivity;
    rewrite Z.compare_refl;
    change (Pos.compare_cont Eq m m) with (Pos.compare m m);
    rewrite Pos.compare_refl; reflexivity.
Qed.

Lemma SFltb_trans (a b c : spec_float) :
  SFltb a b = true -> SFltb b c = true -> SFltb a c = true.
Proof.
  unfold SFltb, SFcompare.
  destruct a as [sa | sa | | sa ma ea], b as [sb | sb | | sb mb eb],
           c as [sc | sc | | sc mc ec];
    try destruct sa; try destruct sb; try destruct sc;
    try discriminate; try reflexivity;
    change (Pos.compare_cont Eq) with Pos.compare;
    destruct (Z.compare_spec ea eb), (Z.compare_spec eb ec),
             (Z.compare_spec ea ec);
    try discriminate; try reflexivity; try lia;
    destruct (Pos.compare_spec ma mb), (Pos.compare_spec mb mc),
             (Pos.compare_spec ma mc);
    cbn [CompOpp]; try discriminate; try reflexivity; try lia.
Qed.

Lemma float_ltb_irrefl (x : float) : PrimFloat.ltb x x = false.
Proof. rewrite ltb_spec. apply SFltb_irrefl. Qed.

Lemma float_ltb_trans (x y z : float) :
  PrimFloat.ltb x y = true -> PrimFloat.ltb y z = true ->
  PrimFloat.ltb x z = true.
Proof. rewrite !ltb_spec. apply SFltb_trans. Qed.

Lemma float_ltb_asym (x y : float) :
  PrimFloat.ltb x y = true -> PrimFloat.ltb y x = false.
Proof.
  intros H. destruct (PrimFloat.ltb y x) eqn:E; [ | reflexivity ].
  rewrite <- (float_ltb_irrefl x). symmetry. eapply float_ltb_trans; eauto.
Qed.

Lemma not_before_below (z m x : float) :
  below m x -> PrimFloat.ltb z x = false -> PrimFloat.ltb z m = false.
Proof.
  intros [-> | Hm] Hz; [ exact Hz | ].
  destruct (PrimFloat.ltb z m) eqn:E; [ | reflexivity ].
  rewrite <- Hz. symmetry. eapply float_ltb_trans; eauto.
Qed.

Lemma float_min_below (x : float) (l : list float) : below (float_min x l) x.
Proof.
  unfold float_min. revert x. induction l as [| y l IH]; intros x.
  - now left.
  - cbn [fold_left]. destruct (PrimFloat.ltb y x) eqn:E; [ | apply IH ].
    right. destruct (IH y) as [-> | H]; [ exact E | ].
    eapply float_ltb_trans; eauto.
Qed.

(** What [min] returns is one of the items, and no item comes strictly
    before it. *)
Lemma float_min_least (x : float) (l : list float) :
  In (float_min x l) (x :: l)
  /\ Forall (fun y => PrimFloat.ltb y (float_min x l) = false) (x :: l).
Proof.
  split.
  - unfold float_min. revert x. induction l as [| y l IH]; intros x.
    + now left.
    + cbn [fold_left]. destruct (PrimFloat.ltb y x).
      * right. apply IH.
      * destruct (IH x) as [H | H]; [ now left | right; now right ].
  - constructor.
    + apply (not_before_below _ _ _ (float_min_below x l)), float_ltb_irrefl.
    + revert x. induction l as [| y l IH]; intros x; constructor.
      * change (float_min x (y :: l))
          with (float_min (if PrimFloat.ltb y x then y else x) l).
        apply (not_before_below _ _ _ (float_min_below _ l)).
        destruct (PrimFloat.ltb y x) eqn:E; [ apply float_ltb_irrefl | exact E ].
      * apply IH.
Qed.

Lemma not_after_above (z m x : float) :
  above m x -> PrimFloat.ltb x z = false -> PrimFloat.ltb m z = false.
Proof.
  intros [-> | Hm] Hz; [ exact Hz | ].
  destruct (PrimFloat.ltb m z) eqn:E; [ | reflexivity ].
  rewrite <- Hz. symmetry. eapply float_ltb_trans; eauto.
Qed.

Lemma float_max_above (x : float) (l : list float) : above (float_max x l) x.
Proof.
  unfold float_max. revert x. induction l as [| y l IH]; intros x.
  - now left.
  - cbn [fold_left]. destruct (PrimFloat.ltb x y) eqn:E; [ | apply IH ].
    right. destruct (IH y) as [-> | H]; [ exact E | ].
    eapply float_ltb_trans; eauto.
Qed.

(** What [max] returns is one of the items, and no item comes strictly
    after it. *)
Lemma float_max_greatest (x : float) (l : list float) :
  In (float_max x l) (x :: l)
  /\ Forall (fun y => PrimFloat.ltb (float_max x l) y = false) (x :: l).
Proof.
  split.
  - unfold float_max. revert x. induction l as [| y l IH]; intros x.
    + now left.
    + cbn [fold_left]. destruct (PrimFloat.ltb x y).
      * right. apply IH.
      * destruct (IH x) as [H | H]; [ now left | right; now right ].
  - constructor.
    + apply (not_after_above _ _ _ (float_max_above x l)), float_ltb_irrefl.
    + revert x. induction l as [| y l IH]; intros x; constructor.
      * change (float_max x (y :: l))
          with (float_max (if PrimFloat.ltb x y then y else x) l).
        apply (not_after_above _ _ _ (float_max_above _ l)).
        destruct (PrimFloat.ltb x y) eqn:E; [ apply float_ltb_irrefl | exact E ].
      * apply IH.
Qed.

(** ** Source-String Parser: the claims *)

Lemma long_enough (K : ascii) (tag : str) (t1 t2 : str) (tokens : list str) :
  (len ((K :: tag ++ ["("%char]) ++ join "," (t1 :: t2 :: tokens) ++ [")"%char])
   <? 4) = false.
Proof.
  apply Z.ltb_ge. unfold len. cbn [join].
  rewrite !length_app. cbn [length]. rewrite !length_app. cbn [length]. lia.
Qed.

(** C1. A source string K(p,x1,y1,x2,y2,x3,y3,x4,y4[,...]) whose tokens
    are all numeric, p being a finite number, parses to the region with
    kind K, with pageNumber the integer p denotes, with polygon the first
    eight coordinate values, and with bbox (min of the x's, min of the
    y's, max of the x's, max of the y's), each minimum and maximum being
    one of the four values of its axis that none of them strictly
    precedes, respectively follows. *)
Theorem parse_well_formed_source (lead : str) (K : ascii) (tag trail : str)
    (p c1 c2 c3 c4 c5 c6 c7 c8 : str) (extra : list str)
    (f0 : float) (n : Z) (x1 y1 x2 y2 x3 y3 x4 y4 : float) :
  source_shape lead K tag
    (p :: c1 :: c2 :: c3 :: c4 :: c5 :: c6 :: c7 :: c8 :: extra) trail ->
  float_of_string (strip p) = Ok f0 -> int_of_float f0 = Ok n ->
  float_of_string (strip c1) = Ok x1 -> float_of_string (strip c2) = Ok y1 ->
  float_of_string (strip c3) = Ok x2 -> float_of_string (strip c4) = Ok y2 ->
  float_of_string (strip c5) = Ok x3 -> float_of_string (strip c6) = Ok y3 ->
  float_of_string (strip c7) = Ok x4 -> float_of_string (strip c8) = Ok y4 ->
  Forall (fun t => numeric (strip t)) extra ->
  exists r,
    parse_cu_source_string
      (VStr (source_string lead K tag
               (p :: c1 :: c2 :: c3 :: c4 :: c5 :: c6 :: c7 :: c8 :: extra)
               trail)) = Ok (Some r)
    /\ kind r = Some [K]
    /\ pageNumber r = n
    /\ polygon r = VList (map VFloat [x1; y1; x2; y2; x3; y3; x4; y4])
    /\ bbox r = (VFloat (float_min x1 [x2; x3; x4]),
                 VFloat (float_min y1 [y2; y3; y4]),
                 VFloat (float_max x1 [x2; x3; x4]),
                 VFloat (float_max y1 [y2; y3; y4]))
    /\ (In (float_min x1 [x2; x3; x4]) [x1; x2; x3; x4]
        /\ Forall (fun x => PrimFloat.ltb x (float_min x1 [x2; x3; x4]) = false)
                  [x1; x2; x3; x4])
    /\ (In (float_min y1 [y2; y3; y4]) [y1; y2; y3; y4]
        /\ Forall (fun y => PrimFloat.ltb y (float_min y1 [y2; y3; y4]) = false)
                  [y1; y2; y3; y4])
    /\ (In (float_max x1 [x2; x3; x4]) [x1; x2; x3; x4]
        /\ Forall (fun x => PrimFloat.ltb (float_max x1 [x2; x3; x4]) x = false)
                  [x1; x2; x3; x4])
    /\ (In (float_max y1 [y2; y3; y4]) [y1; y2; y3; y4]
        /\ Forall (fun y => PrimFloat.ltb (float_max y1 [y2; y3; y4]) y = false)
                  [y1; y2; y3; y4]).
Proof.
  intros Hs Hp Hn H1 H2 H3 H4 H5 H6 H7 H8 Hx.
  exists (region_of_points K n x1 y1 x2 y2 x3 y3 x4 y4).
  split.
  - rewrite (parse_source_string _ _ _ _ _ Hs), long_enough.
    apply (region_of_nine_tokens K p c1 c2 c3 c4 c5 c6 c7 c8 extra f0);
      try assumption.
    eapply Forall_impl; [ | exact Hx ]. intros t Ht. now right.
  - repeat split; try reflexivity;
      first [ apply float_min_least | apply float_max_greatest ].
Qed.

(** The string " D(1,0,0,10,0,10,5,0,5)": page 1, box (0,0,10,5). *)
Lemma parse_well_formed_source_witness :
  exists r,
    parse_cu_source_string (VStr (py " D(1,0,0,10,0,10,5,0,5)")) = Ok (Some r)
    /\ kind r = Some (py "D")
    /\ pageNumber r = 1
    /\ bbox r = (VFloat 0, VFloat 0, VFloat 10, VFloat 5).
Proof.
  assert (Hs : source_shape (py " ") "D" []
                 [py "1"; py "0"; py "0"; py "10"; py "0";
                  py "10"; py "5"; py "0"; py "5"] [])
    by (repeat split; try reflexivity; repeat constructor).
  destruct (parse_well_formed_source (py " ") "D" [] []
              (py "1") (py "0") (py "0") (py "10") (py "0")
              (py "10") (py "5") (py "0") (py "5") []
              1%float 1 0%float 0%float 10%float 0%float
              10%float 5%float 0%float 5%float
              Hs eq_refl eq_refl eq_refl eq_refl eq_refl eq_refl
              eq_refl eq_refl eq_refl eq_refl (Forall_nil _))
    as [r (Hr & Hk & Hp & _ & Hb & _)].
  exists r. repeat split; assumption.
Defined.

(** C3. The parser never raises, whatever it is given, and returns None
    on a string without a parenthesized body (no opening parenthesis, or
    no closing one at the end), on one whose body has fewer than nine
    comma-separated tokens, and on one whose page token is not numeric. *)
Theorem parse_malformed_source :
  (forall source, returns (parse_cu_source_string source))
  /\ (forall s,
        contains "(" (strip s) = false \/ endswith ")" (strip s) = false ->
        parse_cu_source_string (VStr s) = Ok None)
  /\ (forall lead K tag tokens trail,
        source_shape lead K tag tokens trail ->
        (length tokens < 9)%nat ->
        parse_cu_source_string (VStr (source_string lead K tag tokens trail))
        = Ok None)
  /\ (forall lead K tag tokens trail p rest,
        source_shape lead K tag tokens trail ->
        filter nonblank tokens = p :: rest ->
        raises (float_of_string (strip p)) ->
        parse_cu_source_string (VStr (source_string lead K tag tokens trail))
        = Ok None).
Proof.
  split; [ | split; [ | split ] ].
  - intros source. destruct source as [| b | n | f | s | l | d];
      try (now exists None).
    unfold parse_cu_source_string.
    destruct (negb (truthy (VStr s))); [ now exists None | ].
    destruct (strip s) as [| c r]; [ now exists None | ].
    destruct (_ || _); [ now exists None | ].
    cbn [index nth_error bind]. apply region_of_parts_returns.
  - intros s H. unfold parse_cu_source_string.
    destruct (negb (truthy (VStr s))); [ reflexivity | ].
    destruct H as [H | H]; rewrite H; cbn [negb];
      now rewrite ?orb_true_r.
  - intros lead K tag tokens trail Hs Hl.
    rewrite (parse_source_string _ _ _ _ _ Hs).
    destruct (_ <? 4); [ reflexivity | ].
    apply region_of_parts_short. rewrite length_map.
    eapply Nat.le_lt_trans; [ apply filter_length_le | exact Hl ].
  - intros lead K tag tokens trail p rest Hs Hf Hr.
    rewrite (parse_source_string _ _ _ _ _ Hs), Hf.
    destruct (_ <? 4); [ reflexivity | ].
    now apply region_of_parts_bad_page.
Qed.

(** A string without parentheses, one with eight tokens, and one whose
    page token is a word. *)
Lemma parse_malformed_source_witness :
  parse_cu_source_string (VStr (py "page 3, top left")) = Ok None
  /\ parse_cu_source_string (VStr (py "D(1,0,0,10,0,10,5,0)")) = Ok None
  /\ parse_cu_source_string (VStr (py "D(one,0,0,10,0,10,5,0,5)")) = Ok None.
Proof.
  destruct parse_malformed_source as (_ & Hparen & Hshort & Hpage).
  split; [ | split ].
  - apply Hparen. left. vm_compute. reflexivity.
  - apply (Hshort [] "D"%char [] 
             [py "1"; py "0"; py "0"; py "10"; py "0"; py "10"; py "5"; py "0"] []).
    + repeat split; try reflexivity. repeat constructor.
    + cbn [length]. lia.
  - apply (Hpage [] "D"%char [] 
             [py "one"; py "0"; py "0"; py "10"; py "0"; py "10"; py "5";
              py "0"; py "5"] []
             (py "one")
             [py "0"; py "0"; py "10"; py "0"; py "10"; py "5"; py "0"; py "5"]).
    + repeat split; try reflexivity. repeat constructor.
    + vm_compute. reflexivity.
    + exists ValueError. vm_compute. reflexivity.
Defined.

(** What the claim C4 says of the tokens beyond the ninth fails: a tenth
    token that is not numeric turns the region into None. *)
Lemma extra_token_counterexample :
  parse_cu_source_string (VStr (py "D(1,0,0,10,0,10,5,0,5)"))
  = Ok (Some (rectangle_10_by_5 1))
  /\ parse_cu_source_string (VStr (py "D(1,0,0,10,0,10,5,0,5,abc)"))
     = Ok None.
Proof. split; vm_compute; reflexivity. Qed.

(** C4, amended. On a source string whose body starts with nine numeric
    tokens, the region is built from the page number and the first eight
    coordinate values; tokens beyond the ninth that are blank or numeric
    change nothing, neither whether a region is returned nor what it
    holds, and one that is neither blank nor numeric makes the parser
    return None. *)
Theorem extra_tokens_numeric_or_none (lead : str) (K : ascii) (tag trail : str)
    (p c1 c2 c3 c4 c5 c6 c7 c8 : str) (extra : list str)
    (f0 : float) (n : Z) (x1 y1 x2 y2 x3 y3 x4 y4 : float) :
  source_shape lead K tag
    ([p; c1; c2; c3; c4; c5; c6; c7; c8] ++ extra) trail ->
  float_of_string (strip p) = Ok f0 -> int_of_float f0 = Ok n ->
  float_of_string (strip c1) = Ok x1 -> float_of_string (strip c2) = Ok y1 ->
  float_of_string (strip c3) = Ok x2 -> float_of_string (strip c4) = Ok y2 ->
  float_of_string (strip c5) = Ok x3 -> float_of_string (strip c6) = Ok y3 ->
  float_of_string (strip c7) = Ok x4 -> float_of_string (strip c8) = Ok y4 ->
  parse_cu_source_string
    (VStr (source_string lead K tag [p; c1; c2; c3; c4; c5; c6; c7; c8] trail))
  = Ok (Some (region_of_points K n x1 y1 x2 y2 x3 y3 x4 y4))
  /\ (Forall (fun t => nonblank t = false \/ numeric (strip t)) extra ->
      parse_cu_source_string
        (VStr (source_string lead K tag
                 ([p; c1; c2; c3; c4; c5; c6; c7; c8] ++ extra) trail))
      = Ok (Some (region_of_points K n x1 y1 x2 y2 x3 y3 x4 y4)))
  /\ (Exists (fun t => nonblank t = true
                       /\ raises (float_of_string (strip t))) extra ->
      parse_cu_source_string
        (VStr (source_string lead K tag
                 ([p; c1; c2; c3; c4; c5; c6; c7; c8] ++ extra) trail))
      = Ok None).
Proof.
  intros Hs Hp Hn H1 H2 H3 H4 H5 H6 H7 H8.
  assert (Hs9 : source_shape lead K tag [p; c1; c2; c3; c4; c5; c6; c7; c8] trail).
  { destruct Hs as (Hl & Ht & HK & Htag & Htok).
    repeat split; try assumption.
    apply Forall_app in Htok. apply Htok. }
  cbn [app] in Hs |- *.
  split; [ | split ].
  - rewrite (parse_source_string _ _ _ _ _ Hs9), long_enough.
    apply (region_of_nine_tokens K p c1 c2 c3 c4 c5 c6 c7 c8 [] f0);
      try assumption.
    constructor.
  - intros Hx. rewrite (parse_source_string _ _ _ _ _ Hs), long_enough.
    now apply (region_of_nine_tokens K p c1 c2 c3 c4 c5 c6 c7 c8 extra f0).
  - intros Hx. rewrite (parse_source_string _ _ _ _ _ Hs), long_enough.
    change (p :: c1 :: c2 :: c3 :: c4 :: c5 :: c6 :: c7 :: c8 :: extra)
      with ([p] ++ [c1; c2; c3; c4; c5; c6; c7; c8] ++ extra).
    rewrite !filter_app, !map_app.
    cbn [filter]. rewrite (numeric_nonblank _ _ Hp). cbn [map app].
    apply region_of_parts_bad_token.
    apply Exists_app. right. now apply kept_tokens_bad.
Qed.

(** The string "D(1,0,0,10,0,10,5,0,5" continued by ",7, ,8.5)" and by
    ",7,abc)". *)
Lemma extra_tokens_numeric_or_none_witness :
  parse_cu_source_string (VStr (py "D(1,0,0,10,0,10,5,0,5,7, ,8.5)"))
  = parse_cu_source_string (VStr (py "D(1,0,0,10,0,10,5,0,5)"))
  /\ parse_cu_source_string (VStr (py "D(1,0,0,10,0,10,5,0,5,7,abc)"))
     = Ok None.
Proof.
  split.
  - assert (Hs : source_shape [] "D" []
                   ([py "1"; py "0"; py "0"; py "10"; py "0";
                     py "10"; py "5"; py "0"; py "5"]
                    ++ [py "7"; py " "; py "8.5"]) [])
      by (repeat split; try reflexivity; repeat constructor).
    destruct (extra_tokens_numeric_or_none [] "D" [] []
                (py "1") (py "0") (py "0") (py "10") (py "0")
                (py "10") (py "5") (py "0") (py "5")
                [py "7"; py " "; py "8.5"]
                1%float 1 0%float 0%float 10%float 0%float
                10%float 5%float 0%float 5%float
                Hs eq_refl eq_refl eq_refl eq_refl eq_refl eq_refl
                eq_refl eq_refl eq_refl eq_refl)
      as (H9 & Hall & _).
    change (py "D(1,0,0,10,0,10,5,0,5)")
      with (source_string [] "D" []
              [py "1"; py "0"; py "0"; py "10"; py "0";
               py "10"; py "5"; py "0"; py "5"] []).
    rewrite H9. apply Hall.
    constructor; [ right; eexists; vm_compute; reflexivity | ].
    constructor; [ left; reflexivity | ].
    constructor; [ right; eexists; vm_compute; reflexivity | constructor ].
  - assert (Hs : source_shape [] "D" []
                   ([py "1"; py "0"; py "0"; py "10"; py "0";
                     py "10"; py "5"; py "0"; py "5"]
                    ++ [py "7"; py "abc"]) [])
      by (repeat split; try reflexivity; repeat constructor).
    apply (proj2 (proj2 (extra_tokens_numeric_or_none [] "D" [] []
                (py "1") (py "0") (py "0") (py "10") (py "0")
                (py "10") (py "5") (py "0") (py "5")
                [py "7"; py "abc"]
                1%float 1 0%float 0%float 10%float 0%float
                10%float 5%float 0%float 5%float
                Hs eq_refl eq_refl eq_refl eq_refl eq_refl eq_refl
                eq_refl eq_refl eq_refl eq_refl))).
    constructor 2. constructor. split.
    + reflexivity.
    + exists ValueError. vm_compute. reflexivity.
Defined.

(** ** Page numbers and nesting *)

(** A page number below one thousand written in decimal is read back
    exactly: for these the pageNumber of the parsed region is the number
    the string shows. *)
Lemma page_numbers_read_exactly (n : nat) :
  (n < 1000)%nat -> page_of (decimal n) = Ok (Z.of_nat n).
Proof.
  intros Hn.
  assert (H : forallb
                (fun k => match page_of (decimal k) with
                          | Ok z => z =? Z.of_nat k
                          | Raise _ => false
                          end)
                (seq 0 1000) = true)
    by (vm_compute; reflexivity).
  rewrite forallb_forall in H.
  specialize (H n). rewrite in_seq in H.
  destruct (page_of (decimal n)) as [z | e].
  - f_equal. apply Z.eqb_eq. apply H. lia.
  - discriminate H. lia.
Qed.

Lemma preorder_list (l : list pyobj) :
  preorder (VList l) = VList l :: flat_map preorder l.
Proof. reflexivity. Qed.

Lemma preorder_dict (d : list (str * pyobj)) :
  preorder (VDict d) = VDict d :: flat_map preorder (values d).
Proof.
  cbn [preorder]. f_equal.
  induction d as [| [k x] d IH]; [ reflexivity | ].
  cbn [values map snd flat_map]. f_equal. exact IH.
Qed.

Lemma in_preorder_self (v : pyobj) : In v (preorder v).
Proof. destruct v; now left. Qed.

(** The nodes listed by [preorder] are the values nested at any depth. *)
Lemma in_preorder_inside (v w : pyobj) : In w (preorder v) <-> inside w v.
Proof.
  split.
  - revert w.
    induction v as [| b | n | f | t | l IH | d IH] using pyobj_ind; intros w Hw;
      try (destruct Hw as [<- | []]; apply inside_here).
    + rewrite preorder_list in Hw.
      destruct Hw as [<- | Hw]; [ apply inside_here | ].
      apply in_flat_map in Hw as [x [Hx Hw]].
      rewrite Forall_forall in IH.
      apply inside_item with (x := x); auto.
    + rewrite preorder_dict in Hw.
      destruct Hw as [<- | Hw]; [ apply inside_here | ].
      apply in_flat_map in Hw as [x [Hx Hw]].
      unfold values in Hx. apply in_map_iff in Hx as [[k x'] [E Hx]].
      simpl in E. subst x'.
      rewrite Forall_forall in IH.
      apply inside_entry with (k := k) (x := x); [ exact Hx | ].
      apply (IH (k, x) Hx). exact Hw.
  - intros H. induction H as [| x l Hx _ IH | k x d Hx _ IH].
    + apply in_preorder_self.
    + rewrite preorder_list. right. apply in_flat_map. eauto.
    + rewrite preorder_dict. right. apply in_flat_map.
      exists x. split; [ | exact IH ].
      unfold values. apply in_map_iff. exists (k, x). auto.
Qed.

(* ================================================================== *)
(** * Further properties of the normalizer *)
(* ================================================================== *)

(** ** White space *)

Lemma lstrip_idem (s : str) : lstrip (lstrip s) = lstrip s.
Proof.
  induction s as [| c s IH]; [ reflexivity | ].
  simpl. destruct (is_space c) eqn:E; [ exact IH | ].
  simpl. now rewrite E.
Qed.

Lemma lstrip_length (s : str) : (length (lstrip s) <= length s)%nat.
Proof.
  induction s as [| c s IH]; simpl; [ lia | ].
  destruct (is_space c); simpl; lia.
Qed.

Lemma lstrip_fixed_head (c : ascii) (s : str) :
  lstrip (c :: s) = c :: s -> is_space c = false.
Proof.
  simpl. destruct (is_space c); [ | reflexivity ].
  intros H. pose proof (lstrip_length s) as L. rewrite H in L.
  simpl in L. lia.
Qed.

Lemma lstrip_split (s : str) :
  exists ws, s = ws ++ lstrip s /\ forallb is_space ws = true.
Proof.
  induction s as [| c s [ws [E H]]].
  - now exists [].
  - simpl. destruct (is_space c) eqn:Ec.
    + exists (c :: ws). simpl. rewrite Ec, H. split; [ now f_equal | reflexivity ].
    + now exists [].
Qed.

Lemma rstrip_idem (s : str) : rstrip (rstrip s) = rstrip s.
Proof. unfold rstrip. now rewrite rev_involutive, lstrip_idem. Qed.

Lemma lstrip_rstrip (u : str) : lstrip u = u -> lstrip (rstrip u) = rstrip u.
Proof.
  intros Hu. destruct (lstrip_split (rev u)) as [ws [E _]].
  assert (Eu : u = rstrip u ++ rev ws).
  { unfold rstrip. rewrite <- rev_app_distr, <- E. now rewrite rev_involutive. }
  destruct (rstrip u) as [| c t]; [ reflexivity | ].
  apply lstrip_nonspace. apply (lstrip_fixed_head c (t ++ rev ws)).
  simpl in Eu. now rewrite <- Eu.
Qed.

Lemma strip_idem (s : str) : strip (strip s) = strip s.
Proof.
  unfold strip. rewrite lstrip_rstrip by apply lstrip_idem.
  apply rstrip_idem.
Qed.

(** X1. White space around a source string never matters: the parser
    gives the stripped string the result it gives the string. *)
Theorem parse_ignores_surrounding_space (s : str) :
  parse_cu_source_string (VStr (strip s)) = parse_cu_source_string (VStr s).
Proof.
  unfold parse_cu_source_string. rewrite strip_idem.
  destruct s as [| c s]; [ reflexivity | ].
  destruct (strip (c :: s)) as [| c' s'] eqn:E; reflexivity.
Qed.

(** ** The shape of a parsed region *)

Lemma region_of_parts_some (K : ascii) (parts : list str) (r : Region) :
  region_of_parts K parts = Ok (Some r) ->
  exists x1 y1 x2 y2 x3 y3 x4 y4,
    r = region_of_points K (pageNumber r) x1 y1 x2 y2 x3 y3 x4 y4.
Proof.
  unfold region_of_parts. destruct (len parts <? 9); [ discriminate | ].
  destruct (parse_numbers parts) as [[[n coords] |] | e] eqn:E;
    cbn [try_except bind]; try discriminate.
  apply parse_numbers_eight in E.
  do 8 (destruct coords as [| ? coords]; [ discriminate | ]).
  destruct coords; [ | discriminate ].
  rewrite coerce_four_points. cbn [bind]. intros H. injection H as <-.
  repeat eexists.
Qed.

(** X2. Every region the parser returns has as kind the first character
    of the stripped string, a polygon of exactly eight floats and the bbox
    computed from that polygon: the minimum and maximum of its x's and of
    its y's. *)
Theorem parsed_region_shape (source : pyobj) (r : Region) :
  parse_cu_source_string source = Ok (Some r) ->
  exists s c rest x1 y1 x2 y2 x3 y3 x4 y4,
    source = VStr s /\ strip s = c :: rest
    /\ r = region_of_points c (pageNumber r) x1 y1 x2 y2 x3 y3 x4 y4
    /\ _coerce_polygon_to_bbox (map VFloat [x1; y1; x2; y2; x3; y3; x4; y4])
       = Ok (bbox r).
Proof.
  destruct source as [| b | n | f | s | l | d]; try discriminate.
  unfold parse_cu_source_string.
  destruct (negb (truthy (VStr s))); [ discriminate | ].
  destruct (strip s) as [| c rest] eqn:E; [ discriminate | ].
  destruct (_ || _); [ discriminate | ].
  cbn [index nth_error bind]. intros H.
  destruct (region_of_parts_some _ _ _ H)
    as (x1 & y1 & x2 & y2 & x3 & y3 & x4 & y4 & Hr).
  exists s, c, rest, x1, y1, x2, y2, x3, y3, x4, y4.
  repeat split; try assumption.
  rewrite Hr at 1. apply coerce_four_points.
Qed.

(** The string " D(2,1,1,4,1,4,3,1,3) ". *)
Lemma parsed_region_shape_witness :
  exists s c rest x1 y1 x2 y2 x3 y3 x4 y4,
    VStr (py " D(2,1,1,4,1,4,3,1,3) ") = VStr s /\ strip s = c :: rest
    /\ region_of_points "D" 2 1 1 4 1 4 3 1 3
       = region_of_points c 2 x1 y1 x2 y2 x3 y3 x4 y4
    /\ _coerce_polygon_to_bbox (map VFloat [x1; y1; x2; y2; x3; y3; x4; y4])
       = Ok (VFloat 1, VFloat 1, VFloat 4, VFloat 3).
Proof.
  exact (parsed_region_shape (VStr (py " D(2,1,1,4,1,4,3,1,3) "))
           (region_of_points "D" 2 1 1 4 1 4 3 1 3) eq_refl).
Defined.

(** ** Fields-Map Locator *)

Lemma find_app_first {A : Type} (f : A -> bool) (l1 l2 : list A) :
  List.find f (l1 ++ l2)
  = match List.find f l1 with Some x => Some x | None => List.find f l2 end.
Proof.
  induction l1 as [| x l1 IH]; simpl; [ reflexivity | ].
  now destruct (f x).
Qed.

Lemma fields_map_truthy (m : pyobj) : is_fields_map m = true -> truthy m = true.
Proof.
  destruct m as [| | | | | | d]; simpl; try discriminate.
  destruct d; [ discriminate | reflexivity ].
Qed.

Lemma found_or_next (nodes : list pyobj) (next : pyobj) :
  (let found := match List.find is_fields_map nodes with
                | Some m => m
                | None => VNone
                end in
   if truthy found then found else next)
  = match List.find is_fields_map nodes with
    | Some m => m
    | None => next
    end.
Proof.
  cbv zeta. destruct (List.find is_fields_map nodes) as [m |] eqn:E.
  - apply find_some in E as [_ E]. now rewrite (fields_map_truthy _ E).
  - reflexivity.
Qed.

Lemma find_fields_map_preorder (obj : pyobj) :
  _find_fields_map obj
  = match List.find is_fields_map (preorder obj) with
    | Some m => m
    | None => VNone
    end.
Proof.
  induction obj as [| b | n | f | t | l IH | d IH] using pyobj_ind;
    try reflexivity.
  - rewrite preorder_list. cbn [_find_fields_map List.find is_fields_map].
    induction IH as [| x l Hx _ IHl]; [ reflexivity | ].
    cbn [flat_map]. rewrite find_app_first, Hx, IHl.
    rewrite found_or_next.
    now destruct (List.find is_fields_map (preorder x)).
  - rewrite preorder_dict. cbn [_find_fields_map List.find].
    change (truthy (VDict d) && forallb is_dict (values d)
            && match values d with
               | sample :: _ => looks_like_field sample
               | [] => false
               end)
      with (is_fields_map (VDict d)).
    destruct (is_fields_map (VDict d)); [ reflexivity | ].
    induction IH as [| [k x] d' Hx _ IHd]; [ reflexivity | ].
    cbn [values map snd flat_map]. simpl in Hx.
    rewrite find_app_first, Hx. fold (values d'). rewrite IHd.
    rewrite found_or_next.
    now destruct (List.find is_fields_map (preorder x)).
Qed.

(** X3. The locator returns the first value, in traversal order, that is
    a non-empty mapping whose values are all mappings and whose first
    value carries one of the marker keys value, valueString, sources,
    source; what it returns is nested in the result; it returns None
    exactly when no nested value qualifies. *)
Theorem fields_map_located (obj : pyobj) :
  _find_fields_map obj
  = match List.find is_fields_map (preorder obj) with
    | Some m => m
    | None => VNone
    end
  /\ (_find_fields_map obj <> VNone ->
      inside (_find_fields_map obj) obj
      /\ is_fields_map (_find_fields_map obj) = true)
  /\ (_find_fields_map obj = VNone
      <-> forall w, inside w obj -> is_fields_map w = false).
Proof.
  rewrite find_fields_map_preorder.
  split; [ reflexivity | split ].
  - destruct (List.find is_fields_map (preorder obj)) as [m |] eqn:E;
      [ | congruence ].
    intros _. apply find_some in E as [Hin Hm].
    split; [ now apply in_preorder_inside | exact Hm ].
  - destruct (List.find is_fields_map (preorder obj)) as [m |] eqn:E.
    + apply find_some in E as [Hin Hm]. split.
      * intros ->. discriminate.
      * intros H. apply in_preorder_inside in Hin.
        rewrite (H _ Hin) in Hm. discriminate.
    + split; [ | reflexivity ].
      intros _ w Hw. apply in_preorder_inside in Hw.
      destruct (is_fields_map w) eqn:Ew; [ | reflexivity ].
      now rewrite (find_none _ _ E _ Hw) in Ew.
Qed.

(** ** Classifier Output Interpreter: where a label comes from *)

Lemma first_some_in {A B : Type} (f : A -> option B) (l : list A) (b : B) :
  first_some f l = Some b -> exists x, In x l /\ f x = Some b.
Proof.
  induction l as [| x l IH]; simpl; [ discriminate | ].
  destruct (f x) as [b' |] eqn:E.
  - intros H. injection H as <-. exists x. auto.
  - intros H. destruct (IH H) as [y [Hy Hf]]. exists y. auto.
Qed.

Lemma first_some_none_all {A B : Type} (f : A -> option B) (l : list A) :
  first_some f l = None -> Forall (fun x => f x = None) l.
Proof.
  induction l as [| x l IH]; simpl; [ constructor | ].
  destruct (f x) eqn:E; [ discriminate | ].
  intros H. constructor; auto.
Qed.

(** X4. A label the interpreter returns is the category string of a
    mapping nested in the result or, when that mapping has no category
    string, its label string, and the confidence is the one of the same
    mapping; the label is None exactly when no nested mapping carries a
    category or label string, and then the confidence is None too. *)
Theorem classifier_label_sound (result : pyobj) :
  (forall l c,
      parse_classifier_output result = (Some l, c) ->
      exists d,
        inside (VDict d) result
        /\ c = confidence_of d
        /\ (get (py "category") d = VStr l
            \/ (is_str (get (py "category") d) = false
                /\ get (py "label") d = VStr l)))
  /\ (fst (parse_classifier_output result) = None
      <-> forall w, inside w result -> carries_label w = false)
  /\ (fst (parse_classifier_output result) = None ->
      snd (parse_classifier_output result) = None).
Proof.
  unfold parse_classifier_output. rewrite find_first_category_preorder.
  split; [ | split ].
  - intros l c H.
    destruct (first_some label_of (preorder result)) as [[l' c'] |] eqn:E;
      [ | discriminate ].
    injection H as -> ->.
    apply first_some_in in E as [x [Hx Hl]].
    apply in_preorder_inside in Hx.
    destruct x as [| | | | | | d]; try discriminate.
    exists d. split; [ exact Hx | ].
    cbn [label_of] in Hl. unfold own_category in Hl.
    destruct (get (py "category") d) eqn:Ec;
      try (destruct (get (py "label") d) eqn:El; try discriminate;
           injection Hl as <- <-; split; [ reflexivity | right; now split ]).
    injection Hl as <- <-. split; [ reflexivity | now left ].
  - destruct (first_some label_of (preorder result)) as [[l c] |] eqn:E.
    + split; [ discriminate | ].
      intros H. apply first_some_in in E as [x [Hx Hl]].
      apply in_preorder_inside in Hx.
      apply H, carries_label_iff in Hx. congruence.
    + split; [ | reflexivity ].
      intros _ w Hw. apply in_preorder_inside in Hw.
      apply first_some_none_all in E. rewrite Forall_forall in E.
      apply carries_label_iff. auto.
  - destruct (first_some label_of (preorder result)) as [[l c] |];
      [ discriminate | reflexivity ].
Qed.

(** A result whose only labelled mapping has a label and a score. *)
Lemma classifier_label_sound_witness :
  exists d,
    inside (VDict d)
      (VDict [(py "segments",
               VList [VDict [(py "label", VStr (py "Loan"));
                             (py "score", VInt 1)]])])
    /\ Some one = confidence_of d
    /\ (get (py "category") d = VStr (py "Loan")
        \/ (is_str (get (py "category") d) = false
            /\ get (py "label") d = VStr (py "Loan"))).
Proof.
  exact (proj1 (classifier_label_sound
                  (VDict [(py "segments",
                           VList [VDict [(py "label", VStr (py "Loan"));
                                         (py "score", VInt 1)]])]))
           (py "Loan") (Some one) eq_refl).
Defined.

(** ** Region Extractor: page numbers and the number of regions *)

(** X5. A source without a list of bounding regions yields no region, and
    does not raise, when none of pageNumber, page and pageIndex holds a
    truthy value: a page number 0 counts as no page number. *)
Theorem flat_source_needs_page (src : list (str * pyobj)) :
  truthy (get (py "boundingRegions") src) = false ->
  truthy (get (py "regions") src) = false ->
  Forall (fun k => truthy (get k src) = false)
         [py "pageNumber"; py "page"; py "pageIndex"] ->
  _normalize_regions_from_source src = Ok [].
Proof.
  intros Hb Hr Hp.
  inversion Hp as [| ? ? H1 Hp1]; subst.
  inversion Hp1 as [| ? ? H2 Hp2]; subst.
  inversion Hp2 as [| ? ? H3 _]; subst.
  unfold _normalize_regions_from_source, or_else.
  rewrite Hb, Hr, H1, H2, H3. reflexivity.
Qed.

(** A box on the page of index 0. *)
Lemma flat_source_needs_page_witness :
  _normalize_regions_from_source
    [(py "pageIndex", VInt 0);
     (py "boundingBox", VList [VInt 0; VInt 0; VInt 1; VInt 1])]
  = Ok [].
Proof.
  apply flat_source_needs_page; try reflexivity.
  repeat constructor.
Defined.

Lemma usable_polygon_list (poly : pyobj) (l : list pyobj) :
  usable_polygon poly = Some l -> poly = VList l.
Proof.
  destruct poly as [| | | | | l' |]; simpl; try discriminate.
  destruct (_ && _); [ | discriminate ].
  intros H. now injection H as ->.
Qed.

Lemma bounding_region_one (page_num br : pyobj) (out : list Region) :
  region_of_bounding_region page_num br = Ok out ->
  (length out <= 1)%nat /\ Forall bbox_from_polygon out.
Proof.
  unfold region_of_bounding_region. intros H.
  do 5 (apply bind_ok in H as [? [_ H]]).
  destruct (usable_polygon _) as [l |] eqn:E.
  - apply bind_ok in H as [box [Hbox H]]. apply bind_ok in H as [n [_ H]].
    injection H as <-. split; [ simpl; lia | ].
    constructor; [ | constructor ]. right. exists l. split; [ | exact Hbox ].
    cbn [polygon]. now apply usable_polygon_list.
  - destruct (usable_box _) as [box |].
    + apply bind_ok in H as [n [_ H]]. injection H as <-.
      split; [ simpl; lia | ]. constructor; [ now left | constructor ].
    + injection H as <-. split; [ simpl; lia | constructor ].
Qed.

Lemma flat_region_one (page_num poly bbox : pyobj) (out : list Region) :
  match (if truthy page_num then usable_polygon poly else None) with
  | Some l =>
      box <- _coerce_polygon_to_bbox l ;;
      n <- py_int page_num ;;
      Ok [ {| kind := None; pageNumber := n; polygon := poly; bbox := box |} ]
  | None =>
      match (if truthy page_num then usable_box bbox else None) with
      | Some box =>
          n <- py_int page_num ;;
          Ok [ {| kind := None; pageNumber := n; polygon := VNone;
                  bbox := box |} ]
      | None => Ok []
      end
  end = Ok out ->
  (length out <= 1)%nat /\ Forall bbox_from_polygon out.
Proof.
  destruct (if truthy page_num then usable_polygon poly else None)
    as [l |] eqn:Ep.
  - intros H. apply bind_ok in H as [box [Hbox H]].
    apply bind_ok in H as [n [_ H]]. injection H as <-.
    split; [ simpl; lia | ]. constructor; [ | constructor ].
    right. exists l. split; [ | exact Hbox ]. cbn [polygon].
    destruct (truthy page_num); [ | discriminate ].
    now apply usable_polygon_list.
  - destruct (if truthy page_num then usable_box bbox else None) as [box |].
    + intros H. apply bind_ok in H as [n [_ H]]. injection H as <-.
      split; [ simpl; lia | ]. constructor; [ now left | constructor ].
    + intros H. injection H as <-. split; [ simpl; lia | constructor ].
Qed.

Lemma extend_each_bound {A B : Type} (f : A -> result (list B))
    (P : B -> Prop) (xs : list A) (out : list B) :
  (forall x ys, f x = Ok ys -> (length ys <= 1)%nat /\ Forall P ys) ->
  extend_each f xs = Ok out ->
  (length out <= length xs)%nat /\ Forall P out.
Proof.
  intros Hf. revert out. induction xs as [| x xs IH]; simpl; intros out H.
  - injection H as <-. split; [ simpl; lia | constructor ].
  - apply bind_ok in H as [ys [Hys H]]. apply bind_ok in H as [zs [Hzs H]].
    injection H as <-. destruct (Hf _ _ Hys) as [L1 P1].
    destruct (IH _ Hzs) as [L2 P2].
    split; [ rewrite length_app; lia | now apply Forall_app ].
Qed.

Lemma normalize_bound (src : list (str * pyobj)) (out : list Region) :
  _normalize_regions_from_source src = Ok out ->
  (length out
   <= match or_else (or_else (get (py "boundingRegions") src)
                             (get (py "regions") src)) (VList []) with
      | VList (br :: brs) => length (br :: brs)
      | _ => 1
      end)%nat
  /\ Forall bbox_from_polygon out.
Proof.
  unfold _normalize_regions_from_source.
  set (page_num := or_else (or_else (get (py "pageNumber") src) _) _).
  destruct (or_else (or_else (get (py "boundingRegions") src) _) _)
    as [| | | | | l |]; cbn [is_list truthy andb];
    try apply flat_region_one.
  destruct l as [| br l]; cbn [is_list truthy andb iterate bind].
  - apply flat_region_one.
  - apply (extend_each_bound _ bbox_from_polygon _ _
             (bounding_region_one page_num)).
Qed.

(** X6. The extractor emits at most one region for each element of the
    list of bounding regions and, without such a list, at most one
    region; every region it emits has either no polygon or the bbox
    computed from its polygon. *)
Theorem normalize_regions_bounded (src : list (str * pyobj)) (out : list Region) :
  _normalize_regions_from_source src = Ok out ->
  (length out
   <= match or_else (or_else (get (py "boundingRegions") src)
                             (get (py "regions") src)) (VList []) with
      | VList (br :: brs) => length (br :: brs)
      | _ => 1
      end)%nat
  /\ Forall bbox_from_polygon out.
Proof. apply normalize_bound. Qed.

(** A source with two bounding regions, the second without polygon or
    box. *)
Lemma normalize_regions_bounded_witness :
  (1 <= 2)%nat
  /\ Forall bbox_from_polygon
       [ {| kind := None; pageNumber := 3;
            polygon := VList [VInt 0; VInt 0; VInt 4; VInt 0;
                              VInt 4; VInt 2; VInt 0; VInt 2];
            bbox := (VInt 0, VInt 0, VInt 4, VInt 2) |} ].
Proof.
  exact (normalize_regions_bounded
           [(py "page", VInt 3);
            (py "regions",
             VList [VDict [(py "points",
                            VList [VInt 0; VInt 0; VInt 4; VInt 0;
                                   VInt 4; VInt 2; VInt 0; VInt 2])];
                    VDict [(py "note", VStr (py "no shape"))]])]
           _ eq_refl).
Defined.

(** ** Source-to-Region Resolver: what it preserves *)

Lemma parse_returns (source : pyobj) : returns (parse_cu_source_string source).
Proof.
  destruct source as [| b | n | f | s | l | d]; try (now exists None).
  unfold parse_cu_source_string.
  destruct (negb (truthy (VStr s))); [ now exists None | ].
  destruct (strip s) as [| c r]; [ now exists None | ].
  destruct (_ || _); [ now exists None | ].
  cbn [index nth_error bind]. apply region_of_parts_returns.
Qed.

Lemma parsed_region_points (source : pyobj) (r : Region) :
  parse_cu_source_string source = Ok (Some r) ->
  exists K x1 y1 x2 y2 x3 y3 x4 y4,
    r = region_of_points K (pageNumber r) x1 y1 x2 y2 x3 y3 x4 y4.
Proof.
  destruct source as [| b | n | f | s | l | d]; try discriminate.
  unfold parse_cu_source_string.
  destruct (negb (truthy (VStr s))); [ discriminate | ].
  destruct (strip s) as [| c rest]; [ discriminate | ].
  destruct (_ || _); [ discriminate | ].
  cbn [index nth_error bind]. intros H. exists c.
  exact (region_of_parts_some _ _ _ H).
Qed.

Lemma points_region_wf (K : ascii) (n : Z) (x1 y1 x2 y2 x3 y3 x4 y4 : float) :
  bbox_from_polygon (region_of_points K n x1 y1 x2 y2 x3 y3 x4 y4)
  /\ key_hashable (region_key (region_of_points K n x1 y1 x2 y2 x3 y3 x4 y4))
     = true.
Proof.
  split; [ | reflexivity ].
  right. eexists. split; [ reflexivity | apply coerce_four_points ].
Qed.

Lemma consume_list (l : list pyobj) :
  _consume_source_item (VList l) = extend_each _consume_source_item l.
Proof.
  cbn [_consume_source_item].
  induction l as [| x l IH]; [ reflexivity | ].
  cbn [extend_each]. now rewrite <- IH.
Qed.

Lemma extend_each_forall {A B : Type} (f : A -> result (list B))
    (P : B -> Prop) (xs : list A) (out : list B) :
  Forall (fun x => forall ys, f x = Ok ys -> Forall P ys) xs ->
  extend_each f xs = Ok out -> Forall P out.
Proof.
  intros Hf. revert out.
  induction Hf as [| x xs Hx _ IH]; simpl; intros out H.
  - injection H as <-. constructor.
  - apply bind_ok in H as [ys [Hys H]]. apply bind_ok in H as [zs [Hzs H]].
    injection H as <-. apply Forall_app. split; auto.
Qed.

Lemma consume_wf (item : pyobj) (out : list Region) :
  _consume_source_item item = Ok out -> Forall bbox_from_polygon out.
Proof.
  revert out.
  induction item as [| b | n | f | t | l IH | d IH] using pyobj_ind;
    intros out H; try (injection H as <-; constructor).
  - cbn [_consume_source_item] in H.
    apply bind_ok in H as [[r |] [Hr H]]; injection H as <-; [ | constructor ].
    constructor; [ | constructor ].
    destruct (parsed_region_points _ _ Hr)
      as (K & x1 & y1 & x2 & y2 & x3 & y3 & x4 & y4 & ->).
    apply points_region_wf.
  - rewrite consume_list in H.
    eapply extend_each_forall; [ | exact H ].
    eapply Forall_impl; [ | exact IH ]. auto.
  - cbn [_consume_source_item] in H. now apply normalize_bound in H.
Qed.

Lemma subseq_in {A : Type} (out l : list A) (x : A) :
  subseq out l -> In x out -> In x l.
Proof.
  induction 1 as [| y out l _ IH | y out l _ IH]; intros Hx.
  - contradiction.
  - destruct Hx as [-> | Hx]; [ now left | right; auto ].
  - right. auto.
Qed.

(** X7. Every region the resolver returns keeps the data-model
    invariant, whichever way it was produced: it has no polygon, or its
    bbox is the one computed from its polygon. *)
Theorem resolved_regions_keep_bbox (raw_sources : list pyobj) (out : list Region) :
  _sources_to_regions raw_sources = Ok out -> Forall bbox_from_polygon out.
Proof.
  unfold _sources_to_regions. intros H.
  apply bind_ok in H as [produced [Hp H]].
  assert (Hw : Forall bbox_from_polygon produced).
  { eapply extend_each_forall; [ | exact Hp ].
    apply Forall_forall. intros x _ ys. apply consume_wf. }
  apply dedupe_subseq in H.
  rewrite Forall_forall in *. intros r Hr. apply Hw.
  eapply subseq_in; eauto.
Qed.

(** The regions of [evidence_example]. *)
Lemma resolved_regions_keep_bbox_witness :
  Forall bbox_from_polygon [rectangle_10_by_5 1; rectangle_10_by_5 2].
Proof.
  exact (resolved_regions_keep_bbox evidence_example _ eq_refl).
Defined.

Lemma extend_each_app {A B : Type} (f : A -> result (list B)) (xs xs' : list A) :
  extend_each f (xs ++ xs')
  = ys <- extend_each f xs ;; zs <- extend_each f xs' ;; Ok (ys ++ zs).
Proof.
  induction xs as [| x xs IH]; simpl.
  - destruct (extend_each f xs'); reflexivity.
  - destruct (f x) as [y | e]; simpl; [ | reflexivity ].
    rewrite IH. destruct (extend_each f xs) as [ys | e]; simpl; [ | reflexivity ].
    destruct (extend_each f xs') as [zs | e]; simpl; [ | reflexivity ].
    now rewrite app_assoc.
Qed.

(** X8. An evidence item that is itself a list resolves as if its items
    stood in its place: nesting of lists changes nothing, at any
    position. *)
Theorem nested_evidence_flattens (before inner after : list pyobj) :
  _sources_to_regions (before ++ VList inner :: after)
  = _sources_to_regions (before ++ inner ++ after).
Proof.
  unfold _sources_to_regions. f_equal.
  rewrite !extend_each_app.
  destruct (extend_each _consume_source_item before) as [ys | e];
    [ | reflexivity ].
  cbn [bind extend_each]. rewrite consume_list.
  destruct (extend_each _consume_source_item inner) as [zs | e];
    [ | reflexivity ].
  cbn [bind].
  destruct (extend_each _consume_source_item after) as [ws | e]; reflexivity.
Qed.

Lemma dedupe_returns (regions : list Region) :
  Forall (fun r => key_hashable (region_key r) = true) regions ->
  forall seen, returns (dedupe seen regions).
Proof.
  induction 1 as [| r regions Hr _ IH]; intros seen; [ now exists [] | ].
  cbn [dedupe]. rewrite Hr. cbn [negb].
  destruct (existsb _ seen); cbn [negb]; [ apply IH | ].
  destruct (IH (region_key r :: seen)) as [out Hout].
  rewrite Hout. now exists (r :: out).
Qed.

Lemma consume_plain (item : pyobj) :
  plain_evidence item = true ->
  exists out,
    _consume_source_item item = Ok out
    /\ Forall (fun r => key_hashable (region_key r) = true) out.
Proof.
  induction item as [| b | n | f | t | l IH | d IH] using pyobj_ind;
    intros Hp; try (exists []; split; [ reflexivity | constructor ]).
  - cbn [_consume_source_item].
    destruct (parse_returns (VStr t)) as [[r |] Hr]; rewrite Hr; cbn [bind].
    + exists [r]. split; [ reflexivity | ].
      constructor; [ | constructor ].
      destruct (parsed_region_points _ _ Hr)
        as (K & x1 & y1 & x2 & y2 & x3 & y3 & x4 & y4 & ->).
      reflexivity.
    + exists []. split; [ reflexivity | constructor ].
  - rewrite consume_list. cbn [plain_evidence] in Hp.
    induction IH as [| x l Hx _ IHl]; [ exists []; split; [ reflexivity | constructor ] | ].
    apply andb_true_iff in Hp as [Hpx Hpl].
    destruct (Hx Hpx) as [ys [Hys Fys]].
    destruct (IHl Hpl) as [zs [Hzs Fzs]].
    exists (ys ++ zs). cbn [extend_each]. rewrite Hys, Hzs.
    split; [ reflexivity | now apply Forall_app ].
  - discriminate.
Qed.

(** X9. On evidence that holds no structured reference (strings, scalars
    and lists of these, at any nesting) the resolver never raises:
    strings that do not parse are skipped. *)
Theorem plain_evidence_resolves (raw_sources : list pyobj) :
  plain_evidence (VList raw_sources) = true ->
  returns (_sources_to_regions raw_sources).
Proof.
  intros Hp. destruct (consume_plain (VList raw_sources) Hp) as [out [Ho Fo]].
  rewrite consume_list in Ho. unfold _sources_to_regions. rewrite Ho.
  cbn [bind]. now apply dedupe_returns.
Qed.

(** Strings, a number and a nested list with an unparseable string. *)
Lemma plain_evidence_resolves_witness :
  returns (_sources_to_regions
             [VStr (py "D(1,0,0,10,0,10,5,0,5)"); VInt 7;
              VList [VStr (py "(see above)"); VNone]]).
Proof.
  apply plain_evidence_resolves. reflexivity.
Defined.

Lemma dedupe_hashable (regions : list Region) : forall seen out,
  dedupe seen regions = Ok out ->
  Forall (fun r => key_hashable (region_key r) = true) out.
Proof.
  induction regions as [| r regions IH]; intros seen out H.
  - injection H as <-. constructor.
  - cbn [dedupe] in H.
    destruct (key_hashable (region_key r)) eqn:E; [ | discriminate ].
    cbn [negb] in H. destruct (existsb _ seen); cbn [negb] in H.
    + eauto.
    + apply bind_ok in H as [out' [H1 H2]]. injection H2 as <-.
      constructor; eauto.
Qed.

Lemma dedupe_fixed (out : list Region) : forall seen,
  Forall (fun r => key_hashable (region_key r) = true) out ->
  Forall (fun r => Forall (fun k => key_eqb k (region_key r) = false) seen) out ->
  ForallOrdPairs (fun a b => key_eqb (region_key a) (region_key b) = false) out ->
  dedupe seen out = Ok out.
Proof.
  induction out as [| r out IH]; intros seen Hh Hs Hd; [ reflexivity | ].
  inversion Hh as [| ? ? Hhr Hh']; subst.
  inversion Hs as [| ? ? Hsr Hs']; subst.
  inversion Hd as [| ? ? Hdr Hd']; subst.
  cbn [dedupe]. rewrite Hhr. cbn [negb].
  rewrite (proj2 (not_seen_fresh seen r) Hsr). cbn [negb].
  rewrite IH; [ reflexivity | assumption | | assumption ].
  rewrite Forall_forall in *. intros x Hx. constructor; auto.
Qed.

(** X10. Resolving is stable: the de-duplication loop leaves the list it
    returned unchanged when run on it again. *)
Theorem resolved_regions_stable (raw_sources : list pyobj) (out : list Region) :
  _sources_to_regions raw_sources = Ok out -> dedupe [] out = Ok out.
Proof.
  unfold _sources_to_regions. intros H.
  apply bind_ok in H as [produced [_ H]].
  apply dedupe_fixed.
  - eapply dedupe_hashable; eauto.
  - apply Forall_forall. intros r _. constructor.
  - eapply dedupe_distinct; eauto.
Qed.

(** The regions of [evidence_example] again. *)
Lemma resolved_regions_stable_witness :
  dedupe [] [rectangle_10_by_5 1; rectangle_10_by_5 2]
  = Ok [rectangle_10_by_5 1; rectangle_10_by_5 2].
Proof.
  exact (resolved_regions_stable evidence_example _ eq_refl).
Defined.

(** ** Page metadata *)

(** X11. A page number below 1 has no dimensions, whatever the result
    holds: the look-up never counts pages from the end of the list. *)
Theorem page_below_one_has_no_dimensions (res : pyobj) (page_num : Z) :
  page_num < 1 -> try_get_page_dimensions res page_num = (VNone, VNone).
Proof.
  intros Hn. unfold try_get_page_dimensions, page_dimensions_try.
  destruct (attr_get res _) as [r | e]; [ | reflexivity ]. cbn [bind].
  destruct (attr_get (or_else r _) _) as [c | e]; [ | reflexivity ].
  cbn [bind].
  destruct (negb (truthy _)); [ reflexivity | ].
  destruct (subscript _ 0) as [c0 | e]; [ | reflexivity ]. cbn [bind].
  destruct (attr_get c0 _) as [p | e]; [ | reflexivity ]. cbn [bind].
  destruct (or_else p _); try reflexivity.
  replace (1 <=? page_num) with false by (symmetry; apply Z.leb_gt; lia).
  reflexivity.
Qed.

(** Page 0 of a one-page result. *)
Lemma page_below_one_has_no_dimensions_witness :
  try_get_page_dimensions (result_of [content_of [page_8_by_11]]) 0
  = (VNone, VNone).
Proof.
  apply page_below_one_has_no_dimensions. lia.
Defined.

(** X12. On a result of the usual shape the dimensions are those of the
    entry [page_num - 1] of the page list of the first content, and
    only of that content; a page number outside 1 .. number of pages, or
    a page entry that is not a mapping, gives no dimensions. *)
Theorem page_dimensions_of_first_content
    (d r c0 : list (str * pyobj)) (rest pages : list pyobj) (page_num : Z) :
  get (py "result") d = VDict r ->
  get (py "contents") r = VList (VDict c0 :: rest) ->
  get (py "pages") c0 = VList pages ->
  try_get_page_dimensions (VDict d) page_num
  = if (1 <=? page_num) && (page_num <=? len pages) then
      match nth_error pages (Z.to_nat (page_num - 1)) with
      | Some (VDict m) => (get (py "width") m, get (py "height") m)
      | _ => (VNone, VNone)
      end
    else (VNone, VNone).
Proof.
  intros Hr Hc Hp. unfold try_get_page_dimensions, page_dimensions_try.
  cbn [attr_get bind]. rewrite Hr.
  assert (Tr : truthy (VDict r) = true).
  { destruct r; [ discriminate | reflexivity ]. }
  unfold or_else at 1. rewrite Tr. cbn [attr_get bind]. rewrite Hc.
  cbn [or_else truthy negb subscript]. change (0 <? 0) with false.
  cbv iota. unfold len at 1. cbn [length].
  replace (_ || _) with false
    by (symmetry; apply orb_false_iff; split; [ reflexivity | apply Z.leb_gt; lia ]).
  cbn [Z.to_nat index nth_error bind attr_get]. rewrite Hp.
  replace (or_else (VList pages) (VList [])) with (VList pages)
    by (destruct pages; reflexivity).
  destruct ((1 <=? page_num) && (page_num <=? len pages)) eqn:E;
    [ | reflexivity ].
  apply andb_true_iff in E as [E1 E2].
  apply Z.leb_le in E1. apply Z.leb_le in E2.
  cbn [subscript].
  destruct (page_num - 1 <? 0) eqn:E3; [ apply Z.ltb_lt in E3; lia | ].
  replace (_ || _) with false
    by (symmetry; apply orb_false_iff; split; [ exact E3 | apply Z.leb_gt; lia ]).
  unfold index.
  destruct (nth_error pages _) as [[| b | n | f | s | l | m] |];
    reflexivity.
Qed.

(** The second page of the second content is not looked at. *)
Lemma page_dimensions_of_first_content_witness :
  try_get_page_dimensions
    (result_of [content_of [page_8_by_11];
                content_of [VDict []; page_8_by_11]]) 2
  = (VNone, VNone).
Proof.
  exact (page_dimensions_of_first_content
           [(py "result",
             VDict [(py "contents",
                     VList [content_of [page_8_by_11];
                            content_of [VDict []; page_8_by_11]])])]
           [(py "contents",
             VList [content_of [page_8_by_11];
                    content_of [VDict []; page_8_by_11]])]
           [(py "pages", VList [page_8_by_11])]
           [content_of [VDict []; page_8_by_11]]
           [page_8_by_11]
           2 eq_refl eq_refl eq_refl).
Defined.

(** ** Usage block *)

Lemma usage_block_list (l : list pyobj) :
  _find_usage_block (VList l)
  = fold_right (fun it next =>
       if truthy (_find_usage_block it) then _find_usage_block it else next) VNone l.
Proof.
  cbn [_find_usage_block].
  induction l as [| x l IH]; [ reflexivity | ].
  cbn [fold_right]. now rewrite <- IH.
Qed.

Lemma usage_block_dict (d : list (str * pyobj)) :
  _find_usage_block (VDict d)
  = match usage_of (VDict d) with
    | Some u => u
    | None => _find_usage_block (VList (values d))
    end.
Proof.
  cbn [_find_usage_block usage_of].
  destruct (get (py "usage") d); try reflexivity;
    (induction d as [| [k x] d IH]; [ reflexivity | ];
     simpl; simpl in IH; now rewrite IH).
Qed.

Lemma usage_found_among (l : list pyobj) :
  (forall x, In x l ->
             _find_usage_block x = VNone
             \/ exists d u,
                  In (VDict d) (preorder x)
                  /\ get (py "usage") d = VDict u
                  /\ _find_usage_block x = VDict u) ->
  _find_usage_block (VList l) = VNone
  \/ exists d u,
       In (VDict d) (flat_map preorder l)
       /\ get (py "usage") d = VDict u
       /\ _find_usage_block (VList l) = VDict u.
Proof.
  rewrite usage_block_list.
  induction l as [| x l IHl]; intros H; [ now left | ].
  cbn [fold_right flat_map].
  destruct (truthy (_find_usage_block x)) eqn:T.
  - destruct (H x (or_introl eq_refl)) as [Hx | (d & u & Hin & Hu & Hx)];
      [ rewrite Hx in T; discriminate | ].
    right. exists d, u. repeat split; auto.
    apply in_or_app. now left.
  - destruct IHl as [IHl | (d & u & Hin & Hu & IHl)];
      [ intros y Hy; apply H; now right | now left | ].
    right. exists d, u. repeat split; auto.
    apply in_or_app. now right.
Qed.

Lemma usage_block_found (obj : pyobj) :
  _find_usage_block obj = VNone
  \/ exists d u,
       In (VDict d) (preorder obj)
       /\ get (py "usage") d = VDict u
       /\ _find_usage_block obj = VDict u.
Proof.
  induction obj as [| b | n | f | t | l IH | d IH] using pyobj_ind;
    try (now left).
  - rewrite Forall_forall in IH.
    destruct (usage_found_among l IH) as [H | (d & u & Hin & Hu & H)];
      [ now left | ].
    right. exists d, u. rewrite preorder_list. repeat split; auto.
    now right.
  - rewrite usage_block_dict. cbn [usage_of].
    rewrite Forall_forall in IH.
    destruct (get (py "usage") d) as [| | | | | | u] eqn:E.
    7: { right. exists d, u. repeat split; auto. apply in_preorder_self. }
    all: destruct (usage_found_among (values d))
           as [H | (d0 & u & Hin & Hu & H)];
      [ intros x Hx; apply in_map_iff in Hx as [kv [<- Hkv]];
        exact (IH kv Hkv)
      | now left | ];
      right; exists d0, u; rewrite preorder_dict; repeat split; auto;
      now right.
Qed.

(** X13. What the search for the usage block returns is None or the
    mapping stored under "usage" in a mapping nested in the result; it
    never returns anything else. *)
Theorem usage_block_sound (obj : pyobj) :
  _find_usage_block obj = VNone
  \/ exists d u,
       inside (VDict d) obj
       /\ get (py "usage") d = VDict u
       /\ _find_usage_block obj = VDict u.
Proof.
  destruct (usage_block_found obj) as [H | (d & u & Hin & Hu & H)];
    [ now left | ].
  right. exists d, u. repeat split; auto. now apply in_preorder_inside.
Qed.

Lemma usage_first_among (l : list pyobj) :
  (forall d, In (VDict d) (flat_map preorder l) ->
             get (py "usage") d <> VDict []) ->
  (forall x, In x l ->
             (forall d, In (VDict d) (preorder x) ->
                        get (py "usage") d <> VDict []) ->
             _find_usage_block x
             = match first_some usage_of (preorder x) with
               | Some u => u
               | None => VNone
               end) ->
  _find_usage_block (VList l)
  = match first_some usage_of (flat_map preorder l) with
    | Some u => u
    | None => VNone
    end.
Proof.
  rewrite usage_block_list.
  induction l as [| x l IHl]; intros Hne IH; [ reflexivity | ].
  cbn [fold_right flat_map]. rewrite first_some_app.
  rewrite (IH x (or_introl eq_refl))
    by (intros d Hd; apply Hne; cbn [flat_map]; apply in_or_app; now left).
  rewrite IHl;
    [ | intros d Hd; apply Hne; cbn [flat_map]; apply in_or_app; now right
      | intros y Hy; apply IH; now right ].
  destruct (first_some usage_of (preorder x)) as [u |] eqn:E;
    [ | reflexivity ].
  apply first_some_in in E as [[| | | | | | d] [Hin E]]; try discriminate.
  cbn [usage_of] in E.
  assert (Hd : get (py "usage") d <> VDict []).
  { apply Hne. cbn [flat_map]. apply in_or_app. now left. }
  destruct (get (py "usage") d) as [| | | | | | [| kv u']]; try discriminate;
    [ contradiction | ].
  now injection E as <-.
Qed.

Lemma usage_block_first (obj : pyobj) :
  (forall d, In (VDict d) (preorder obj) -> get (py "usage") d <> VDict []) ->
  _find_usage_block obj
  = match first_some usage_of (preorder obj) with
    | Some u => u
    | None => VNone
    end.
Proof.
  induction obj as [| b | n | f | t | l IH | d IH] using pyobj_ind;
    intros Hne; try reflexivity.
  - rewrite preorder_list in *. cbn [first_some usage_of].
    rewrite Forall_forall in IH.
    apply usage_first_among; [ | exact IH ].
    intros d Hd. apply Hne. now right.
  - rewrite usage_block_dict. rewrite preorder_dict in *.
    cbn [first_some]. destruct (usage_of (VDict d)); [ reflexivity | ].
    rewrite Forall_forall in IH.
    apply usage_first_among; [ intros d0 Hd; apply Hne; now right | ].
    intros x Hx. apply in_map_iff in Hx as [kv [<- Hkv]].
    exact (IH kv Hkv).
Qed.

(** X14. When no mapping nested in the result holds an empty mapping
    under "usage", the usage block returned is the first one in document
    order (a mapping before its entries' values, these in insertion
    order), and None when there is none. *)
Theorem usage_block_first_in_order (obj : pyobj) :
  (forall d, inside (VDict d) obj -> get (py "usage") d <> VDict []) ->
  _find_usage_block obj
  = match first_some usage_of (preorder obj) with
    | Some u => u
    | None => VNone
    end.
Proof.
  intros Hne. apply usage_block_first.
  intros d Hd. apply Hne. now apply in_preorder_inside.
Qed.

(** Two usage blocks, the first one deeper than the second. *)
Lemma usage_block_first_in_order_witness :
  _find_usage_block
    (VDict [(py "result",
             VDict [(py "usage", VDict [(py "tokens", VInt 1)])]);
            (py "usage", VInt 2);
            (py "meta", VDict [(py "usage", VDict [(py "tokens", VInt 3)])])])
  = VDict [(py "tokens", VInt 1)].
Proof.
  apply (usage_block_first_in_order
           (VDict [(py "result",
                    VDict [(py "usage", VDict [(py "tokens", VInt 1)])]);
                   (py "usage", VInt 2);
                   (py "meta",
                    VDict [(py "usage", VDict [(py "tokens", VInt 3)])])])).
  intros d Hd. apply in_preorder_inside in Hd.
  cbv [preorder app] in Hd.
  repeat (destruct Hd as [Hd | Hd];
          [ try discriminate; injection Hd as <-; discriminate | ]).
  contradiction.
Defined.

Lemma fold_found_app (l1 l2 : list pyobj) :
  fold_right (fun it next =>
       if truthy (_find_usage_block it) then _find_usage_block it else next) VNone (l1 ++ l2)
  = fold_right (fun it next =>
       if truthy (_find_usage_block it) then _find_usage_block it else next)
      (fold_right (fun it next =>
       if truthy (_find_usage_block it) then _find_usage_block it else next) VNone l2) l1.
Proof. apply fold_right_app. Qed.

Lemma lookup_app (k : str) (d1 d2 : list (str * pyobj)) :
  lookup k (d1 ++ d2)
  = match lookup k d1 with
    | Some v => Some v
    | None => lookup k d2
    end.
Proof.
  induction d1 as [| [k' v] d1 IH]; [ reflexivity | ].
  cbn [app lookup]. now destruct (str_eqb k' k).
Qed.

Lemma usage_without_entry (k : str) (v : pyobj)
    (dbefore dafter : list (str * pyobj)) :
  usage_of (VDict (dbefore ++ (k, v) :: dafter)) = None ->
  is_dict v = true ->
  usage_of (VDict (dbefore ++ dafter)) = None.
Proof.
  cbn [usage_of]. unfold get. rewrite !lookup_app. cbn [lookup].
  destruct (lookup (py "usage") dbefore) as [w |]; [ auto | ].
  destruct (str_eqb k (py "usage")); [ | auto ].
  destruct v; discriminate.
Qed.

Lemma skip_empty_usage (d : list (str * pyobj)) (before after : list pyobj) :
  get (py "usage") d = VDict [] ->
  _find_usage_block (VList (before ++ VDict d :: after))
  = _find_usage_block (VList (before ++ after)).
Proof.
  intros Hd. rewrite !usage_block_list, !fold_found_app.
  cbn [fold_right]. rewrite usage_block_dict. cbn [usage_of].
  rewrite Hd. reflexivity.
Qed.

(** X15. A mapping whose "usage" entry is an empty mapping is passed over
    together with everything below it, when it is met as an element of a
    list or as the value of an entry of a mapping that has no usage
    mapping of its own: the search gives what it gives without it. Stored
    under "usage" itself, in a parent found by the search, it is what the
    parent returns. *)
Theorem empty_usage_hides_nested (d : list (str * pyobj))
    (before after : list pyobj) (k : str)
    (dbefore dafter : list (str * pyobj)) :
  get (py "usage") d = VDict [] ->
  _find_usage_block (VList (before ++ VDict d :: after))
  = _find_usage_block (VList (before ++ after))
  /\ (usage_of (VDict (dbefore ++ (k, VDict d) :: dafter)) = None ->
      _find_usage_block (VDict (dbefore ++ (k, VDict d) :: dafter))
      = _find_usage_block (VDict (dbefore ++ dafter)))
  /\ (get (py "usage") (dbefore ++ (k, VDict d) :: dafter) = VDict d ->
      _find_usage_block (VDict (dbefore ++ (k, VDict d) :: dafter))
      = VDict d).
Proof.
  intros Hd. split; [ now apply skip_empty_usage | split ].
  - intros Hu. rewrite !usage_block_dict, Hu.
    rewrite (usage_without_entry _ _ _ _ Hu eq_refl).
    unfold values. rewrite !map_app. cbn [map snd].
    now apply skip_empty_usage.
  - intros Hu. rewrite usage_block_dict. cbn [usage_of]. now rewrite Hu.
Qed.

(** The block under "inner" is hidden by the empty one beside it, in a
    list and under the key "meta" of a mapping; under the key "usage" the
    same mapping is returned. *)
Lemma empty_usage_hides_nested_witness :
  _find_usage_block
    (VList [VDict [(py "usage", VDict []);
                   (py "inner",
                    VDict [(py "usage", VDict [(py "tokens", VInt 1)])])]])
  = VNone
  /\ (usage_of
        (VDict [(py "meta",
                 VDict [(py "usage", VDict []);
                        (py "inner",
                         VDict [(py "usage",
                                 VDict [(py "tokens", VInt 1)])])])])
      = None ->
      _find_usage_block
        (VDict [(py "meta",
                 VDict [(py "usage", VDict []);
                        (py "inner",
                         VDict [(py "usage",
                                 VDict [(py "tokens", VInt 1)])])])])
      = VNone)
  /\ (get (py "usage")
        [(py "usage",
          VDict [(py "usage", VDict []);
                 (py "inner",
                  VDict [(py "usage", VDict [(py "tokens", VInt 1)])])])]
      = VDict [(py "usage", VDict []);
               (py "inner",
                VDict [(py "usage", VDict [(py "tokens", VInt 1)])])] ->
      _find_usage_block
        (VDict [(py "usage",
                 VDict [(py "usage", VDict []);
                        (py "inner",
                         VDict [(py "usage",
                                 VDict [(py "tokens", VInt 1)])])])])
      = VDict [(py "usage", VDict []);
               (py "inner",
                VDict [(py "usage", VDict [(py "tokens", VInt 1)])])]).
Proof.
  destruct (empty_usage_hides_nested
              [(py "usage", VDict []);
               (py "inner",
                VDict [(py "usage", VDict [(py "tokens", VInt 1)])])]
              [] [] (py "meta") [] [] eq_refl) as (H1 & H2 & _).
  destruct (empty_usage_hides_nested
              [(py "usage", VDict []);
               (py "inner",
                VDict [(py "usage", VDict [(py "tokens", VInt 1)])])]
              [] [] (py "usage") [] [] eq_refl) as (_ & _ & H3).
  split; [ exact H1 | split; [ exact H2 | exact H3 ] ].
Defined.

(** ** Display *)

Lemma summarize_nonempty (float_repr : float -> str) (value : pyobj) :
  _summarize_value float_repr value <> [].
Proof.
  destruct value as [| b | n | f | s | l | d]; cbn [_summarize_value];
    try (destruct (_pretty_value float_repr _) as [| c p]; discriminate).
  - intros H. apply app_eq_nil in H as [_ H]. discriminate.
  - discriminate.
Qed.

(** X16. The label of a field in the list of fields is never empty and
    never longer than 80 characters, whatever the value is and however
    floats are printed. *)
Theorem field_preview_bounded (float_repr : float -> str) (value : pyobj) :
  0 < len (field_preview float_repr value) <= 80.
Proof.
  unfold field_preview. cbv zeta.
  pose proof (summarize_nonempty float_repr value) as Hne.
  set (preview := _summarize_value float_repr value) in *.
  destruct (80 <? len preview) eqn:E.
  - apply Z.ltb_lt in E. unfold len in *.
    change 77 with (Z.of_nat 77).
    rewrite slice_to_firstn by lia.
    rewrite length_app, length_firstn.
    change (length (py "...")) with 3%nat. lia.
  - apply Z.ltb_ge in E. split; [ | exact E ].
    unfold len. destruct preview; [ contradiction | cbn [length]; lia ].
Qed.

(** ** Usage summary *)

Lemma str_ltb_irrefl (s : str) : str_ltb s s = false.
Proof.
  induction s as [| c s IH]; [ reflexivity | ].
  simpl. now rewrite Ascii.eqb_refl.
Qed.

Lemma N_of_ascii_inj (x y : ascii) : N_of_ascii x = N_of_ascii y -> x = y.
Proof.
  intros H. rewrite <- (ascii_N_embedding x), <- (ascii_N_embedding y).
  now rewrite H.
Qed.

Lemma str_ltb_trans (a b c : str) :
  str_ltb a b = true -> str_ltb b c = true -> str_ltb a c = true.
Proof.
  revert b c. induction a as [| x a IH]; intros [| y b] [| z c]; simpl;
    try discriminate; auto.
  destruct (Ascii.eqb_spec x y) as [-> | Hxy].
  - destruct (Ascii.eqb_spec y z) as [-> | Hyz]; [ apply IH | auto ].
  - destruct (Ascii.eqb_spec y z) as [-> | Hyz].
    + destruct (Ascii.eqb_spec x z); [ contradiction | auto ].
    + intros H1 H2. apply N.ltb_lt in H1. apply N.ltb_lt in H2.
      destruct (Ascii.eqb_spec x z) as [-> | Hxz]; [ lia | ].
      apply N.ltb_lt. lia.
Qed.

Lemma str_ltb_total (a b : str) :
  str_ltb a b = false -> str_eqb a b = false -> str_ltb b a = true.
Proof.
  revert b. induction a as [| x a IH]; intros [| y b]; simpl;
    try discriminate; auto.
  rewrite (Ascii.eqb_sym y x).
  destruct (Ascii.eqb_spec x y) as [-> | Hxy]; simpl; [ apply IH | ].
  intros H _. apply N.ltb_ge in H. apply N.ltb_lt.
  assert (N_of_ascii x <> N_of_ascii y)
    by (intros E; apply Hxy; now apply N_of_ascii_inj).
  lia.
Qed.

Lemma insert_sorted_in (x : str) (l : list str) (y : str) :
  In y (insert_sorted x l) <-> y = x \/ In y l.
Proof.
  induction l as [| h t IH]; simpl; [ intuition | ].
  destruct (str_ltb x h); [ simpl; intuition | ].
  destruct (str_eqb x h) eqn:E.
  - apply str_eqb_eq in E. subst h. simpl. intuition.
  - simpl. rewrite IH. intuition.
Qed.

Lemma insert_sorted_ascending (x : str) (l : list str) :
  ascending l -> ascending (insert_sorted x l).
Proof.
  induction l as [| h t IH]; simpl; [ intuition | ].
  intros [Hh Ht].
  destruct (str_ltb x h) eqn:L.
  - simpl. repeat split; auto. constructor; [ exact L | ].
    eapply Forall_impl; [ | exact Hh ].
    intros y Hy. now apply str_ltb_trans with h.
  - destruct (str_eqb x h) eqn:E; [ simpl; auto | ].
    simpl. split; [ | auto ].
    apply Forall_forall. intros y Hy. apply insert_sorted_in in Hy as [-> | Hy].
    + now apply str_ltb_total.
    + rewrite Forall_forall in Hh. auto.
Qed.

Lemma sorted_set_in (l : list str) (y : str) :
  In y (sorted_set l) <-> In y l.
Proof.
  induction l as [| x l IH]; simpl; [ reflexivity | ].
  rewrite insert_sorted_in, IH. intuition.
Qed.

Lemma sorted_set_ascending (l : list str) : ascending (sorted_set l).
Proof.
  induction l as [| x l IH]; simpl; [ exact I | ].
  now apply insert_sorted_ascending.
Qed.

Lemma suffixes_exclusive (k : str) :
  ends_with (py "-input") k = true -> ends_with (py "-output") k = false.
Proof.
  unfold ends_with. generalize (rev k). intros s.
  change (rev (py "-input")) with ("t" :: "u" :: "p" :: "n" :: py "i-")%char.
  change (rev (py "-output")) with ("t" :: "u" :: "p" :: "t" :: py "uo-")%char.
  destruct s as [| a1 [| a2 [| a3 [| a4 s]]]]; cbn [starts_with]; intros H;
    rewrite ?andb_false_r in *; try discriminate.
  apply andb_true_iff in H as [_ H]. apply andb_true_iff in H as [_ H].
  apply andb_true_iff in H as [_ H]. apply andb_true_iff in H as [H _].
  apply Ascii.eqb_eq in H. subst a4.
  change (Ascii.eqb "t" "n") with false. cbn [andb].
  now rewrite !andb_false_r.
Qed.

Lemma count_tokens_step (names : list str) (ti to : Z) (kv : str * pyobj)
    (names' : list str) (ti' to' : Z) :
  count_tokens (names, ti, to) kv = Ok (names', ti', to') ->
  names' = names ++ match model_of kv with Some m => [m] | None => [] end
  /\ ti' = ti + (if counted (py "-input") kv then int_value (snd kv) else 0)
  /\ to' = to + (if counted (py "-output") kv then int_value (snd kv) else 0).
Proof.
  destruct kv as [k v]. unfold count_tokens, model_of, counted, int_value.
  cbn [fst snd].
  destruct (is_number v); cbn [andb].
  - destruct (ends_with (py "-input") k) eqn:Ei.
    + rewrite (suffixes_exclusive _ Ei).
      destruct (py_int v) as [n | e]; cbn [bind]; [ | discriminate ].
      intros H. injection H as <- <- <-. repeat split; lia.
    + destruct (ends_with (py "-output") k).
      * destruct (py_int v) as [n | e]; cbn [bind]; [ | discriminate ].
        intros H. injection H as <- <- <-. repeat split; lia.
      * intros H. injection H as <- <- <-. rewrite app_nil_r.
        repeat split; lia.
  - intros H. injection H as <- <- <-. rewrite app_nil_r. repeat split; lia.
Qed.

Lemma count_tokens_loop (items : list (str * pyobj)) :
  forall (names : list str) (ti to : Z) (names' : list str) (ti' to' : Z),
  fold_each count_tokens (names, ti, to) items = Ok (names', ti', to') ->
  names' = names
           ++ flat_map (fun kv => match model_of kv with
                                  | Some m => [m]
                                  | None => []
                                  end) items
  /\ ti' = ti + sum_counts (py "-input") items
  /\ to' = to + sum_counts (py "-output") items.
Proof.
  induction items as [| kv items IH]; intros names ti to names' ti' to' H.
  - injection H as <- <- <-. rewrite app_nil_r.
    unfold sum_counts. simpl. repeat split; lia.
  - cbn [fold_each] in H. apply bind_ok in H as [[[n1 i1] o1] [H1 H2]].
    apply count_tokens_step in H1 as (-> & -> & ->).
    apply IH in H2 as (-> & -> & ->).
    unfold sum_counts. cbn [flat_map filter].
    rewrite <- app_assoc.
    destruct (counted (py "-input") kv), (counted (py "-output") kv);
      cbn [map fold_right]; repeat split; lia.
Qed.

Lemma usage_is_mapping (res : pyobj) :
  exists usage, or_else (_find_usage_block res) (VDict []) = VDict usage.
Proof.
  destruct (usage_block_found res) as [H | (d & u & _ & _ & H)]; rewrite H.
  - now exists [].
  - unfold or_else. destruct (truthy (VDict u)); eauto.
Qed.

Lemma tokens_of_usage (usage : list (str * pyobj)) :
  match or_else (get (py "tokens") usage) (VDict []) with
  | VDict items =>
      get (py "tokens") usage = VDict items
      \/ (items = [] /\ truthy (get (py "tokens") usage) = false)
  | _ => is_dict (get (py "tokens") usage) = false
  end.
Proof.
  unfold or_else. destruct (truthy (get (py "tokens") usage)) eqn:T.
  - destruct (get (py "tokens") usage); auto.
  - right. auto.
Qed.

Lemma summary_parts (res : pyobj) (u : UsageSummary) :
  _extract_usage_summary res = Ok u ->
  exists usage names,
    raw_usage u = VDict usage
    /\ models u = sorted_set (filter (fun m => truthy (VStr m)) names)
    /\ forall items, get (py "tokens") usage = VDict items ->
         names = flat_map (fun kv => match model_of kv with
                                     | Some m => [m]
                                     | None => []
                                     end) items
         /\ input_tokens u = sum_counts (py "-input") items
         /\ output_tokens u = sum_counts (py "-output") items.
Proof.
  unfold _extract_usage_summary. cbv zeta.
  destruct (usage_is_mapping res) as [usage ->]. cbn [attr_get bind].
  pose proof (tokens_of_usage usage) as Ht.
  destruct (or_else (get (py "tokens") usage) (VDict []))
    as [| | | | | | items] eqn:E;
    cbn [bind];
    try (intros H; injection H as <-; exists usage, [];
         split; [ reflexivity | ]; split; [ reflexivity | ];
         intros items Hi; rewrite Hi in Ht; discriminate).
  intros H. apply bind_ok in H as [[[names ti] to] [Hf H]].
  injection H as <-. exists usage, names. cbn [raw_usage models].
  split; [ reflexivity | ]. split; [ reflexivity | ].
  intros items' Hi. apply count_tokens_loop in Hf as (-> & -> & ->).
  destruct Ht as [Ht | [-> Ht]].
  - rewrite Ht in Hi. injection Hi as <-. cbn. repeat split; lia.
  - rewrite Hi in Ht. destruct items'; [ | discriminate ].
    cbn. repeat split.
Qed.

(** X17. The model names of a usage summary are strictly ascending (so
    none is listed twice) and none of them is the empty string. *)
Theorem usage_models_ascending (res : pyobj) (u : UsageSummary) :
  _extract_usage_summary res = Ok u ->
  ascending (models u) /\ ~ In [] (models u).
Proof.
  intros H. destruct (summary_parts _ _ H) as (usage & names & _ & -> & _).
  split; [ apply sorted_set_ascending | ].
  intros Hin. apply sorted_set_in, filter_In in Hin as [_ Hin].
  discriminate.
Qed.

(** Counts of two models, one of them under two keys, and a nameless
    count. *)
Lemma usage_models_ascending_witness :
  ascending [py "embed"; py "gpt-4.1"]
  /\ ~ In [] [py "embed"; py "gpt-4.1"].
Proof.
  exact (usage_models_ascending
           (VDict [(py "usage",
                    VDict [(py "tokens",
                            VDict [(py "gpt-4.1-input", VInt 120);
                                   (py "gpt-4.1-output", VInt 30);
                                   (py "-input", VInt 5);
                                   (py "embed-input", VInt 7)])])])
           _ eq_refl).
Defined.

(** X18. The token totals of a usage summary are the sums, over the
    entries of the token mapping of the usage block it reports, of the
    numbers stored under keys ending in -input and in -output, each
    truncated to an integer; entries that are not numbers and other keys
    do not count. *)
Theorem usage_totals (res : pyobj) (u : UsageSummary)
    (usage items : list (str * pyobj)) :
  _extract_usage_summary res = Ok u ->
  raw_usage u = VDict usage ->
  get (py "tokens") usage = VDict items ->
  input_tokens u = sum_counts (py "-input") items
  /\ output_tokens u = sum_counts (py "-output") items.
Proof.
  intros H Hu Hi.
  destruct (summary_parts _ _ H) as (usage' & names & Hu' & _ & Hp).
  rewrite Hu in Hu'. injection Hu' as <-.
  destruct (Hp _ Hi) as (_ & Hin & Hout). auto.
Qed.

(** X19. A name is among the models of a usage summary exactly when it
    is not empty and is what remains of the key of a counted entry once
    the suffix is taken out. *)
Theorem usage_models_complete (res : pyobj) (u : UsageSummary)
    (usage items : list (str * pyobj)) (m : str) :
  _extract_usage_summary res = Ok u ->
  raw_usage u = VDict usage ->
  get (py "tokens") usage = VDict items ->
  In m (models u)
  <-> m <> [] /\ exists kv, In kv items /\ model_of kv = Some m.
Proof.
  intros H Hu Hi.
  destruct (summary_parts _ _ H) as (usage' & names & Hu' & -> & Hp).
  rewrite Hu in Hu'. injection Hu' as <-.
  destruct (Hp _ Hi) as (-> & _ & _).
  rewrite sorted_set_in, filter_In, in_flat_map. split.
  - intros [[kv [Hkv Hm]] Ht]. split; [ now destruct m | ].
    exists kv. split; [ exact Hkv | ].
    destruct (model_of kv) as [m' |]; [ | contradiction ].
    destruct Hm as [-> | []]. reflexivity.
  - intros [Hne [kv [Hkv Hm]]]. split.
    + exists kv. rewrite Hm. split; [ exact Hkv | now left ].
    + destruct m; [ contradiction | reflexivity ].
Qed.

(** The totals of [usage_example]. *)
Lemma usage_totals_witness :
  126 = sum_counts (py "-input") token_counts
  /\ 30 = sum_counts (py "-output") token_counts.
Proof.
  exact (usage_totals usage_example
           {| models := [py "embed"; py "gpt-4.1"];
              input_tokens := 126; output_tokens := 30;
              raw_usage := VDict [(py "tokens", VDict token_counts)] |}
           [(py "tokens", VDict token_counts)] token_counts
           eq_refl eq_refl eq_refl).
Defined.

(** The model "embed" of [usage_example]. *)
Lemma usage_models_complete_witness :
  In (py "embed") [py "embed"; py "gpt-4.1"]
  <-> py "embed" <> []
      /\ exists kv, In kv token_counts /\ model_of kv = Some (py "embed").
Proof.
  exact (usage_models_complete usage_example
           {| models := [py "embed"; py "gpt-4.1"];
              input_tokens := 126; output_tokens := 30;
              raw_usage := VDict [(py "tokens", VDict token_counts)] |}
           [(py "tokens", VDict token_counts)] token_counts (py "embed")
           eq_refl eq_refl eq_refl).
Defined.

Lemma int_of_float_raises (f : float) :
  raises (int_of_float f) <-> finite f = false.
Proof.
  unfold int_of_float, finite, raises.
  destruct (Prim2SF f); split; intros H; try discriminate; eauto;
    destruct H; discriminate.
Qed.

Lemma count_tokens_raises (acc : list str * Z * Z) (kv : str * pyobj) :
  raises (count_tokens acc kv) <-> uncountable kv = true.
Proof.
  destruct acc as [[names ti] to], kv as [k v].
  unfold count_tokens, uncountable. cbn [fst snd].
  destruct v as [| b | n | f | s | l | d]; cbn [is_number py_int bind];
    try (split; [ intros [e H]; repeat destruct (ends_with _ k); discriminate
                | discriminate ]).
  destruct (ends_with (py "-input") k); cbn [orb andb].
  - rewrite negb_true_iff, <- int_of_float_raises.
    destruct (int_of_float f) as [n | e0]; cbn [bind]; split;
      intros [e H]; try discriminate; now exists e0.
  - destruct (ends_with (py "-output") k); cbn [orb andb].
    + rewrite negb_true_iff, <- int_of_float_raises.
      destruct (int_of_float f) as [n | e0]; cbn [bind]; split;
        intros [e H]; try discriminate; now exists e0.
    + split; [ intros [e H]; discriminate | discriminate ].
Qed.

Lemma count_loop_raises (items : list (str * pyobj)) :
  forall acc,
    raises (fold_each count_tokens acc items)
    <-> existsb uncountable items = true.
Proof.
  induction items as [| kv items IH]; intros acc; cbn [fold_each existsb].
  - split; [ intros [e H]; discriminate | discriminate ].
  - pose proof (count_tokens_raises acc kv) as Hkv.
    destruct (count_tokens acc kv) as [acc' | e]; cbn [bind].
    + destruct (uncountable kv).
      * destruct (proj2 Hkv eq_refl) as [e H]. discriminate.
      * apply IH.
    + rewrite (proj1 Hkv) by (now exists e). split; [ reflexivity | ].
      intros _. now exists e.
Qed.

Lemma usage_cases (res : pyobj) :
  (_find_usage_block res = VNone
   /\ or_else (_find_usage_block res) (VDict []) = VDict [])
  \/ exists usage,
       _find_usage_block res = VDict usage
       /\ or_else (_find_usage_block res) (VDict []) = VDict usage.
Proof.
  destruct (usage_block_found res) as [H | (d & u & _ & _ & H)]; rewrite H.
  - now left.
  - right. exists u. split; [ reflexivity | ]. now destruct u.
Qed.

Lemma summary_raises (usage : list (str * pyobj)) :
  raises
    (t <- attr_get (VDict usage) (py "tokens") ;;
     let tokens := or_else t (VDict []) in
     '(model_names, total_input, total_output) <-
       match tokens with
       | VDict items => fold_each count_tokens ([], 0, 0) items
       | _ => Ok ([], 0, 0)
       end ;;
     let model_names :=
       sorted_set (filter (fun m => truthy (VStr m)) model_names) in
     Ok {| models := model_names;
           input_tokens := total_input;
           output_tokens := total_output;
           raw_usage := VDict usage |})
  <-> exists items,
        get (py "tokens") usage = VDict items
        /\ existsb uncountable items = true.
Proof.
  cbn [attr_get bind]. cbv zeta.
  pose proof (tokens_of_usage usage) as Ht.
  destruct (or_else (get (py "tokens") usage) (VDict []))
    as [| | | | | | items] eqn:E; cbn [bind];
    try (split; [ intros [e H]; discriminate
                | intros [items [Hi _]]; rewrite Hi in Ht; discriminate ]).
  pose proof (count_loop_raises items ([], 0, 0)) as Hl.
  destruct (fold_each count_tokens ([], 0, 0) items) as [[[names ti] to] | e];
    cbn [bind].
  - split; [ intros [e H]; discriminate | ].
    intros [items' [Hi Hx]]. destruct Ht as [Ht | [-> Ht]].
    + rewrite Ht in Hi. injection Hi as <-. apply Hl in Hx as [e H].
      discriminate.
    + rewrite Hi in Ht. destruct items'; discriminate.
  - split; [ | intros _; now exists e ].
    intros _. assert (Hx : existsb uncountable items = true)
      by (apply Hl; now exists e).
    destruct Ht as [Ht | [-> Ht]]; [ eauto | discriminate ].
Qed.

(** X20. The usage summary raises exactly when the token mapping of the
    usage block found holds, under a key ending in -input or -output, a
    float that is an infinity or a NaN; on every other result it
    returns. *)
Theorem usage_summary_raises_iff (res : pyobj) :
  raises (_extract_usage_summary res)
  <-> exists usage items,
        _find_usage_block res = VDict usage
        /\ get (py "tokens") usage = VDict items
        /\ existsb uncountable items = true.
Proof.
  unfold _extract_usage_summary. cbv zeta.
  destruct (usage_cases res) as [[Hf ->] | [usage [Hf ->]]].
  - split; [ intros [e H]; discriminate | ].
    intros (usage & items & Hu & _). rewrite Hf in Hu. discriminate.
  - rewrite summary_raises. split.
    + intros [items [Hi Hx]]. now exists usage, items.
    + intros (usage' & items & Hu & Hi & Hx). rewrite Hf in Hu.
      injection Hu as <-. now exists items.
Qed.

(** X21. A result in which no mapping, at any depth, holds a mapping
    under "usage" has the empty summary: no model, no token, an empty
    usage block. *)
Theorem no_usage_block_empty_summary (res : pyobj) :
  (forall d, inside (VDict d) res -> is_dict (get (py "usage") d) = false) ->
  _extract_usage_summary res = Ok no_usage.
Proof.
  intros Hn. unfold _extract_usage_summary.
  destruct (usage_block_found res) as [H | (d & u & Hin & Hu & _)].
  - rewrite H. reflexivity.
  - apply in_preorder_inside, Hn in Hin. rewrite Hu in Hin. discriminate.
Qed.

(** A result whose only "usage" entry is a string. *)
Lemma no_usage_block_empty_summary_witness :
  _extract_usage_summary
    (VDict [(py "result", VDict [(py "usage", VStr (py "n/a"))])])
  = Ok no_usage.
Proof.
  apply no_usage_block_empty_summary.
  intros d Hd. apply in_preorder_inside in Hd.
  cbv [preorder app] in Hd.
  repeat (destruct Hd as [Hd | Hd];
          [ try discriminate; injection Hd as <-; reflexivity | ]).
  contradiction.
Defined.

Lemma input_never_straddles (c : ascii) (s : str) :
  starts_with (py "-input") (c :: s) = false ->
  starts_with (py "-input") ((c :: s) ++ py "-input") = false.
Proof.
  change (py "-input") with ["-"; "i"; "n"; "p"; "u"; "t"]%char.
  destruct s as [| a2 [| a3 [| a4 [| a5 [| a6 s]]]]];
    cbn [starts_with app]; intros H;
    repeat match goal with
           | |- context [Ascii.eqb ?x ?y] =>
               first [ is_var y; destruct (Ascii.eqb x y)
                     | let b := eval vm_compute in (Ascii.eqb x y) in
                       change (Ascii.eqb x y) with b ];
               cbn [andb]
           end;
    try reflexivity; try discriminate.
Qed.

Lemma output_never_straddles (c : ascii) (s : str) :
  starts_with (py "-output") (c :: s) = false ->
  starts_with (py "-output") ((c :: s) ++ py "-output") = false.
Proof.
  change (py "-output") with ["-"; "o"; "u"; "t"; "p"; "u"; "t"]%char.
  destruct s as [| a2 [| a3 [| a4 [| a5 [| a6 [| a7 s]]]]]];
    cbn [starts_with app]; intros H;
    repeat match goal with
           | |- context [Ascii.eqb ?x ?y] =>
               first [ is_var y; destruct (Ascii.eqb x y)
                     | let b := eval vm_compute in (Ascii.eqb x y) in
                       change (Ascii.eqb x y) with b ];
               cbn [andb]
           end;
    try reflexivity; try discriminate.
Qed.

Lemma remove_suffix (suffix m : str) :
  suffix <> [] ->
  remove_all suffix 0 suffix = [] ->
  (forall c s, starts_with suffix (c :: s) = false ->
               starts_with suffix ((c :: s) ++ suffix) = false) ->
  occurs suffix m = false ->
  remove_all suffix 0 (m ++ suffix) = m.
Proof.
  intros Hne Hself Hstr. induction m as [| c m IH]; intros Ho.
  - exact Hself.
  - cbn [occurs] in Ho. apply orb_false_iff in Ho as [Hs Ho].
    cbn [app remove_all]. change (c :: m ++ suffix) with ((c :: m) ++ suffix).
    rewrite (Hstr _ _ Hs). now rewrite IH.
Qed.

(** X22. Taking the suffix out of a key gives back the model name the key
    was made from, when the name does not itself contain the suffix:
    model ++ "-input" yields model, and likewise for "-output". *)
Theorem model_name_recovered (suffix m : str) :
  In suffix [py "-input"; py "-output"] ->
  occurs suffix m = false ->
  remove_all suffix 0 (m ++ suffix) = m.
Proof.
  intros [<- | [<- | []]]; apply remove_suffix;
    try discriminate; try reflexivity.
  - apply input_never_straddles.
  - apply output_never_straddles.
Qed.

(** The key of the input count of gpt-4.1-mini. *)
Lemma model_name_recovered_witness :
  remove_all (py "-input") 0 (py "gpt-4.1-mini" ++ py "-input")
  = py "gpt-4.1-mini".
Proof.
  apply model_name_recovered; [ now left | reflexivity ].
Defined.

(** ** Cost estimate *)

(** X23. The cost estimate is None exactly when [float] rejects one of
    the two price strings as [str.strip] leaves them, whatever the token
    counts are; an unset price is the empty string, which [float] rejects.
    What [str.strip] removes and [float] would not skip, such as U+001C,
    does not make a price unusable. *)
Theorem cost_needs_both_prices (price_in price_out : str)
    (input_tokens output_tokens : Z) :
  (_estimate_cost_usd price_in price_out input_tokens output_tokens = Ok None
   <-> raises (float_of_string (strip price_in))
       \/ raises (float_of_string (strip price_out)))
  /\ raises (float_of_string (strip (py "")))
  /\ raises (float_of_string ("028"%char :: py "0.003"))
  /\ returns (float_of_string (strip ("028"%char :: py "0.003"))).
Proof.
  split; [ | split; [ now exists ValueError
                    | split; [ now exists ValueError
                             | eexists; vm_compute; reflexivity ] ] ].
  unfold _estimate_cost_usd.
  destruct (float_of_string (strip price_in)) as [p | e];
    cbn [bind try_except].
  - destruct (float_of_string (strip price_out)) as [q | e];
      cbn [bind try_except].
    + split.
      * destruct (py_truediv (VInt input_tokens) _); cbn [bind];
          [ | discriminate ].
        destruct (py_truediv (VInt output_tokens) _); cbn [bind];
          discriminate.
      * intros [[e H] | [e H]]; discriminate.
    + split; [ | reflexivity ]. intros _. right. now exists e.
  - split; [ | reflexivity ]. intros _. left. now exists e.
Qed.

(** ** Field extraction as a whole *)

Lemma lookup_in (k : str) (d : list (str * pyobj)) (v : pyobj) :
  lookup k d = Some v -> exists k', In (k', v) d.
Proof.
  induction d as [| [k' x] d IH]; simpl; [ discriminate | ].
  destruct (str_eqb k' k).
  - intros H. injection H as <-. exists k'. now left.
  - intros H. destruct (IH H) as [k'' Hk]. exists k''. now right.
Qed.

Lemma get_inside (k : str) (d : list (str * pyobj)) :
  get k d <> VNone -> inside (get k d) (VDict d).
Proof.
  unfold get. destruct (lookup k d) as [v |] eqn:E; [ | congruence ].
  intros _. destruct (lookup_in _ _ _ E) as [k' Hk].
  eapply inside_entry; [ exact Hk | apply inside_here ].
Qed.

Lemma truthy_get_inside (k : str) (d : list (str * pyobj)) :
  truthy (get k d) = true -> inside (get k d) (VDict d).
Proof.
  intros T. apply get_inside. intros E. rewrite E in T. discriminate.
Qed.

Lemma dict_get_inside (k : str) (d : list (str * pyobj)) :
  is_dict (get k d) = true -> inside (get k d) (VDict d).
Proof.
  intros T. apply get_inside. intros E. rewrite E in T. discriminate.
Qed.

Lemma inside_trans (a b c : pyobj) : inside a b -> inside b c -> inside a c.
Proof.
  intros Hab Hbc. induction Hbc as [| x l Hx _ IH | k x d Hx _ IH].
  - exact Hab.
  - eapply inside_item; eauto.
  - eapply inside_entry; eauto.
Qed.

Lemma contents_inside (res r c contents : pyobj) :
  attr_get res (py "result") = Ok r ->
  attr_get (or_else r (VDict [])) (py "contents") = Ok c ->
  (if negb (truthy (or_else c (VList []))) then
     c' <- attr_get res (py "contents") ;;
     Ok (or_else c' (VList []))
   else Ok (or_else c (VList []))) = Ok contents ->
  truthy contents = true -> inside contents res.
Proof.
  destruct res as [| | | | | | d]; try discriminate.
  cbn [attr_get]. intros Hr. injection Hr as <-. intros Hc H3 T.
  destruct (truthy (or_else c (VList []))) eqn:T0; cbn [negb] in H3.
  - injection H3 as <-. unfold or_else in T0 |- *.
    destruct (truthy c) eqn:Tc; [ | discriminate ].
    unfold or_else in Hc. destruct (truthy (get (py "result") d)) eqn:Tr.
    + destruct (get (py "result") d) as [| | | | | | rd] eqn:Er;
        try discriminate.
      cbn [attr_get] in Hc. injection Hc as <-.
      apply inside_trans with (VDict rd); [ now apply truthy_get_inside | ].
      rewrite <- Er. apply truthy_get_inside. now rewrite Er.
    + cbn in Hc. injection Hc as <-. discriminate.
  - cbn [bind] in H3. injection H3 as <-. unfold or_else in T |- *.
    destruct (truthy (get (py "contents") d)) eqn:Tc; [ | discriminate ].
    now apply truthy_get_inside.
Qed.

Lemma picked_content (contents content : pyobj) (items : list pyobj) :
  iterate contents = Ok items ->
  pick_content contents items = Ok content ->
  is_dict content = true ->
  inside content contents /\ truthy contents = true.
Proof.
  unfold pick_content. intros Hi Hp Hd.
  destruct (List.find document_like items) as [c |] eqn:E.
  - injection Hp as <-. apply find_some in E as [Hin _].
    destruct contents as [| | | | s | l | d]; try discriminate;
      injection Hi as <-.
    + apply in_map_iff in Hin as [x [<- _]]. discriminate.
    + split; [ | now destruct l ].
      eapply inside_item; [ exact Hin | apply inside_here ].
    + apply in_map_iff in Hin as [x [<- _]]. discriminate.
  - destruct (truthy contents) eqn:T;
      [ | injection Hp as <-; discriminate ].
    split; [ | reflexivity ].
    destruct contents as [| | | | s | l | d]; try discriminate.
    + apply bind_ok in Hp as [ch [_ Hp]]. injection Hp as <-. discriminate.
    + unfold index in Hp. destruct (nth_error l 0) as [x |] eqn:En;
        [ | discriminate ].
      injection Hp as <-. apply nth_error_In in En.
      eapply inside_item; [ exact En | apply inside_here ].
Qed.

Lemma candidates_inside (content : pyobj) (cands : list pyobj) :
  candidate_fields_of content = Ok cands ->
  Forall (fun f => inside f content) cands
  /\ (cands <> [] -> is_dict content = true).
Proof.
  destruct content as [| | | | | | c];
    try (intros H; injection H as <-; split; [ constructor | congruence ]).
  unfold candidate_fields_of. cbv zeta.
  set (known := filter is_dict _).
  assert (Hk : Forall (fun f => inside f (VDict c)) known).
  { apply Forall_forall. intros f Hf. apply filter_In in Hf as [Hf Hd].
    apply in_map_iff in Hf as [k [<- _]]. now apply dict_get_inside. }
  intros H. split; [ | reflexivity ].
  destruct (or_else (or_else (get (py "extraction") c) (get (py "result") c))
              (VDict [])) as [| | | | | | e] eqn:Ee;
    try (injection H as <-; exact Hk).
  destruct (is_dict (get (py "fields") e)) eqn:Ef;
    [ | injection H as <-; exact Hk ].
  apply bind_ok in H as [f [Hf H]]. injection H as <-.
  apply Forall_app. split; [ exact Hk | ].
  constructor; [ | constructor ].
  assert (f = get (py "fields") e) as ->.
  { unfold getitem in Hf. unfold get.
    destruct (lookup (py "fields") e); [ now injection Hf | discriminate ]. }
  apply inside_trans with (VDict e); [ now apply dict_get_inside | ].
  unfold or_else in Ee.
  destruct (truthy (get (py "extraction") c)) eqn:T1.
  - rewrite T1 in Ee. rewrite <- Ee. now apply truthy_get_inside.
  - destruct (truthy (get (py "result") c)) eqn:T2.
    + rewrite <- Ee. now apply truthy_get_inside.
    + injection Ee as <-. discriminate.
Qed.

Lemma entry_field (k : str) (v : pyobj) (fs : list Field) :
  field_of_entry k v = Ok fs ->
  Forall2 field_matches fs (mapping_entries [(k, v)]).
Proof.
  unfold mapping_entries. cbn [filter snd].
  destruct v as [| | | | | | fo]; cbn [field_of_entry is_dict];
    try (intros H; injection H as <-; constructor).
  intros H. apply bind_ok in H as [val [Hv H]].
  apply bind_ok in H as [rs [_ H]]. apply bind_ok in H as [rs' [_ H]].
  injection H as <-. constructor; [ | constructor ].
  split; [ reflexivity | ]. exists fo. split; [ reflexivity | exact Hv ].
Qed.

Lemma entries_fields (fm : list (str * pyobj)) (fields : list Field) :
  extend_each (fun kv => field_of_entry (fst kv) (snd kv)) fm = Ok fields ->
  Forall2 field_matches fields (mapping_entries fm).
Proof.
  revert fields. induction fm as [| [k v] fm IH]; intros fields H.
  - injection H as <-. constructor.
  - cbn [extend_each fst snd] in H.
    apply bind_ok in H as [ys [Hy H]]. apply bind_ok in H as [zs [Hz H]].
    injection H as <-.
    replace (mapping_entries ((k, v) :: fm))
      with (mapping_entries [(k, v)] ++ mapping_entries fm)
      by (unfold mapping_entries; cbn [filter snd];
          now destruct (is_dict v)).
    apply Forall2_app; [ now apply entry_field | now apply IH ].
Qed.

Lemma fields_map_of_result (res : pyobj) (fields : list Field) :
  extract_fields_with_locations res = Ok fields ->
  fields = []
  \/ exists fm,
       inside (VDict fm) res
       /\ extend_each (fun kv => field_of_entry (fst kv) (snd kv)) fm
          = Ok fields.
Proof.
  unfold extract_fields_with_locations. intros H.
  apply bind_ok in H as [r [Hr H]]. apply bind_ok in H as [c [Hc H]].
  cbv zeta in H.
  apply bind_ok in H as [contents [Hcs H]].
  apply bind_ok in H as [items [Hi H]].
  apply bind_ok in H as [content [Hp H]].
  apply bind_ok in H as [cands [Hcand H]].
  apply bind_ok in H as [fields_map [Hfm H]].
  destruct fields_map as [| | | | | | fm];
    try (injection H as <-; now left).
  destruct (negb (truthy (VDict fm))); [ injection H as <-; now left | ].
  right. exists fm. split; [ | exact H ].
  destruct (candidates_inside _ _ Hcand) as [Hin Hd].
  destruct cands as [| f cands'].
  - injection Hfm as Hfm. rewrite find_fields_map_preorder in Hfm.
    destruct (List.find is_fields_map (preorder res)) as [m |] eqn:E;
      [ | discriminate ].
    subst m. apply find_some in E as [E _]. now apply in_preorder_inside.
  - injection Hfm as ->. inversion Hin as [| ? ? Hf _]; subst.
    destruct (picked_content _ _ _ Hi Hp (Hd ltac:(discriminate)))
      as [Hc1 T].
    apply inside_trans with content; [ exact Hf | ].
    apply inside_trans with contents; [ exact Hc1 | ].
    exact (contents_inside _ _ _ _ Hr Hc Hcs T).
Qed.

(** X24. The fields the extraction returns correspond one to one, and in
    order, to the entries holding a mapping of one mapping nested in the
    result: each field has its entry's key as name and the value picked
    in its entry; entries that hold no mapping are passed over. *)
Theorem extracted_fields_follow_map (res : pyobj) (fields : list Field) :
  extract_fields_with_locations res = Ok fields ->
  fields = []
  \/ exists fm,
       inside (VDict fm) res
       /\ Forall2 field_matches fields (mapping_entries fm).
Proof.
  intros H. destruct (fields_map_of_result _ _ H) as [-> | [fm [Hin Hf]]];
    [ now left | ].
  right. exists fm. split; [ exact Hin | now apply entries_fields ].
Qed.

(** The two fields of [review_example]. *)
Lemma extracted_fields_follow_map_witness :
  review_fields = []
  \/ exists fm,
       inside (VDict fm) review_example
       /\ Forall2 field_matches review_fields (mapping_entries fm).
Proof.
  apply extracted_fields_follow_map. vm_compute. reflexivity.
Defined.

Lemma sources_resolved (raw_sources : list pyobj) (out : list Region) :
  _sources_to_regions raw_sources = Ok out -> resolved out.
Proof.
  unfold _sources_to_regions. intros H.
  apply bind_ok in H as [produced [Hp H]]. split.
  - assert (Hw : Forall bbox_from_polygon produced).
    { eapply extend_each_forall; [ | exact Hp ].
      apply Forall_forall. intros x _ ys. apply consume_wf. }
    apply dedupe_subseq in H.
    rewrite Forall_forall in *. intros r Hr. apply Hw.
    eapply subseq_in; eauto.
  - apply dedupe_fixed.
    + eapply dedupe_hashable; eauto.
    + apply Forall_forall. intros r _. constructor.
    + eapply dedupe_distinct; eauto.
Qed.

Lemma entry_resolved (k : str) (v : pyobj) (fs : list Field) :
  field_of_entry k v = Ok fs -> Forall (fun f => resolved (regions f)) fs.
Proof.
  destruct v as [| | | | | | fo]; cbn [field_of_entry];
    try (intros H; injection H as <-; constructor).
  intros H. apply bind_ok in H as [val [_ H]].
  apply bind_ok in H as [rs [Hrs H]]. apply bind_ok in H as [rs' [Hrs' H]].
  injection H as <-. constructor; [ | constructor ]. cbn [regions].
  destruct rs as [| r rs].
  - now apply sources_resolved in Hrs'.
  - injection Hrs' as <-. now apply sources_resolved in Hrs.
Qed.

(** X25. In everything the extraction returns, the regions of each field
    are as the resolver leaves them: every region has no polygon or the
    bbox computed from its polygon, and no two regions of a field share
    page and bbox (running the de-duplication again changes nothing). *)
Theorem extracted_regions_resolved (res : pyobj) (fields : list Field) :
  extract_fields_with_locations res = Ok fields ->
  Forall (fun f => resolved (regions f)) fields.
Proof.
  intros H. destruct (fields_map_of_result _ _ H) as [-> | [fm [_ Hf]]];
    [ constructor | ].
  eapply extend_each_forall; [ | exact Hf ].
  apply Forall_forall. intros kv _ fs. apply entry_resolved.
Qed.

(** The two fields of [review_example] again. *)
Lemma extracted_regions_resolved_witness :
  Forall (fun f => resolved (regions f)) review_fields.
Proof.
  apply (extracted_regions_resolved review_example). vm_compute. reflexivity.
Defined.
